(** * SmartCanvasV: the state controller of [smart_canvas/core.py] and the
    element registry of [smart_canvas/ui.py], embedded in Rocq.

    Python floats are IEEE binary64 numbers: they are modelled by Rocq's
    primitive floats, whose operations are the same ones, so that every
    comparison and every sum below computes what the interpreter computes.
    Python objects that are shared by reference (the state objects, which
    hold the controller and are held by it) live in an object store.
    Exceptions are modelled by an outcome that keeps the effects made before
    the raise. *)

From Stdlib Require Import ZArith String List Bool Lia Floats DecimalString DecimalZ
  DecimalPos.
From stdpp Require Import base option list gmap strings.

Set Warnings "-inexact-float,-clear-no-such-hyp".
Local Open Scope Z_scope.

(** ** Exceptions and outcomes *)

(** The parties a failure can come from: the gesture classifier, the
    foreground masker, OpenCV's [bitwise_and] and the filter transform. *)
Inductive Collaborator := Classifier | Masker | OpenCV | FilterTransform.

Inductive exn :=
| KeyError
| AttributeError
| ValueError
| OverflowError
| CollaboratorError (who : Collaborator).

Inductive outcome (A : Type) :=
| Ok (a : A)
| Raise (e : exn).
Arguments Ok {A} a.
Arguments Raise {A} e.

(** ** Python numbers *)

Module Py.

(** [int(x)] for a float [x]: truncation toward zero; infinities and NaN
    raise. *)
Definition int (x : float) : outcome Z :=
  match Prim2SF x with
  | S754_zero _ => Ok 0
  | S754_infinity _ => Raise OverflowError
  | S754_nan => Raise ValueError
  | S754_finite s m e =>
      let v := Z.shiftl (Z.pos m) e in Ok (if s then - v else v)
  end.

(** [floor(x)] on the same representation, to compare [int] with. *)
Definition floor (x : float) : outcome Z :=
  match Prim2SF x with
  | S754_zero _ => Ok 0
  | S754_infinity _ => Raise OverflowError
  | S754_nan => Raise ValueError
  | S754_finite s m e =>
      Ok (Z.shiftl (if s then Z.neg m else Z.pos m) e)
  end.

(** [math.isfinite(x)]: [x] is a number, neither an infinity nor NaN, as
    the readings of [time.time()] are. *)
Definition number (x : spec_float) : bool :=
  match x with
  | S754_zero _ | S754_finite _ _ _ => true
  | S754_infinity _ | S754_nan => false
  end.

Definition isfinite (x : float) : bool := number (Prim2SF x).

(** ['{}'.format(n)] for an integer [n]. *)
Definition str (n : Z) : string := NilZero.string_of_int (Z.to_int n).

End Py.

(** ** ui.py *)

(** [TextWriterTest]: a text element.  [scale] is not an attribute of the
    class; [UI.set_prog] creates it on an element of this class. *)
Module TextWriterTest.
Record t := mk {
  pos : Z * Z;
  size : float;
  visible : bool;
  scale : option float
}.
Definition __init__ (position : Z * Z) (size : float) : t :=
  {| pos := position; size := size; visible := false; scale := None |}.
End TextWriterTest.

(** [Progressbar]: the setter of [scale] clamps negative values to [0.0]. *)
Module Progressbar.
Record t := mk {
  visible : bool;
  _scale : float
}.
Definition __init__ : t := {| visible := true; _scale := 0.0 |}.
Definition set_scale (value : float) (p : t) : t :=
  if (value <? 0.0)%float
  then {| visible := visible p; _scale := 0.0 |}
  else {| visible := visible p; _scale := value |}.
End Progressbar.

Inductive Element :=
| Text (e : TextWriterTest.t)
| Bar (e : Progressbar.t).

Definition set_visible (b : bool) (e : Element) : Element :=
  match e with
  | Text e =>
      Text {| TextWriterTest.pos := TextWriterTest.pos e;
              TextWriterTest.size := TextWriterTest.size e;
              TextWriterTest.visible := b;
              TextWriterTest.scale := TextWriterTest.scale e |}
  | Bar e =>
      Bar {| Progressbar.visible := b;
             Progressbar._scale := Progressbar._scale e |}
  end.

Definition get_visible (e : Element) : bool :=
  match e with
  | Text e => TextWriterTest.visible e
  | Bar e => Progressbar.visible e
  end.

(** [element.scale = value] *)
Definition assign_scale (value : float) (e : Element) : Element :=
  match e with
  | Text e =>
      Text {| TextWriterTest.pos := TextWriterTest.pos e;
              TextWriterTest.size := TextWriterTest.size e;
              TextWriterTest.visible := TextWriterTest.visible e;
              TextWriterTest.scale := Some value |}
  | Bar e => Bar (Progressbar.set_scale value e)
  end.

Module UI.

Record t := mk {
  elements : gmap string Element;
  texts : gmap string string
}.

Definition __init__ : t := {| elements := ∅; texts := ∅ |}.

Definition with_elements (m : gmap string Element) (u : t) : t :=
  {| elements := m; texts := texts u |}.

Definition create_text (name : string) (pos : Z * Z) (size : float) (u : t)
  : t * outcome unit :=
  (with_elements (<[name := Text (TextWriterTest.__init__ pos size)]> (elements u)) u,
   Ok tt).

Definition create_progressbar (name : string) (u : t) : t * outcome unit :=
  (with_elements (<[name := Bar Progressbar.__init__]> (elements u)) u, Ok tt).

Definition set_text (name text : string) (u : t) : t * outcome unit :=
  match elements u !! name with
  | None => (u, Raise KeyError)
  | Some _ =>
      ({| elements := elements u; texts := <[name := text]> (texts u) |}, Ok tt)
  end.

Definition set_prog (name : string) (value : float) (u : t) : t * outcome unit :=
  match elements u !! name with
  | None => (u, Raise KeyError)
  | Some e => (with_elements (<[name := assign_scale value e]> (elements u)) u, Ok tt)
  end.

(** The loop of [show] and [hide]: the elements before a missing name have
    been switched when the [KeyError] is raised. *)
Fixpoint set_visible_all (b : bool) (names : list string) (u : t)
  : t * outcome unit :=
  match names with
  | [] => (u, Ok tt)
  | name :: rest =>
      match elements u !! name with
      | Some e =>
          set_visible_all b rest
            (with_elements (<[name := set_visible b e]> (elements u)) u)
      | None => (u, Raise KeyError)
      end
  end.

Definition show (names : list string) (u : t) : t * outcome unit :=
  set_visible_all true names u.

Definition hide (names : list string) (u : t) : t * outcome unit :=
  set_visible_all false names u.

(** The commands of the registry, as data. *)
Inductive command :=
| CreateText (name : string) (pos : Z * Z) (size : float)
| CreateProgressbar (name : string)
| SetText (name text : string)
| SetProg (name : string) (value : float)
| Show (names : list string)
| Hide (names : list string).

Definition exec (c : command) (u : t) : t * outcome unit :=
  match c with
  | CreateText name pos size => create_text name pos size u
  | CreateProgressbar name => create_progressbar name u
  | SetText name text => set_text name text u
  | SetProg name value => set_prog name value u
  | Show names => show names u
  | Hide names => hide names u
  end.

(** A history of commands, each one run whatever the previous one returned. *)
Definition run (h : list command) (u : t) : t :=
  fold_left (fun u c => fst (exec c u)) h u.

(** The names a command creates, and the names it addresses. *)
Definition creates (c : command) : list string :=
  match c with
  | CreateText name _ _ | CreateProgressbar name => [name]
  | _ => []
  end.

(** The names a history of commands has created. *)
Definition created (h : list command) : list string := flat_map creates h.

Definition addresses (c : command) : list string :=
  match c with
  | SetText name _ | SetProg name _ => [name]
  | Show names | Hide names => names
  | _ => []
  end.

End UI.

(** ** Observations of the registry *)

(** Whether the element [n] is drawn; [None] when there is no such element. *)
Definition shown (u : UI.t) (n : string) : option bool :=
  get_visible <$> UI.elements u !! n.

(** The scale the progress bar [n] is drawn with; [None] when [n] is not a
    progress bar. *)
Definition bar_scale (u : UI.t) (n : string) : option float :=
  match UI.elements u !! n with
  | Some (Bar p) => Some (Progressbar._scale p)
  | _ => None
  end.

(** The value the setter of [Progressbar.scale] stores for [value]. *)
Definition clamped (value : float) : float :=
  if (value <? 0)%float then 0%float else value.

(** Every name that has a text has an element: what the loop of [UI.draw]
    over [texts], which reads [self.elements[k]], relies on. *)
Definition texts_have_elements (u : UI.t) : Prop :=
  forall n, is_Some (UI.texts u !! n) -> is_Some (UI.elements u !! n).

(** The elements [Idle.enter] shows and [Filter.enter] hides. *)
Definition help_names : list string := ["help_1"; "help_2"; "filter_name"; "bar"].

(** The overlay: the elements of [help_names] are all drawn or all hidden,
    and so is the countdown. *)
Definition overlay_shows (u : UI.t) (help countdown : bool) : Prop :=
  (forall n, n ∈ help_names -> shown u n = Some help)
  /\ shown u "countdown" = Some countdown.

(** ** core.py: the collaborators *)

(** The modules [smart_canvas.gesture_detection], [smart_canvas.background]
    and [smart_canvas.filters.carousel], and OpenCV, are used by core.py
    through the calls below and nothing else; they are parameters of the
    development.  Each collaborator object may keep a state of its own, and
    every call that computes on a frame may fail.  The classifier answers
    with an integer; core.py only compares the answer with [5] and [2]. *)
Class Collaborators := {
  Frame : Type;
  Mask : Type;
  HandDetect : Type;
  ForegroundMask : Type;
  FilterCarousel : Type;
  new_HandDetect : HandDetect;
  new_ForegroundMask : ForegroundMask;
  new_FilterCarousel : FilterCarousel;
  count_fingers : HandDetect -> Frame -> HandDetect * outcome Z;
  apply : ForegroundMask -> Frame -> ForegroundMask * outcome Mask;
  bitwise_and : Frame -> Frame -> Mask -> outcome Frame;
  next_filter : FilterCarousel -> FilterCarousel;
  current_name : FilterCarousel -> string;
  current_filter : FilterCarousel -> Frame -> outcome Frame
}.

(** ** core.py: the state objects *)

Module Idle.
Record t := mk {
  take_pic_cnt : float;
  change_filter_time : float;
  finger_frame_interval : float
}.
Definition __init__ : t :=
  {| take_pic_cnt := 0.0; change_filter_time := 0.0; finger_frame_interval := 0.0 |}.
Definition with_take_pic_cnt (x : float) (s : t) : t :=
  {| take_pic_cnt := x;
     change_filter_time := change_filter_time s;
     finger_frame_interval := finger_frame_interval s |}.
Definition with_change_filter_time (x : float) (s : t) : t :=
  {| take_pic_cnt := take_pic_cnt s;
     change_filter_time := x;
     finger_frame_interval := finger_frame_interval s |}.
Definition with_finger_frame_interval (x : float) (s : t) : t :=
  {| take_pic_cnt := take_pic_cnt s;
     change_filter_time := change_filter_time s;
     finger_frame_interval := x |}.
End Idle.

Module Filter.
Record t := mk { countdown_time : float }.
Definition __init__ : t := {| countdown_time := 0.0 |}.
End Filter.

Module ShowPic.
Record t := mk { show_image_time : float }.
Definition __init__ : t := {| show_image_time := 0.0 |}.
End ShowPic.

(** An object of one of the four subclasses of [State]. *)
Inductive State :=
| StartupObj
| IdleObj (s : Idle.t)
| FilterObj (s : Filter.t)
| ShowPicObj (s : ShowPic.t).

(** A reference to a state object. *)
Definition loc := nat.

(** The class of a state object, and the class [set_state] is given by the
    updates of each class: [Startup.update] and [ShowPic.update] build an
    [Idle], [Idle.update_filter_trigger] a [Filter], [Filter.update] a
    [ShowPic]. *)
Inductive Kind := KStartup | KIdle | KFilter | KShowPic.

Definition kind (o : State) : Kind :=
  match o with
  | StartupObj => KStartup
  | IdleObj _ => KIdle
  | FilterObj _ => KFilter
  | ShowPicObj _ => KShowPic
  end.

Definition successor (k : Kind) : Kind :=
  match k with
  | KStartup => KIdle
  | KIdle => KFilter
  | KFilter => KShowPic
  | KShowPic => KIdle
  end.

Section Core.
Context {C : Collaborators}.

(** ** core.py: the controller *)

Record CanvasCore := {
  stopped : bool;
  tick : float;
  out_frame : option Frame;
  filters : FilterCarousel;
  fg_masker : ForegroundMask;
  hand_detector : HandDetect;
  ui : UI.t;
  win_size : Z * Z;
  filtered_frame : option Frame;
  _state : option loc
}.

(** The calls the controller makes on its collaborators.  The history of
    calls is not a field of the program: it is kept so that statements can
    speak of which calls an update makes, and in which order. *)
Inductive Call :=
| CallCountFingers (frame : Frame)
| CallApply (frame : Frame)
| CallBitwiseAnd (frame : Frame) (mask : Mask)
| CallCurrentFilter (frame : Frame)
| CallNextFilter
| CallUI (c : UI.command).

Record World := {
  core : CanvasCore;
  objects : list State;
  calls : list Call
}.

Definition with_core (c : CanvasCore) (w : World) : World :=
  {| core := c; objects := objects w; calls := calls w |}.
Definition with_objects (o : list State) (w : World) : World :=
  {| core := core w; objects := o; calls := calls w |}.
Definition with_calls (l : list Call) (w : World) : World :=
  {| core := core w; objects := objects w; calls := l |}.

Definition with_stopped (x : bool) (c : CanvasCore) : CanvasCore :=
  {| stopped := x; tick := tick c; out_frame := out_frame c; filters := filters c;
     fg_masker := fg_masker c; hand_detector := hand_detector c; ui := ui c;
     win_size := win_size c; filtered_frame := filtered_frame c; _state := _state c |}.
Definition with_tick (x : float) (c : CanvasCore) : CanvasCore :=
  {| stopped := stopped c; tick := x; out_frame := out_frame c; filters := filters c;
     fg_masker := fg_masker c; hand_detector := hand_detector c; ui := ui c;
     win_size := win_size c; filtered_frame := filtered_frame c; _state := _state c |}.
Definition with_out_frame (x : option Frame) (c : CanvasCore) : CanvasCore :=
  {| stopped := stopped c; tick := tick c; out_frame := x; filters := filters c;
     fg_masker := fg_masker c; hand_detector := hand_detector c; ui := ui c;
     win_size := win_size c; filtered_frame := filtered_frame c; _state := _state c |}.
Definition with_filters (x : FilterCarousel) (c : CanvasCore) : CanvasCore :=
  {| stopped := stopped c; tick := tick c; out_frame := out_frame c; filters := x;
     fg_masker := fg_masker c; hand_detector := hand_detector c; ui := ui c;
     win_size := win_size c; filtered_frame := filtered_frame c; _state := _state c |}.
Definition with_fg_masker (x : ForegroundMask) (c : CanvasCore) : CanvasCore :=
  {| stopped := stopped c; tick := tick c; out_frame := out_frame c; filters := filters c;
     fg_masker := x; hand_detector := hand_detector c; ui := ui c;
     win_size := win_size c; filtered_frame := filtered_frame c; _state := _state c |}.
Definition with_hand_detector (x : HandDetect) (c : CanvasCore) : CanvasCore :=
  {| stopped := stopped c; tick := tick c; out_frame := out_frame c; filters := filters c;
     fg_masker := fg_masker c; hand_detector := x; ui := ui c;
     win_size := win_size c; filtered_frame := filtered_frame c; _state := _state c |}.
Definition with_ui (x : UI.t) (c : CanvasCore) : CanvasCore :=
  {| stopped := stopped c; tick := tick c; out_frame := out_frame c; filters := filters c;
     fg_masker := fg_masker c; hand_detector := hand_detector c; ui := x;
     win_size := win_size c; filtered_frame := filtered_frame c; _state := _state c |}.
Definition with_filtered_frame (x : option Frame) (c : CanvasCore) : CanvasCore :=
  {| stopped := stopped c; tick := tick c; out_frame := out_frame c; filters := filters c;
     fg_masker := fg_masker c; hand_detector := hand_detector c; ui := ui c;
     win_size := win_size c; filtered_frame := x; _state := _state c |}.
Definition with__state (x : option loc) (c : CanvasCore) : CanvasCore :=
  {| stopped := stopped c; tick := tick c; out_frame := out_frame c; filters := filters c;
     fg_masker := fg_masker c; hand_detector := hand_detector c; ui := ui c;
     win_size := win_size c; filtered_frame := filtered_frame c; _state := x |}.

(** ** Statements: state, exceptions, and the history of calls *)

Definition M (A : Type) : Type := World -> World * outcome A.

Definition ret {A} (a : A) : M A := fun w => (w, Ok a).

Definition raise {A} (e : exn) : M A := fun w => (w, Raise e).

Definition bind {A B} (m : M A) (k : A -> M B) : M B :=
  fun w =>
    match m w with
    | (w', Ok a) => k a w'
    | (w', Raise e) => (w', Raise e)
    end.

Declare Scope py_scope.
Delimit Scope py_scope with py.
Notation "'let*' x ':=' m 'in' k" := (bind m (fun x => k))
  (at level 10, x name, m at level 100, k at level 200) : py_scope.
Notation "m ;; k" := (bind m (fun _ => k))
  (at level 100, k at level 200, right associativity) : py_scope.
Local Open Scope py_scope.

Definition get_core : M CanvasCore := fun w => (w, Ok (core w)).

Definition modify_core (f : CanvasCore -> CanvasCore) : M unit :=
  fun w => (with_core (f (core w)) w, Ok tt).

Definition call (c : Call) : M unit :=
  fun w => (with_calls (calls w ++ [c]) w, Ok tt).

(** [C()]: a new object. *)
Definition new (o : State) : M loc :=
  fun w => (with_objects (objects w ++ [o]) w, Ok (length (objects w))).

(** Reading the object behind a reference.  A reference is always one that
    [new] returned; the other branch is there to make the function total. *)
Definition deref (self : loc) : M State :=
  fun w =>
    match objects w !! self with
    | Some o => (w, Ok o)
    | None => (w, Raise AttributeError)
    end.

Definition assign (self : loc) (o : State) : M unit :=
  fun w => (with_objects (<[self := o]> (objects w)) w, Ok tt).

Definition get_idle (self : loc) : M Idle.t :=
  let* o := deref self in
  match o with IdleObj s => ret s | _ => raise AttributeError end.

Definition get_filter (self : loc) : M Filter.t :=
  let* o := deref self in
  match o with FilterObj s => ret s | _ => raise AttributeError end.

Definition get_showpic (self : loc) : M ShowPic.t :=
  let* o := deref self in
  match o with ShowPicObj s => ret s | _ => raise AttributeError end.

(** A call on [self.core.ui]. *)
Definition ui_call (c : UI.command) : M unit :=
  call (CallUI c) ;;
  fun w =>
    let (u, r) := UI.exec c (ui (core w)) in
    (with_core (with_ui u (core w)) w, r).

(** [self.core.hand_detector.count_fingers(frame)] *)
Definition hand_detector_count_fingers (frame : Frame) : M Z :=
  call (CallCountFingers frame) ;;
  fun w =>
    let (h, r) := count_fingers (hand_detector (core w)) frame in
    (with_core (with_hand_detector h (core w)) w, r).

(** [self.core.fg_masker.apply(frame)] *)
Definition fg_masker_apply (frame : Frame) : M Mask :=
  call (CallApply frame) ;;
  fun w =>
    let (m, r) := apply (fg_masker (core w)) frame in
    (with_core (with_fg_masker m (core w)) w, r).

(** [cv2.bitwise_and(frame, frame, mask=fg_mask)] *)
Definition cv2_bitwise_and (frame : Frame) (fg_mask : Mask) : M Frame :=
  call (CallBitwiseAnd frame fg_mask) ;;
  fun w => (w, bitwise_and frame frame fg_mask).

(** [self.core.filters.current_filter(masked_frame)] *)
Definition filters_current_filter (masked_frame : Frame) : M Frame :=
  call (CallCurrentFilter masked_frame) ;;
  fun w => (w, current_filter (filters (core w)) masked_frame).

(** [self.core.filters.next_filter()] *)
Definition filters_next_filter : M unit :=
  call CallNextFilter ;;
  modify_core (fun c => with_filters (next_filter (filters c)) c).

(** ['Current filter is {}'.format(self.core.filters.current_name)] *)
Definition filter_label : M string :=
  let* c := get_core in
  ret ("Current filter is " +:+ current_name (filters c)).

(** ** The entry hooks *)

Definition Startup_enter (self : loc) (tick : float) : M unit :=
  ui_call (UI.CreateText "help_1" (20, 690) 35.0) ;;
  ui_call (UI.CreateText "help_2" (20, 650) 35.0) ;;
  ui_call (UI.CreateText "countdown" (620, 360) 70.0) ;;
  ui_call (UI.CreateText "filter_name" (800, 670) 35.0) ;;
  ui_call (UI.SetText "countdown" "0") ;;
  ui_call (UI.SetText "help_1" "Show 5 fingers to take a picture!") ;;
  ui_call (UI.SetText "help_2" "Show 2 fingers to change filter") ;;
  (let* label := filter_label in ui_call (UI.SetText "filter_name" label)) ;;
  ui_call (UI.CreateProgressbar "bar").

Definition Idle_enter (self : loc) (tick : float) : M unit :=
  ui_call (UI.Show ["help_1"; "help_2"; "filter_name"; "bar"]) ;;
  ui_call (UI.SetProg "bar" 0.0).

Definition Filter_enter (self : loc) (tick : float) : M unit :=
  get_filter self ;;
  assign self (FilterObj {| Filter.countdown_time := tick + 4 |}) ;;
  ui_call (UI.Hide ["help_1"; "help_2"; "filter_name"; "bar"]) ;;
  ui_call (UI.SetText "countdown" "3") ;;
  ui_call (UI.Show ["countdown"]).

Definition ShowPic_enter (self : loc) (tick : float) : M unit :=
  ui_call (UI.Hide ["countdown"]) ;;
  get_showpic self ;;
  assign self (ShowPicObj {| ShowPic.show_image_time := tick + 10 |}).

(** [state.enter(tick)], dispatched on the class of the object. *)
Definition State_enter (self : loc) (tick : float) : M unit :=
  let* o := deref self in
  match o with
  | StartupObj => Startup_enter self tick
  | IdleObj _ => Idle_enter self tick
  | FilterObj _ => Filter_enter self tick
  | ShowPicObj _ => ShowPic_enter self tick
  end.

(** [CanvasCore.set_state]: the object becomes the active state, then its
    entry hook runs with the controller's tick.  ([state.core = self] has
    nothing to record: there is one controller.) *)
Definition CanvasCore_set_state (state : loc) : M unit :=
  modify_core (with__state (Some state)) ;;
  let* c := get_core in
  State_enter state (tick c).

(** ** The update methods *)

Definition Startup_update (self : loc) (tick : float) (frame : Frame) : M unit :=
  let* state := new (IdleObj Idle.__init__) in
  CanvasCore_set_state state.

Definition Idle_update_filter_carousel (self : loc) (finger_count : Z) (tick : float)
  : M unit :=
  if (finger_count =? 2)%Z then
    let* s := get_idle self in
    if (Idle.change_filter_time s - tick <=? 0)%float
       && (Idle.take_pic_cnt s <=? 0)%float
    then
      assign self (IdleObj (Idle.with_change_filter_time (tick + 1.5) s)) ;;
      filters_next_filter ;;
      let* label := filter_label in
      ui_call (UI.SetText "filter_name" label)
    else ret tt
  else ret tt.

Definition Idle_update_filter_trigger (self : loc) (finger_count : Z) : M unit :=
  (let* s := get_idle self in
   if (finger_count =? 5)%Z then
     assign self (IdleObj (Idle.with_take_pic_cnt (Idle.take_pic_cnt s + 0.05) s))
   else if (0.0 <? Idle.take_pic_cnt s)%float then
     assign self (IdleObj (Idle.with_take_pic_cnt (Idle.take_pic_cnt s - 0.1) s))
   else ret tt) ;;
  let* s := get_idle self in
  if (1.0 <=? Idle.take_pic_cnt s)%float then
    let* state := new (FilterObj Filter.__init__) in
    CanvasCore_set_state state
  else ret tt.

Definition Idle_update (self : loc) (tick : float) (frame : Frame) : M unit :=
  modify_core (with_out_frame (Some frame)) ;;
  let* s := get_idle self in
  if (Idle.finger_frame_interval s - tick <? 0)%float then
    let* finger_count := hand_detector_count_fingers frame in
    (let* s := get_idle self in
     assign self (IdleObj (Idle.with_finger_frame_interval (tick + 0.1) s))) ;;
    Idle_update_filter_trigger self finger_count ;;
    Idle_update_filter_carousel self finger_count tick ;;
    let* s := get_idle self in
    ui_call (UI.SetProg "bar" (Idle.take_pic_cnt s))
  else ret tt.

Definition Filter_apply_filter (self : loc) (frame : Frame) : M unit :=
  let* fg_mask := fg_masker_apply frame in
  let* masked_frame := cv2_bitwise_and frame fg_mask in
  let* filtered := filters_current_filter masked_frame in
  modify_core (with_filtered_frame (Some filtered)).

Definition Filter_update (self : loc) (tick : float) (frame : Frame) : M unit :=
  let* s := get_filter self in
  if (0 <? Filter.countdown_time s - tick)%float then
    let* n := (fun w => (w, Py.int (Filter.countdown_time s - tick))) in
    ui_call (UI.SetText "countdown" (Py.str n)) ;;
    modify_core (with_out_frame (Some frame))
  else
    ui_call (UI.Hide ["countdown"]) ;;
    Filter_apply_filter self frame ;;
    let* state := new (ShowPicObj ShowPic.__init__) in
    CanvasCore_set_state state.

Definition ShowPic_update (self : loc) (tick : float) (frame : Frame) : M unit :=
  modify_core (fun c => with_out_frame (filtered_frame c) c) ;;
  let* s := get_showpic self in
  if (ShowPic.show_image_time s - tick <? 0)%float then
    let* state := new (IdleObj Idle.__init__) in
    CanvasCore_set_state state
  else ret tt.

(** [state.update(tick, frame)], dispatched on the class of the object. *)
Definition State_update (self : loc) (tick : float) (frame : Frame) : M unit :=
  let* o := deref self in
  match o with
  | StartupObj => Startup_update self tick frame
  | IdleObj _ => Idle_update self tick frame
  | FilterObj _ => Filter_update self tick frame
  | ShowPicObj _ => ShowPic_update self tick frame
  end.

(** [CanvasCore.__init__], at clock reading [now]; [UI()] is the registry's
    first construction. *)
Definition CanvasCore__init__ (now : float) (screensize : Z * Z) : World * outcome unit :=
  (let* state := new StartupObj in CanvasCore_set_state state)
    {| core := {| stopped := false; tick := now; out_frame := None;
                  filters := new_FilterCarousel; fg_masker := new_ForegroundMask;
                  hand_detector := new_HandDetect; ui := UI.__init__;
                  win_size := screensize; filtered_frame := None; _state := None |};
       objects := [];
       calls := [] |}.

(** One turn of the loop of [process]: the frame taken from the queue, the
    clock read, the active state updated. *)
Definition CanvasCore_iteration (now : float) (frame : Frame) : M unit :=
  modify_core (with_tick now) ;;
  let* c := get_core in
  match _state c with
  | Some state => State_update state (tick c) frame
  | None => raise AttributeError
  end.

(** [CanvasCore.process] on the frames the queue delivers, each with the
    reading of the clock when it is taken.  An exception leaves the loop;
    so does the end of the queue (the thread then waits). *)
Fixpoint CanvasCore_process (q : list (float * Frame)) : M unit :=
  match q with
  | [] => ret tt
  | (now, frame) :: q' =>
      let* c := get_core in
      if stopped c then ret tt
      else CanvasCore_iteration now frame ;; CanvasCore_process q'
  end.

Definition CanvasCore_stop : M unit := modify_core (with_stopped true).

(** ** Observations *)

(** The object of the active state. *)
Definition active (w : World) : option State :=
  match _state (core w) with
  | Some l => objects w !! l
  | None => None
  end.

(** The elements [Startup.enter] creates. *)
Definition overlay_names : list string :=
  ["help_1"; "help_2"; "countdown"; "filter_name"; "bar"].

(** The registry holds the elements the states address. *)
Definition ready (u : UI.t) : Prop :=
  forall n, n ∈ overlay_names -> is_Some (UI.elements u !! n).

(** The world after the registry ran a command of the controller. *)
Definition after_ui (c : UI.command) (w : World) : World :=
  {| core := with_ui (fst (UI.exec c (ui (core w)))) (core w);
     objects := objects w;
     calls := calls w ++ [CallUI c] |}.

(** A new object made the active state. *)
Definition installed (o : State) (w : World) : World :=
  {| core := with__state (Some (length (objects w))) (core w);
     objects := objects w ++ [o];
     calls := calls w |}.

(** The worlds the three transitions leave, when the overlay elements
    exist: the new object is the active state and its entry hook has run. *)
Definition entered_Idle (w : World) : World :=
  after_ui (UI.SetProg "bar" 0)
    (after_ui (UI.Show ["help_1"; "help_2"; "filter_name"; "bar"])
       (installed (IdleObj Idle.__init__) w)).

Definition entered_Filter (w : World) : World :=
  after_ui (UI.Show ["countdown"])
    (after_ui (UI.SetText "countdown" "3")
       (after_ui (UI.Hide ["help_1"; "help_2"; "filter_name"; "bar"])
          (installed (FilterObj {| Filter.countdown_time := tick (core w) + 4 |}) w))).

Definition entered_ShowPic (w : World) : World :=
  with_objects (objects w ++ [ShowPicObj {| ShowPic.show_image_time := tick (core w) + 10 |}])
    (after_ui (UI.Hide ["countdown"]) (installed (ShowPicObj ShowPic.__init__) w)).

(** The accumulator after a sample, as [Idle.update_filter_trigger] leaves it. *)
Definition sampled_cnt (finger_count : Z) (cnt : float) : float :=
  if finger_count =? 5 then (cnt + 0.05)%float
  else if (0 <? cnt)%float then (cnt - 0.1)%float
  else cnt.

(** The world after the classifier answered [finger_count] and the sample
    was counted, before any transition, rotation or progress command. *)
Definition counted (self : loc) (t : float) (frame : Frame) (h : HandDetect)
    (finger_count : Z) (s : Idle.t) (w : World) : World :=
  {| core := with_hand_detector h (with_out_frame (Some frame) (core w));
     objects :=
       <[self := IdleObj
                   (Idle.with_take_pic_cnt (sampled_cnt finger_count (Idle.take_pic_cnt s))
                      (Idle.with_finger_frame_interval (t + 0.1) s))]> (objects w);
     calls := calls w ++ [CallCountFingers frame] |}.

(** Whether a sample rotates the carousel: the test of
    [Idle.update_filter_carousel], on the accumulator as the sample left it. *)
Definition rotates (finger_count : Z) (t : float) (s : Idle.t) : bool :=
  (finger_count =? 2)
  && (Idle.change_filter_time s - t <=? 0)%float
  && (sampled_cnt finger_count (Idle.take_pic_cnt s) <=? 0)%float.

(** The world after a rotation. *)
Definition rotated (self : loc) (t : float) (w : World) (s : Idle.t) : World :=
  after_ui (UI.SetText "filter_name"
              ("Current filter is " +:+ current_name (next_filter (filters (core w)))))
    {| core := with_filters (next_filter (filters (core w))) (core w);
       objects := <[self := IdleObj (Idle.with_change_filter_time (t + 1.5) s)]> (objects w);
       calls := calls w ++ [CallNextFilter] |}.

(** The world after the pipeline of [Filter.apply_filter] ran to its end. *)
Definition filtered (frame : Frame) (m : ForegroundMask) (mask : Mask)
    (masked result : Frame) (w : World) : World :=
  {| core := with_filtered_frame (Some result) (with_fg_masker m (core w));
     objects := objects w;
     calls := calls w ++ [CallApply frame; CallBitwiseAnd frame mask;
                          CallCurrentFilter masked] |}.

(** The controller runs, the overlay elements exist, and the Idle object
    [self], which holds [s], is the active state. *)
Definition holding (w : World) (self : loc) (s : Idle.t) : Prop :=
  _state (core w) = Some self
  /\ objects w !! self = Some (IdleObj s)
  /\ ready (ui (core w))
  /\ stopped (core w) = false.

(** The accumulator after [n] more samples of five fingers. *)
Fixpoint accumulate (n : nat) (cnt : float) : float :=
  match n with
  | O => cnt
  | S n => accumulate n (cnt + 0.05)
  end.

(** Every frame of the queue passes the sampling gate, whose deadline is
    [deadline] at first, and is classified as five fingers by the
    classifier, whose state is [h] at first. *)
Fixpoint sustained_five (deadline : float) (h : HandDetect) (q : list (float * Frame))
  : Prop :=
  match q with
  | [] => True
  | (now, frame) :: q' =>
      (deadline - now <? 0)%float = true
      /\ exists h', count_fingers h frame = (h', Ok 5)
                    /\ sustained_five (now + 0.1) h' q'
  end.


(** A statement keeps a property of the registry. *)
Definition kept_by (I : UI.t -> Prop) {A} (m : M A) : Prop :=
  forall w, I (ui (core w)) -> I (ui (core (fst (m w)))).

(** The overlay elements exist and a state object is active. *)
Definition sane (w : World) : Prop :=
  ready (ui (core w)) /\ is_Some (active w).

(** The three ways an iteration changes the active state. *)
Inductive transition (now : float) (w w' : World) : Prop :=
| to_Idle w0 :
    length (objects w0) = length (objects w) -> tick (core w0) = now ->
    ready (ui (core w0)) ->
    w' = entered_Idle w0 -> transition now w w'
| to_Filter w0 cnt :
    length (objects w0) = length (objects w) -> tick (core w0) = now ->
    ready (ui (core w0)) ->
    w' = after_ui (UI.SetProg "bar" cnt) (entered_Filter w0) -> transition now w w'
| to_ShowPic w0 :
    length (objects w0) = length (objects w) -> tick (core w0) = now ->
    ready (ui (core w0)) ->
    w' = entered_ShowPic w0 -> transition now w w'.

(** What the registry and the controller hold while the state object [o]
    is the active one: the overlay of the state (before the first frame the
    texts as they were created, hidden, and the bar); in Idle the bar drawn
    with the accumulator, which is below [1.0]; in ShowPic a stored
    picture. *)
Definition fits (o : State) (w : World) : Prop :=
  match o with
  | StartupObj =>
      (forall n, n ∈ ["help_1"; "help_2"; "filter_name"; "countdown"] ->
         shown (ui (core w)) n = Some false)
      /\ shown (ui (core w)) "bar" = Some true
  | IdleObj s =>
      overlay_shows (ui (core w)) true false
      /\ bar_scale (ui (core w)) "bar" = Some (clamped (Idle.take_pic_cnt s))
      /\ (1 <=? Idle.take_pic_cnt s)%float = false
  | FilterObj _ => overlay_shows (ui (core w)) false true
  | ShowPicObj _ =>
      overlay_shows (ui (core w)) false false /\ is_Some (filtered_frame (core w))
  end.

Definition consistent (w : World) : Prop :=
  ready (ui (core w))
  /\ is_Some (bar_scale (ui (core w)) "bar")
  /\ exists o, active w = Some o /\ fits o w.

(** One turn of the loop, as a function of the world. *)
Definition step (w : World) (x : float * Frame) : World :=
  fst (CanvasCore_iteration (fst x) (snd x) w).

(** The states that use the classifier and the carousel, and the state that
    uses the masker, OpenCV and the filter transform. *)
Definition samples (o : State) : bool :=
  match o with IdleObj _ => true | _ => false end.

Definition captures (o : State) : bool :=
  match o with FilterObj _ => true | _ => false end.

(** The calls an update of the state object [o] may make. *)
Definition calls_of (o : State) (c : Call) : bool :=
  match c with
  | CallUI _ => true
  | CallCountFingers _ | CallNextFilter => samples o
  | CallApply _ | CallBitwiseAnd _ _ | CallCurrentFilter _ => captures o
  end.

(** [w'] differs from [w] by nothing but what an update of [o] may do. *)
Definition confined (o : State) (w w' : World) : Prop :=
  stopped (core w') = stopped (core w)
  /\ win_size (core w') = win_size (core w)
  /\ tick (core w') = tick (core w)
  /\ (exists l, calls w' = calls w ++ l /\ Forall (fun c => calls_of o c = true) l)
  /\ (samples o = false ->
        hand_detector (core w') = hand_detector (core w)
        /\ filters (core w') = filters (core w))
  /\ (captures o = false ->
        fg_masker (core w') = fg_masker (core w)
        /\ filtered_frame (core w') = filtered_frame (core w)).

(** A statement that leaves every world in relation [R] with the one it
    started from. *)
Definition respects (R : World -> World -> Prop) {A} (m : M A) : Prop :=
  forall w, R w (fst (m w)).

End Core.

(** ** A concrete set of collaborators

    Frames are integers: the classifier reads the number of fingers off the
    frame and fails on a negative one; the masker fails on frame [1000]; the
    carousel cycles through three named filters. *)
Module Demo.

Definition names : list string := ["gray"; "sepia"; "negative"].

#[export] Instance collaborators : Collaborators := {|
  Frame := Z;
  Mask := Z;
  HandDetect := unit;
  ForegroundMask := unit;
  FilterCarousel := nat;
  new_HandDetect := tt;
  new_ForegroundMask := tt;
  new_FilterCarousel := 0%nat;
  count_fingers := fun h frame =>
    (h, if frame <? 0 then Raise (CollaboratorError Classifier) else Ok frame);
  apply := fun m frame =>
    (m, if frame =? 1000 then Raise (CollaboratorError Masker) else Ok 1);
  bitwise_and := fun a _ mask => Ok (a * mask);
  next_filter := fun i => (S i mod 3)%nat;
  current_name := fun i => nth i names "";
  current_filter := fun i frame => Ok (frame + 10000 * Z.of_nat (S i))
|}.

(** The controller after construction at clock reading [0.5]. *)
Definition boot : World := fst (CanvasCore__init__ 0.5%float (1280, 720)).

(** The controller after the frames of [q]. *)
Definition after (q : list (float * Z)) : World := fst (CanvasCore_process q boot).

Definition result (q : list (float * Z)) : outcome unit := snd (CanvasCore_process q boot).

(** [n] frames showing [fingers] fingers, one per second from [start]. *)
Fixpoint hold (n : nat) (start : float) (fingers : Z) : list (float * Z) :=
  match n with
  | O => []
  | S n => (start, fingers) :: hold n (start + 1)%float fingers
  end.

(** One frame brings the controller from Startup to a fresh Idle state. *)
Definition started : World := after [(1%float, 0)].

(** One sample of five fingers later. *)
Definition one_five : World := after [(1%float, 0); (2%float, 5)].

(** After 19 samples of five fingers, and after 20. *)
Definition nineteen : World := after ((1%float, 0) :: hold 19 2 5).
Definition twenty : World := after ((1%float, 0) :: hold 20 2 5).

(** After the countdown: the picture is shown until tick 35. *)
Definition showing : World := after ((1%float, 0) :: hold 20 2 5 ++ [(25%float, 7)]).

End Demo.

(** * Properties *)

(** ** Comparisons of floats with the constants of the program *)

Section FloatFacts.
Local Open Scope float_scope.

Lemma pos_not_le0 (x : float) : (0 <? x) = true -> (x <=? 0) = false.
Proof.
  rewrite ltb_spec, leb_spec.
  change (Prim2SF 0) with (S754_zero false).
  destruct (Prim2SF x) as [s|s| |s m e]; try destruct s; cbn; congruence.
Qed.

Lemma ge1_not_le0 (x : float) : (1 <=? x) = true -> (x <=? 0) = false.
Proof.
  rewrite !leb_spec.
  change (Prim2SF 0) with (S754_zero false).
  destruct (Prim2SF x) as [s|s| |s m e]; try destruct s; try reflexivity;
    vm_compute; congruence.
Qed.

Lemma ge1_not_lt0 (x : float) : (1 <=? x) = true -> (x <? 0) = false.
Proof.
  rewrite leb_spec, ltb_spec.
  change (Prim2SF 0) with (S754_zero false).
  destruct (Prim2SF x) as [s|s| |s m e]; try destruct s; try reflexivity;
    vm_compute; congruence.
Qed.

Lemma le0_not_ge1 (x : float) : (x <=? 0) = true -> (1 <=? x) = false.
Proof.
  intros H. destruct (1 <=? x) eqn:E; [|reflexivity].
  apply ge1_not_le0 in E. congruence.
Qed.

(** On a positive float, [int] (truncation) is [floor]. *)
Lemma int_floor_pos (x : float) : (0 <? x) = true -> Py.int x = Py.floor x.
Proof.
  unfold Py.int, Py.floor. rewrite ltb_spec.
  change (Prim2SF 0) with (S754_zero false).
  destruct (Prim2SF x) as [s|s| |s m e]; try reflexivity.
  destruct s; [discriminate|reflexivity].
Qed.


End FloatFacts.

(** ** The sign of a difference

    The deadlines are tested as [deadline - tick < 0], [<= 0] and [> 0].
    On numbers the rounded difference has the sign of the exact one, so
    these tests compare the tick with the deadline. *)

Section SubtractionSign.

Local Abbreviation fexp := (SpecFloat.fexp prec emax).
Local Abbreviation emin := (SpecFloat.emin prec emax).

Lemma digits2_size p : digits2_pos p = Pos.size p.
Proof. induction p; cbn; congruence. Qed.

Lemma digits2_bounds p :
  2 ^ (Z.pos (digits2_pos p) - 1) <= Z.pos p < 2 ^ Z.pos (digits2_pos p).
Proof.
  rewrite digits2_size.
  pose proof (Pos.size_gt p) as Hgt. pose proof (Pos.size_le p) as Hle.
  apply Pos2Z.pos_lt_pos in Hgt. apply Pos2Z.pos_le_pos in Hle.
  rewrite Pos2Z.inj_pow in Hgt, Hle.
  replace (Z.pos (Pos.size p)) with (Z.succ (Z.pos (Pos.size p) - 1)) in Hle at 1 by lia.
  rewrite Z.pow_succ_r in Hle by lia. change (Z.pos p~0) with (2 * Z.pos p) in Hle.
  lia.
Qed.

Lemma shr_1_m mrs : 0 <= shr_m mrs -> shr_m (shr_1 mrs) = shr_m mrs / 2.
Proof.
  destruct mrs as [m r s]. cbn. destruct m as [|p|p]; [reflexivity| |lia].
  intros _. destruct p as [p|p|]; cbn [shr_m].
  - change (Z.pos p~1) with (2 * Z.pos p + 1).
    apply Z.div_unique with 1; lia.
  - change (Z.pos p~0) with (2 * Z.pos p).
    apply Z.div_unique with 0; lia.
  - reflexivity.
Qed.

Lemma iter_shr_1_m n : forall mrs,
  0 <= shr_m mrs -> shr_m (SpecFloat.iter_pos shr_1 n mrs) = shr_m mrs / 2 ^ Z.pos n.
Proof.
  induction n as [n IH|n IH|]; intros mrs Hm; cbn [SpecFloat.iter_pos].
  - assert (H1 : 0 <= shr_m (shr_1 mrs)).
    { rewrite shr_1_m by lia. apply Z.div_pos; lia. }
    assert (H2 : 0 <= shr_m (SpecFloat.iter_pos shr_1 n (shr_1 mrs))).
    { rewrite IH by lia. apply Z.div_pos; lia. }
    rewrite IH, IH, shr_1_m by lia.
    rewrite !Z.div_div by lia.
    f_equal. change (Z.pos n~1) with (2 * Z.pos n + 1).
    rewrite Z.pow_add_r, Z.pow_mul_r, Z.pow_1_r by lia.
    replace (2 ^ 2) with (2 * 2) by reflexivity.
    rewrite Z.pow_mul_l. lia.
  - assert (H2 : 0 <= shr_m (SpecFloat.iter_pos shr_1 n mrs)).
    { rewrite IH by lia. apply Z.div_pos; lia. }
    rewrite IH, IH by lia. rewrite Z.div_div by lia.
    f_equal. change (Z.pos n~0) with (2 * Z.pos n).
    rewrite Z.pow_mul_r by lia. replace (2 ^ 2) with (2 * 2) by reflexivity.
    rewrite Z.pow_mul_l. lia.
  - rewrite shr_1_m by lia. reflexivity.
Qed.

Lemma shr_record_of_loc_m m l : shr_m (shr_record_of_loc m l) = m.
Proof. destruct l as [|[]]; reflexivity. Qed.

Lemma shr_fexp_pos p e l :
  emin <= e ->
  0 < shr_m (fst (shr_fexp prec emax (Z.pos p) e l))
  /\ emin <= snd (shr_fexp prec emax (Z.pos p) e l).
Proof.
  intros He. unfold shr_fexp, shr. cbn [Zdigits2].
  pose proof (digits2_bounds p) as [Hlo _].
  set (d := Z.pos (digits2_pos p)) in *.
  destruct (fexp (d + e) - e) as [|k|k] eqn:Hk; cbn [fst snd];
    rewrite ?shr_record_of_loc_m; try lia.
  rewrite iter_shr_1_m by (rewrite shr_record_of_loc_m; lia).
  rewrite shr_record_of_loc_m. split; [|lia].
  apply Z.div_str_pos. split; [lia|].
  apply Z.le_trans with (2 ^ (d - 1)); [|exact Hlo].
  apply Z.pow_le_mono_r; [lia|].
  unfold SpecFloat.fexp in Hk. unfold prec in *. lia.
Qed.

Lemma round_nearest_even_pos m l : 0 < m -> 0 < round_nearest_even m l.
Proof.
  intros Hm. destruct l as [|[]]; cbn; try lia. destruct (Z.even m); lia.
Qed.

Lemma binary_round_aux_sign s p e l :
  emin <= e ->
  SFcompare (binary_round_aux prec emax s (Z.pos p) e l) (S754_zero false)
  = Some (if s then Lt else Gt).
Proof.
  intros He. unfold binary_round_aux.
  destruct (shr_fexp_pos p e l He) as [Hm1 He1].
  destruct (shr_fexp prec emax (Z.pos p) e l) as [mrs' e']. cbn [fst snd] in *.
  pose proof (round_nearest_even_pos (shr_m mrs') (loc_of_shr_record mrs') Hm1) as Hr.
  destruct (round_nearest_even (shr_m mrs') (loc_of_shr_record mrs')) as [|p2|p2];
    try lia.
  destruct (shr_fexp_pos p2 e' loc_Exact He1) as [Hm2 _].
  destruct (shr_fexp prec emax (Z.pos p2) e' loc_Exact) as [mrs'' e'']. cbn [fst snd] in *.
  destruct (shr_m mrs'') as [|m|m]; try lia.
  destruct (e'' <=? emax - prec); reflexivity.
Qed.

Lemma binary_round_sign s p e :
  emin <= e ->
  SFcompare (binary_round prec emax s p e) (S754_zero false)
  = Some (if s then Lt else Gt).
Proof.
  intros He. unfold binary_round, shl_align.
  set (f := fexp (Z.pos (digits2_pos p) + e)).
  assert (Hf : emin <= f) by (unfold f, SpecFloat.fexp; lia).
  destruct (f - e); apply binary_round_aux_sign; lia.
Qed.

Lemma binary_normalize_compare m e :
  emin <= e ->
  SFcompare (binary_normalize prec emax m e false) (S754_zero false) = Some (m ?= 0).
Proof.
  intros He. destruct m as [|p|p]; cbn [binary_normalize].
  - reflexivity.
  - apply (binary_round_sign false p e He).
  - apply (binary_round_sign true p e He).
Qed.

Lemma iter_xO_value d : forall m, Z.pos (Pos.iter xO m d) = Z.pos m * 2 ^ Z.pos d.
Proof.
  induction d as [|d IH] using Pos.peano_ind; intros m.
  - cbn. lia.
  - rewrite Pos.iter_succ, Pos2Z.inj_succ, Z.pow_succ_r by lia.
    change (Z.pos (Pos.iter xO m d)~0) with (2 * Z.pos (Pos.iter xO m d)).
    rewrite IH. lia.
Qed.

Lemma shl_align_value m e e' :
  e' <= e -> Z.pos (fst (shl_align m e e')) = Z.pos m * 2 ^ (e - e').
Proof.
  intros He. unfold shl_align.
  destruct (e' - e) as [|d|d] eqn:Hd; cbn [fst]; try lia.
  - replace (e - e') with 0 by lia. lia.
  - rewrite iter_xO_value. f_equal. f_equal. lia.
Qed.

Lemma bounded_canonical m e :
  bounded prec emax m e = true ->
  fexp (Z.pos (digits2_pos m) + e) = e.
Proof.
  unfold bounded, canonical_mantissa. intros H.
  apply andb_prop in H as [H _]. apply Z.eqb_eq in H. exact H.
Qed.


Lemma canonical_lt mx ex my ey :
  bounded prec emax mx ex = true -> bounded prec emax my ey = true ->
  ex < ey -> Z.pos mx < Z.pos my * 2 ^ (ey - ex).
Proof.
  intros Hx Hy Hlt.
  apply bounded_canonical in Hx, Hy. unfold SpecFloat.fexp, SpecFloat.emin in Hx, Hy.
  pose proof (digits2_bounds mx) as [_ Hmx]. pose proof (digits2_bounds my) as [Hmy _].
  set (dx := Z.pos (digits2_pos mx)) in *. set (dy := Z.pos (digits2_pos my)) in *.
  unfold prec, emax in *.
  assert (Hdy : dy = 53) by lia. assert (Hdx : dx <= 53) by lia.
  rewrite Hdy in Hmy. change (2 ^ (53 - 1)) with 4503599627370496 in Hmy.
  assert (H53 : 2 ^ dx <= 2 ^ 53) by (apply Z.pow_le_mono_r; lia).
  change (2 ^ 53) with 9007199254740992 in H53.
  assert (H2 : 2 ^ 1 <= 2 ^ (ey - ex)) by (apply Z.pow_le_mono_r; lia).
  change (2 ^ 1) with 2 in H2. nia.
Qed.

Lemma compare_magnitude mx ex my ey :
  bounded prec emax mx ex = true -> bounded prec emax my ey = true ->
  match ex ?= ey with
  | Lt => Lt
  | Gt => Gt
  | Eq => Pos.compare_cont Eq mx my
  end
  = (Z.pos (fst (shl_align mx ex (Z.min ex ey)))
     ?= Z.pos (fst (shl_align my ey (Z.min ex ey)))).
Proof.
  intros Hx Hy.
  rewrite !shl_align_value by lia.
  destruct (Z.compare_spec ex ey) as [->|Hlt|Hgt].
  - rewrite Z.min_id, Z.sub_diag, Z.pow_0_r, !Z.mul_1_r. reflexivity.
  - rewrite Z.min_l, Z.sub_diag, Z.pow_0_r, Z.mul_1_r by lia.
    symmetry. apply Z.compare_lt_iff. now apply canonical_lt.
  - rewrite Z.min_r, Z.sub_diag, Z.pow_0_r, Z.mul_1_r by lia.
    symmetry. apply Z.compare_gt_iff. now apply canonical_lt.
Qed.

Lemma compare_aligned sx mx ex sy my ey :
  bounded prec emax mx ex = true -> bounded prec emax my ey = true ->
  SFcompare (S754_finite sx mx ex) (S754_finite sy my ey)
  = Some (cond_Zopp sx (Z.pos (fst (shl_align mx ex (Z.min ex ey))))
          ?= cond_Zopp sy (Z.pos (fst (shl_align my ey (Z.min ex ey))))).
Proof.
  intros Hx Hy. pose proof (compare_magnitude mx ex my ey Hx Hy) as Hm.
  cbn [SFcompare]. f_equal.
  destruct sx, sy; cbn [cond_Zopp].
  - rewrite Z.compare_opp, (Z.compare_antisym (Z.pos (fst (shl_align mx ex (Z.min ex ey))))), <- Hm.
    now destruct (ex ?= ey).
  - reflexivity.
  - reflexivity.
  - exact Hm.
Qed.

Lemma SFsub_compare x y :
  SpecFloat.valid_binary prec emax x = true ->
  SpecFloat.valid_binary prec emax y = true ->
  Py.number x = true -> Py.number y = true ->
  SFcompare (SFsub prec emax x y) (S754_zero false) = SFcompare x y.
Proof.
  intros Vx Vy Nx Ny.
  destruct x as [sx|sx| |sx mx ex], y as [sy|sy| |sy my ey]; try discriminate.
  - now destruct sx, sy.
  - now destruct sy.
  - reflexivity.
  - cbn [SpecFloat.valid_binary] in Vx, Vy. cbn [SFsub].
    rewrite binary_normalize_compare.
    + rewrite (compare_aligned _ _ _ _ _ _ Vx Vy). f_equal.
      symmetry. apply Z.compare_sub.
    + apply bounded_canonical in Vx, Vy. unfold SpecFloat.fexp in Vx, Vy. lia.
Qed.


Lemma SFcompare_antisym x y :
  SFcompare y x = option_map CompOpp (SFcompare x y).
Proof.
  destruct x as [sx|sx| |sx mx ex], y as [sy|sy| |sy my ey]; cbn [SFcompare option_map];
    try reflexivity;
    try (destruct sx; reflexivity); try (destruct sy; reflexivity);
    try (destruct sx, sy; reflexivity).
  destruct sx, sy; try reflexivity;
    rewrite (Z.compare_antisym ex ey); destruct (ex ?= ey) eqn:E; cbn [CompOpp];
    try reflexivity;
    rewrite (Pos.compare_cont_antisym mx my Eq); cbn [CompOpp];
    reflexivity.
Qed.

Lemma sub_sign (x y : float) :
  Py.isfinite x = true -> Py.isfinite y = true ->
  (x - y <? 0)%float = (x <? y)%float /\
  (x - y <=? 0)%float = (x <=? y)%float /\
  (0 <? x - y)%float = (y <? x)%float.
Proof.
  intros Fx Fy.
  pose proof (SFsub_compare _ _ (Prim2SF_valid x) (Prim2SF_valid y) Fx Fy) as H.
  rewrite !ltb_spec, !leb_spec, sub_spec.
  change (Prim2SF 0) with (S754_zero false).
  unfold SFltb, SFleb, SF64sub.
  rewrite (SFcompare_antisym (SFsub prec emax (Prim2SF x) (Prim2SF y)) (S754_zero false)).
  rewrite (SFcompare_antisym (Prim2SF x) (Prim2SF y)).
  rewrite H. repeat split.
Qed.

End SubtractionSign.

(** ** The decimal numeral of an integer *)

(** [Py.str] writes the decimal numeral of its argument: reading the
    numeral gives the integer back. *)
Lemma str_reads_back (n : Z) :
  Z.of_int <$> NilZero.int_of_string (Py.str n) = Some n.
Proof.
  unfold Py.str. rewrite NilZero.isi.
  - cbn. by rewrite DecimalZ.of_to.
  - destruct n as [|p|p]; cbn; try discriminate.
    intros [= H]. by apply (DecimalPos.Unsigned.to_uint_nonnil p).
  - destruct n as [|p|p]; cbn; try discriminate.
    intros [= H]. by apply (DecimalPos.Unsigned.to_uint_nonnil p).
Qed.

(** ** The element registry *)

Ltac in_overlay := unfold overlay_names; set_solver.

Section UIFacts.
Implicit Types (u : UI.t) (c : UI.command) (n name : string).

Lemma set_visible_all_dom b names u n :
  is_Some (UI.elements (fst (UI.set_visible_all b names u)) !! n)
  <-> is_Some (UI.elements u !! n).
Proof.
  revert u. induction names as [|a names IH]; intros u; cbn; [tauto|].
  destruct (UI.elements u !! a) as [e|] eqn:E; cbn; [|tauto].
  rewrite IH. cbn. rewrite lookup_insert_is_Some.
  split; [intros [->|[_ H]]; [by rewrite E|done]|].
  intros H. destruct (decide (a = n)); tauto.
Qed.

Lemma set_visible_all_ok b names u :
  snd (UI.set_visible_all b names u) = Ok tt
  <-> forall n, n ∈ names -> is_Some (UI.elements u !! n).
Proof.
  revert u. induction names as [|a names IH]; intros u; cbn.
  - split; [intros _ n Hn; by apply elem_of_nil in Hn|done].
  - destruct (UI.elements u !! a) as [e|] eqn:E; cbn.
    + rewrite IH. cbn. split; intros H n Hn.
      * apply elem_of_cons in Hn as [->|Hn]; [by rewrite E|].
        specialize (H n Hn). apply lookup_insert_is_Some in H.
        destruct H as [->|[_ H]]; [by rewrite E|done].
      * apply lookup_insert_is_Some. destruct (decide (a = n)); [tauto|].
        right. split; [done|]. apply H. by apply elem_of_cons; right.
    + split; [discriminate|]. intros H.
      destruct (H a) as [x Hx]; [by apply elem_of_cons; left|congruence].
Qed.

Lemma set_visible_all_raise b names u :
  snd (UI.set_visible_all b names u) = Raise KeyError
  <-> exists n, n ∈ names /\ UI.elements u !! n = None.
Proof.
  revert u. induction names as [|a names IH]; intros u; cbn.
  - split; [discriminate|]. intros (n & Hn & _). by apply elem_of_nil in Hn.
  - destruct (UI.elements u !! a) as [e|] eqn:E; cbn.
    + rewrite IH. cbn. split.
      * intros (n & Hn & Hnone). exists n. split; [by apply elem_of_cons; right|].
        apply lookup_insert_None in Hnone. tauto.
      * intros (n & Hn & Hnone). exists n.
        apply elem_of_cons in Hn as [->|Hn]; [congruence|]. split; [done|].
        apply lookup_insert_None. split; [done|]. congruence.
    + split; [|done]. intros _. exists a. split; [by apply elem_of_cons; left|done].
Qed.

Lemma exec_dom c u n :
  is_Some (UI.elements (fst (UI.exec c u)) !! n)
  <-> is_Some (UI.elements u !! n) \/ n ∈ UI.creates c.
Proof.
  destruct c as [a p z|a|a t|a v|l|l]; cbn.
  - rewrite lookup_insert_is_Some, list_elem_of_singleton.
    destruct (decide (a = n)); intuition congruence.
  - rewrite lookup_insert_is_Some, list_elem_of_singleton.
    destruct (decide (a = n)); intuition congruence.
  - unfold UI.set_text. rewrite elem_of_nil.
    destruct (UI.elements u !! a); cbn; tauto.
  - unfold UI.set_prog. rewrite elem_of_nil.
    destruct (UI.elements u !! a) eqn:E; cbn; [|tauto].
    rewrite lookup_insert_is_Some.
    split; [intros [->|[_ H]]; [left; by rewrite E|tauto]|].
    intros [H|[]]. destruct (decide (a = n)); tauto.
  - unfold UI.show. rewrite set_visible_all_dom, elem_of_nil. tauto.
  - unfold UI.hide. rewrite set_visible_all_dom, elem_of_nil. tauto.
Qed.

Lemma exec_ok c u :
  snd (UI.exec c u) = Ok tt
  <-> forall n, n ∈ UI.addresses c -> is_Some (UI.elements u !! n).
Proof.
  destruct c as [a p z|a|a t|a v|l|l]; cbn;
    try (split; [intros _ n Hn; by apply elem_of_nil in Hn|done]);
    try apply set_visible_all_ok.
  - unfold UI.set_text. destruct (UI.elements u !! a) eqn:E; cbn.
    + split; [|done]. intros _ n Hn. apply list_elem_of_singleton in Hn as ->.
      by rewrite E.
    + split; [discriminate|]. intros H.
      destruct (H a) as [x Hx]; [by apply list_elem_of_singleton|congruence].
  - unfold UI.set_prog. destruct (UI.elements u !! a) eqn:E; cbn.
    + split; [|done]. intros _ n Hn. apply list_elem_of_singleton in Hn as ->.
      by rewrite E.
    + split; [discriminate|]. intros H.
      destruct (H a) as [x Hx]; [by apply list_elem_of_singleton|congruence].
Qed.

Lemma exec_raise c u :
  snd (UI.exec c u) = Raise KeyError
  <-> exists n, n ∈ UI.addresses c /\ UI.elements u !! n = None.
Proof.
  destruct c as [a p z|a|a t|a v|l|l]; cbn;
    try (split; [discriminate|intros (n & Hn & _); by apply elem_of_nil in Hn]);
    try apply set_visible_all_raise.
  - unfold UI.set_text. destruct (UI.elements u !! a) eqn:E; cbn.
    + split; [discriminate|]. intros (n & Hn & Hnone).
      apply list_elem_of_singleton in Hn as ->. congruence.
    + split; [|done]. intros _. exists a. split; [by apply list_elem_of_singleton|done].
  - unfold UI.set_prog. destruct (UI.elements u !! a) eqn:E; cbn.
    + split; [discriminate|]. intros (n & Hn & Hnone).
      apply list_elem_of_singleton in Hn as ->. congruence.
    + split; [|done]. intros _. exists a. split; [by apply list_elem_of_singleton|done].
Qed.

Lemma run_dom h u n :
  is_Some (UI.elements (UI.run h u) !! n)
  <-> is_Some (UI.elements u !! n) \/ n ∈ UI.created h.
Proof.
  revert u. induction h as [|c h IH]; intros u; cbn.
  - rewrite elem_of_nil. tauto.
  - unfold UI.run in IH. rewrite IH, exec_dom, elem_of_app. tauto.
Qed.

Lemma run_created h n :
  is_Some (UI.elements (UI.run h UI.__init__) !! n) <-> n ∈ UI.created h.
Proof.
  rewrite run_dom. cbn. rewrite lookup_empty. split; [|tauto].
  intros [[x Hx]|H]; [discriminate|done].
Qed.

Lemma set_visible_all_texts b names u :
  UI.texts (fst (UI.set_visible_all b names u)) = UI.texts u.
Proof.
  revert u. induction names as [|a names IH]; intros u; cbn; [done|].
  destruct (UI.elements u !! a); cbn; [|done]. by rewrite IH.
Qed.

Lemma set_visible_idem b (e : Element) : set_visible b (set_visible b e) = set_visible b e.
Proof. by destruct e. Qed.

Lemma set_visible_all_lookup b names u n :
  (forall x, x ∈ names -> is_Some (UI.elements u !! x)) ->
  UI.elements (fst (UI.set_visible_all b names u)) !! n
  = if decide (n ∈ names) then set_visible b <$> UI.elements u !! n
    else UI.elements u !! n.
Proof.
  revert u. induction names as [|a names IH]; intros u Hall; cbn.
  - destruct (decide _) as [H|_]; [by apply elem_of_nil in H|done].
  - destruct (Hall a) as [e He]; [by apply elem_of_cons; left|]. rewrite He.
    rewrite IH; cbn.
    2:{ intros x Hx. apply lookup_insert_is_Some.
        destruct (decide (a = x)); [by left|right]. split; [done|].
        apply Hall. by apply elem_of_cons; right. }
    destruct (decide (a = n)) as [->|Hne].
    + rewrite lookup_insert_eq. cbn.
      destruct (decide (n ∈ n :: names)) as [_|Hc];
        [|exfalso; apply Hc, elem_of_cons; by left].
      rewrite He. cbn. destruct (decide _); [by rewrite set_visible_idem|done].
    + rewrite lookup_insert_ne by done.
      destruct (decide (n ∈ names)) as [Hin|Hnin];
        destruct (decide (n ∈ a :: names)) as [Hin'|Hnin']; try done.
      * exfalso. apply Hnin', elem_of_cons. by right.
      * apply elem_of_cons in Hin' as [->|Hc]; done.
Qed.

Lemma set_text_effect name text u :
  is_Some (UI.elements u !! name) ->
  UI.elements (fst (UI.exec (UI.SetText name text) u)) = UI.elements u
  /\ UI.texts (fst (UI.exec (UI.SetText name text) u)) = <[name := text]> (UI.texts u).
Proof. intros [e He]. cbn. unfold UI.set_text. by rewrite He. Qed.

Lemma set_prog_effect name value u e :
  UI.elements u !! name = Some e ->
  UI.elements (fst (UI.exec (UI.SetProg name value) u))
    = <[name := assign_scale value e]> (UI.elements u)
  /\ UI.texts (fst (UI.exec (UI.SetProg name value) u)) = UI.texts u.
Proof. intros He. cbn. unfold UI.set_prog. by rewrite He. Qed.

Lemma assign_scale_visible value (e : Element) :
  get_visible (assign_scale value e) = get_visible e.
Proof. destruct e as [e|p]; cbn; [done|]. unfold Progressbar.set_scale. by destruct (_ <? _)%float. Qed.

Lemma get_visible_set b (e : Element) : get_visible (set_visible b e) = b.
Proof. by destruct e. Qed.

(** C8. A command that addresses elements by name ([set_text], [set_prog],
    [show], [hide]) raises [KeyError] exactly when one of the names it
    addresses was never created, and returns normally exactly when all of
    them were created: whatever the history of commands that built the
    registry, an unknown name is never ignored. *)
Theorem unknown_element_is_KeyError (h : list UI.command) (c : UI.command) :
  let u := UI.run h UI.__init__ in
  (snd (UI.exec c u) = Raise KeyError
   <-> exists n, n ∈ UI.addresses c /\ n ∉ UI.created h)
  /\ (snd (UI.exec c u) = Ok tt
      <-> forall n, n ∈ UI.addresses c -> n ∈ UI.created h).
Proof.
  intros u. subst u. split.
  - rewrite exec_raise. split; intros (n & Hn & H); exists n; (split; [done|]).
    + intros Hc. apply run_created in Hc. destruct Hc as [x Hx]. congruence.
    + destruct (UI.elements (UI.run h UI.__init__) !! n) eqn:E; [|done].
      exfalso. apply H, run_created. by rewrite E.
  - rewrite exec_ok. split; intros H n Hn.
    + apply run_created, H, Hn.
    + apply run_created, H, Hn.
Qed.

Lemma ready_exec c u : ready u -> ready (fst (UI.exec c u)).
Proof. intros H n Hn. apply exec_dom. left. apply H, Hn. Qed.



(** The registry after the commands of [Filter.enter]. *)
Lemma Filter_enter_registry u :
  ready u ->
  let u' := fst (UI.exec (UI.Show ["countdown"])
              (fst (UI.exec (UI.SetText "countdown" "3")
                 (fst (UI.exec (UI.Hide ["help_1"; "help_2"; "filter_name"; "bar"]) u))))) in
  (forall n, n ∈ ["help_1"; "help_2"; "filter_name"; "bar"] ->
     get_visible <$> UI.elements u' !! n = Some false)
  /\ get_visible <$> UI.elements u' !! "countdown" = Some true
  /\ UI.texts u' !! "countdown" = Some "3".
Proof.
  intros Hr.
  set (u1 := fst (UI.exec (UI.Hide ["help_1"; "help_2"; "filter_name"; "bar"]) u)).
  set (u2 := fst (UI.exec (UI.SetText "countdown" "3") u1)).
  assert (Hr1 : ready u1) by (by apply ready_exec).
  assert (Hr2 : ready u2) by (by apply ready_exec).
  destruct (set_text_effect "countdown" "3" u1) as [He2 Ht2];
    [apply Hr1; in_overlay|].
  fold u2 in He2, Ht2. cbn zeta.
  assert (Hall2 : forall x, x ∈ ["countdown"] -> is_Some (UI.elements u2 !! x)).
  { intros x Hx. apply Hr2. revert Hx. in_overlay. }
  assert (Hall : forall x, x ∈ ["help_1"; "help_2"; "filter_name"; "bar"] ->
                   is_Some (UI.elements u !! x)).
  { intros x Hx. apply Hr. revert Hx. in_overlay. }
  split; [|split].
  - intros n Hn. change (UI.exec (UI.Show ["countdown"]) u2)
      with (UI.set_visible_all true ["countdown"] u2).
    rewrite (set_visible_all_lookup _ _ _ _ Hall2).
    destruct (decide (n ∈ ["countdown"])) as [Hc|_]; [exfalso; set_solver|].
    rewrite He2. unfold u1.
    change (UI.exec (UI.Hide ["help_1"; "help_2"; "filter_name"; "bar"]) u)
      with (UI.set_visible_all false ["help_1"; "help_2"; "filter_name"; "bar"] u).
    rewrite (set_visible_all_lookup _ _ _ _ Hall).
    destruct (decide _) as [_|Hc]; [|done].
    destruct (Hall n Hn) as [e ->]. cbn. by rewrite get_visible_set.
  - change (UI.exec (UI.Show ["countdown"]) u2)
      with (UI.set_visible_all true ["countdown"] u2).
    rewrite (set_visible_all_lookup _ _ _ _ Hall2).
    destruct (decide _) as [_|Hc]; [|exfalso; set_solver].
    destruct (Hall2 "countdown") as [e ->]; [set_solver|]. cbn.
    by rewrite get_visible_set.
  - change (UI.exec (UI.Show ["countdown"]) u2)
      with (UI.set_visible_all true ["countdown"] u2).
    rewrite set_visible_all_texts, Ht2. apply lookup_insert_eq.
Qed.

Lemma hide_countdown u :
  ready u ->
  get_visible <$> UI.elements (fst (UI.exec (UI.Hide ["countdown"]) u)) !! "countdown"
  = Some false.
Proof.
  intros Hr.
  assert (Hall : forall x, x ∈ ["countdown"] -> is_Some (UI.elements u !! x)).
  { intros x Hx. apply Hr. revert Hx. in_overlay. }
  change (UI.exec (UI.Hide ["countdown"]) u)
    with (UI.set_visible_all false ["countdown"] u).
  rewrite (set_visible_all_lookup _ _ _ _ Hall).
  destruct (decide _) as [_|Hc]; [|exfalso; set_solver].
  destruct (Hall "countdown") as [e ->]; [set_solver|]. cbn.
  by rewrite get_visible_set.
Qed.

(** The registry after [set_prog] on a hidden element: still hidden, and a
    progress bar holds the value when it is not negative. *)
Lemma set_prog_hidden u name value e :
  UI.elements u !! name = Some e -> get_visible e = false ->
  exists e', UI.elements (fst (UI.exec (UI.SetProg name value) u)) !! name = Some e'
    /\ get_visible e' = false
    /\ forall p, e' = Bar p ->
         Progressbar._scale p = if (value <? 0)%float then 0%float else value.
Proof.
  intros He Hv. destruct (set_prog_effect name value u e He) as [-> _].
  exists (assign_scale value e). rewrite lookup_insert_eq.
  split; [done|]. split; [by rewrite assign_scale_visible|].
  destruct e as [e|p0]; cbn; [discriminate|]. intros p [= <-].
  unfold Progressbar.set_scale. by destruct (value <? 0)%float.
Qed.

(** *** Visibility, texts and scales under the commands *)

Lemma set_visible_all_app b l1 l2 u :
  UI.set_visible_all b (l1 ++ l2) u
  = match snd (UI.set_visible_all b l1 u) with
    | Ok _ => UI.set_visible_all b l2 (fst (UI.set_visible_all b l1 u))
    | Raise e => (fst (UI.set_visible_all b l1 u), Raise e)
    end.
Proof.
  revert u. induction l1 as [|a l1 IH]; intros u; cbn; [done|].
  destruct (UI.elements u !! a); [apply IH|done].
Qed.

Lemma shown_set_visible_all b names u n :
  (forall x, x ∈ names -> is_Some (UI.elements u !! x)) ->
  shown (fst (UI.set_visible_all b names u)) n
  = if decide (n ∈ names) then (fun _ => b) <$> shown u n else shown u n.
Proof.
  intros H. unfold shown. rewrite (set_visible_all_lookup _ _ _ _ H).
  destruct (decide _) as [_|_]; [|done].
  destruct (UI.elements u !! n) as [x|]; cbn; [|done].
  by rewrite get_visible_set.
Qed.

Lemma shown_set_text name text u n :
  shown (fst (UI.exec (UI.SetText name text) u)) n = shown u n.
Proof. cbn. unfold UI.set_text. by destruct (UI.elements u !! name). Qed.

Lemma shown_set_prog name value u n :
  shown (fst (UI.exec (UI.SetProg name value) u)) n = shown u n.
Proof.
  cbn. unfold UI.set_prog, shown.
  destruct (UI.elements u !! name) as [e|] eqn:E; cbn; [|done].
  destruct (decide (name = n)) as [->|Hne].
  - rewrite lookup_insert_eq, E. cbn. by rewrite assign_scale_visible.
  - by rewrite lookup_insert_ne.
Qed.

Lemma bar_scale_set_visible_all b names u n :
  bar_scale (fst (UI.set_visible_all b names u)) n = bar_scale u n.
Proof.
  revert u. induction names as [|a names IH]; intros u; cbn; [done|].
  destruct (UI.elements u !! a) as [e|] eqn:E; cbn; [|done].
  rewrite IH. unfold bar_scale. cbn. destruct (decide (a = n)) as [->|Hne].
  - rewrite lookup_insert_eq, E. by destruct e.
  - by rewrite lookup_insert_ne.
Qed.

Lemma bar_scale_set_text name text u n :
  bar_scale (fst (UI.exec (UI.SetText name text) u)) n = bar_scale u n.
Proof. cbn. unfold UI.set_text. by destruct (UI.elements u !! name). Qed.

Lemma bar_scale_set_prog name value u :
  is_Some (bar_scale u name) ->
  bar_scale (fst (UI.exec (UI.SetProg name value) u)) name = Some (clamped value).
Proof.
  unfold bar_scale. cbn. unfold UI.set_prog.
  destruct (UI.elements u !! name) as [[e|p]|] eqn:E; cbn; intros [x Hx]; try discriminate.
  rewrite lookup_insert_eq. cbn. unfold Progressbar.set_scale, clamped.
  by destruct (value <? 0)%float.
Qed.

Lemma overlay_switch_help b u help countdown :
  ready u -> overlay_shows u help countdown ->
  overlay_shows (fst (UI.set_visible_all b help_names u)) b countdown.
Proof.
  intros Hr [Hh Hc].
  assert (Hall : forall x, x ∈ help_names -> is_Some (UI.elements u !! x)).
  { intros x Hx. apply Hr. revert Hx. unfold help_names. in_overlay. }
  split.
  - intros n Hn. rewrite (shown_set_visible_all _ _ _ _ Hall).
    rewrite decide_True by done. by rewrite (Hh n Hn).
  - rewrite (shown_set_visible_all _ _ _ _ Hall).
    rewrite decide_False; [done|]. unfold help_names. set_solver.
Qed.

Lemma overlay_switch_countdown b u help countdown :
  ready u -> overlay_shows u help countdown ->
  overlay_shows (fst (UI.set_visible_all b ["countdown"] u)) help b.
Proof.
  intros Hr [Hh Hc].
  assert (Hall : forall x, x ∈ ["countdown"] -> is_Some (UI.elements u !! x)).
  { intros x Hx. apply Hr. revert Hx. in_overlay. }
  split.
  - intros n Hn. rewrite (shown_set_visible_all _ _ _ _ Hall).
    rewrite decide_False; [by apply Hh|]. revert Hn. unfold help_names. set_solver.
  - rewrite (shown_set_visible_all _ _ _ _ Hall).
    rewrite decide_True by set_solver. by rewrite Hc.
Qed.

Lemma overlay_set_text name text u help countdown :
  overlay_shows u help countdown ->
  overlay_shows (fst (UI.exec (UI.SetText name text) u)) help countdown.
Proof.
  intros [Hh Hc]. split; [intros n Hn|]; rewrite shown_set_text; [by apply Hh|done].
Qed.

Lemma overlay_set_prog name value u help countdown :
  overlay_shows u help countdown ->
  overlay_shows (fst (UI.exec (UI.SetProg name value) u)) help countdown.
Proof.
  intros [Hh Hc]. split; [intros n Hn|]; rewrite shown_set_prog; [by apply Hh|done].
Qed.

Lemma bar_kept c u n :
  UI.creates c = [] -> is_Some (bar_scale u n) ->
  is_Some (bar_scale (fst (UI.exec c u)) n).
Proof.
  destruct c as [a p z|a|a t|a v|l|l]; cbn [UI.creates]; try discriminate; intros _ Hb.
  - by rewrite bar_scale_set_text.
  - destruct (decide (a = n)) as [->|Hne]; [by rewrite bar_scale_set_prog|].
    unfold bar_scale. cbn. unfold UI.set_prog.
    destruct (UI.elements u !! a); cbn; [|done]. by rewrite lookup_insert_ne.
  - change (UI.exec (UI.Show l) u) with (UI.set_visible_all true l u).
    by rewrite bar_scale_set_visible_all.
  - change (UI.exec (UI.Hide l) u) with (UI.set_visible_all false l u).
    by rewrite bar_scale_set_visible_all.
Qed.

Lemma overlay_show_help u help countdown :
  ready u -> overlay_shows u help countdown ->
  overlay_shows (fst (UI.exec (UI.Show ["help_1"; "help_2"; "filter_name"; "bar"]) u))
    true countdown.
Proof. exact (overlay_switch_help true u help countdown). Qed.

Lemma overlay_hide_help u help countdown :
  ready u -> overlay_shows u help countdown ->
  overlay_shows (fst (UI.exec (UI.Hide ["help_1"; "help_2"; "filter_name"; "bar"]) u))
    false countdown.
Proof. exact (overlay_switch_help false u help countdown). Qed.

Lemma overlay_show_countdown u help countdown :
  ready u -> overlay_shows u help countdown ->
  overlay_shows (fst (UI.exec (UI.Show ["countdown"]) u)) help true.
Proof. exact (overlay_switch_countdown true u help countdown). Qed.

Lemma overlay_hide_countdown u help countdown :
  ready u -> overlay_shows u help countdown ->
  overlay_shows (fst (UI.exec (UI.Hide ["countdown"]) u)) help false.
Proof. exact (overlay_switch_countdown false u help countdown). Qed.

(** The overlay once [Idle.enter] has run on a registry whose countdown is
    hidden. *)
Lemma overlay_Idle_enter u :
  ready u -> shown u "countdown" = Some false ->
  overlay_shows
    (fst (UI.exec (UI.SetProg "bar" 0)
       (fst (UI.exec (UI.Show ["help_1"; "help_2"; "filter_name"; "bar"]) u))))
    true false.
Proof.
  intros Hr Hc. apply overlay_set_prog.
  assert (Hall : forall x, x ∈ help_names -> is_Some (UI.elements u !! x)).
  { intros x Hx. apply Hr. revert Hx. unfold help_names. in_overlay. }
  change (UI.exec (UI.Show ["help_1"; "help_2"; "filter_name"; "bar"]) u)
    with (UI.set_visible_all true help_names u).
  split.
  - intros n Hn. rewrite (shown_set_visible_all _ _ _ _ Hall).
    rewrite decide_True by done. unfold shown. by destruct (Hall n Hn) as [x ->].
  - rewrite (shown_set_visible_all _ _ _ _ Hall).
    rewrite decide_False; [done|]. unfold help_names. set_solver.
Qed.

(** *** The registry as its users see it *)

Lemma show_hide_loop (b : bool) : (if b then UI.show else UI.hide) = UI.set_visible_all b.
Proof. by destruct b. Qed.

Lemma registry_eq u u' :
  UI.elements u = UI.elements u' -> UI.texts u = UI.texts u' -> u = u'.
Proof. destruct u, u'. cbn. by intros -> ->. Qed.

Lemma texts_exec c u : texts_have_elements u -> texts_have_elements (fst (UI.exec c u)).
Proof.
  intros Hu n. rewrite exec_dom. destruct c as [a p z|a|a t|a v|l|l]; cbn.
  - intros H. left. by apply Hu.
  - intros H. left. by apply Hu.
  - unfold UI.set_text. destruct (UI.elements u !! a) as [x|] eqn:E; cbn.
    + rewrite lookup_insert_is_Some. intros [<-|[_ H]]; left; [by rewrite E|by apply Hu].
    + intros H. left. by apply Hu.
  - unfold UI.set_prog. destruct (UI.elements u !! a); cbn; intros H; left; by apply Hu.
  - unfold UI.show. rewrite set_visible_all_texts. intros H. left. by apply Hu.
  - unfold UI.hide. rewrite set_visible_all_texts. intros H. left. by apply Hu.
Qed.

Lemma run_keeps (I : UI.t -> Prop) :
  (forall c u, I u -> I (fst (UI.exec c u))) -> forall h u, I u -> I (UI.run h u).
Proof.
  intros Hexec h. induction h as [|c h IH]; intros u Hu; [done|].
  cbn. apply IH, Hexec, Hu.
Qed.

(** X10. Whatever commands the registry has run since it was built, a name
    that has a text is the name of an element, one that a [create_text] or
    [create_progressbar] of the history created: [set_text] stores no text
    under a name without an element, and no command removes an element.  So
    the lookup [self.elements[k]] that [UI.draw] makes for every key of
    [texts] finds an element. *)
Theorem texts_only_for_created_elements (h : list UI.command) (n : string) :
  is_Some (UI.texts (UI.run h UI.__init__) !! n) ->
  is_Some (UI.elements (UI.run h UI.__init__) !! n) /\ n ∈ UI.created h.
Proof.
  intros H.
  assert (He : is_Some (UI.elements (UI.run h UI.__init__) !! n)).
  { revert n H. apply (run_keeps texts_have_elements texts_exec).
    intros n [x Hx]. cbn in Hx. by rewrite lookup_empty in Hx. }
  split; [exact He|]. by apply run_created.
Qed.

(** X11. [show] and [hide] are not all-or-nothing.  When the names given
    start with created ones and come to a name that has no element, the call
    raises [KeyError] there: the elements named before it have been switched
    (their other attributes kept), every other element is as it was, also
    the ones named after the unknown name, and no text has changed. *)
Theorem visibility_loop_stops_at_unknown_name (b : bool) (pre post : list string)
    (bad : string) (u : UI.t) :
  (forall n, n ∈ pre -> is_Some (UI.elements u !! n)) ->
  UI.elements u !! bad = None ->
  let r := (if b then UI.show else UI.hide) (pre ++ bad :: post) u in
  snd r = Raise KeyError
  /\ (forall n, n ∈ pre ->
        UI.elements (fst r) !! n = set_visible b <$> UI.elements u !! n
        /\ shown (fst r) n = Some b)
  /\ (forall n, n ∉ pre -> UI.elements (fst r) !! n = UI.elements u !! n)
  /\ UI.texts (fst r) = UI.texts u.
Proof.
  intros Hpre Hbad r. unfold r. rewrite show_hide_loop, set_visible_all_app.
  rewrite (proj2 (set_visible_all_ok b pre u) Hpre).
  set (u1 := fst (UI.set_visible_all b pre u)).
  assert (Hbad1 : UI.elements u1 !! bad = None).
  { destruct (UI.elements u1 !! bad) as [x|] eqn:E; [|done].
    assert (Hs : is_Some (UI.elements u !! bad))
      by (apply (set_visible_all_dom b pre u bad); fold u1; by rewrite E).
    destruct Hs as [y Hy]. congruence. }
  cbn [UI.set_visible_all]. rewrite Hbad1. cbn [fst snd].
  split; [done|]. split; [|split].
  - intros n Hn. unfold shown, u1. rewrite (set_visible_all_lookup _ _ _ _ Hpre).
    rewrite decide_True by done. split; [done|].
    destruct (Hpre n Hn) as [x ->]. cbn. by rewrite get_visible_set.
  - intros n Hn. unfold u1. rewrite (set_visible_all_lookup _ _ _ _ Hpre).
    by rewrite decide_False.
  - apply set_visible_all_texts.
Qed.

(** X12. Of two calls of [show] or [hide] on the same created names, the
    later one decides: both return normally, and the registry after both is
    the registry after the later call alone.  So [hide] undoes [show],
    [show] undoes [hide], and repeating a call changes nothing. *)
Theorem later_visibility_call_wins (b b' : bool) (names : list string) (u : UI.t) :
  (forall n, n ∈ names -> is_Some (UI.elements u !! n)) ->
  let first := (if b' then UI.show else UI.hide) names u in
  let second := (if b then UI.show else UI.hide) names (fst first) in
  snd first = Ok tt
  /\ snd second = Ok tt
  /\ fst second = fst ((if b then UI.show else UI.hide) names u).
Proof.
  intros Hall first second. unfold second, first. rewrite !show_hide_loop.
  set (u1 := fst (UI.set_visible_all b' names u)).
  assert (Hall1 : forall n, n ∈ names -> is_Some (UI.elements u1 !! n)).
  { intros n Hn. apply set_visible_all_dom. by apply Hall. }
  split; [by apply set_visible_all_ok|]. split; [by apply set_visible_all_ok|].
  apply registry_eq.
  - apply map_eq. intros i.
    rewrite (set_visible_all_lookup _ _ _ _ Hall1), (set_visible_all_lookup _ _ _ _ Hall).
    unfold u1. rewrite (set_visible_all_lookup _ _ _ _ Hall).
    destruct (decide (i ∈ names)) as [_|_]; [|done].
    destruct (UI.elements u !! i) as [[x|x]|]; reflexivity.
  - unfold u1. by rewrite !set_visible_all_texts.
Qed.

End UIFacts.

(** ** The controller *)

Section CoreFacts.
Context {C : Collaborators}.
Implicit Types (w : World) (self : loc) (c : UI.command).

Lemma ui_call_eq c w :
  ui_call c w = (after_ui c w, snd (UI.exec c (ui (core w)))).
Proof.
  unfold ui_call, bind, call, after_ui. cbn.
  destruct (UI.exec c (ui (core w))) as [u r]. reflexivity.
Qed.

Lemma ui_call_ready c w :
  ready (ui (core w)) ->
  (forall n, n ∈ UI.addresses c -> n ∈ overlay_names) ->
  ui_call c w = (after_ui c w, Ok tt) /\ ready (ui (core (after_ui c w))).
Proof.
  intros Hr Ha. rewrite ui_call_eq. split.
  - f_equal. apply exec_ok. intros n Hn. apply Hr, Ha, Hn.
  - cbn. by apply ready_exec.
Qed.

Lemma with_objects_id w : with_objects (objects w) w = w.
Proof. by destruct w. Qed.

Lemma deref_eq w self o : objects w !! self = Some o -> deref self w = (w, Ok o).
Proof. unfold deref. by intros ->. Qed.

Lemma get_idle_eq w self s :
  objects w !! self = Some (IdleObj s) -> get_idle self w = (w, Ok s).
Proof. intros H. unfold get_idle, bind. by rewrite (deref_eq _ _ _ H). Qed.

Lemma bind_ui_ready {A} c (k : unit -> M A) w :
  ready (ui (core w)) ->
  (forall n, n ∈ UI.addresses c -> n ∈ overlay_names) ->
  bind (ui_call c) k w = k tt (after_ui c w).
Proof.
  intros Hr Ha. unfold bind at 1.
  destruct (ui_call_ready c w Hr Ha) as [-> _]. reflexivity.
Qed.

Lemma ready_after_ui c w : ready (ui (core w)) -> ready (ui (core (after_ui c w))).
Proof. intros H. cbn. by apply ready_exec. Qed.

Ltac overlay :=
  let n := fresh "n" in let Hn := fresh "Hn" in
  intros n Hn; cbn in Hn; unfold overlay_names;
  repeat (apply elem_of_cons in Hn as [->|Hn]; [set_solver|]);
  by apply elem_of_nil in Hn.

Ltac world_simpl :=
  cbn [core objects calls ui tick stopped out_frame filters fg_masker hand_detector
       win_size filtered_frame _state
       with_core with_objects with_calls with_stopped with_tick with_out_frame
       with_filters with_fg_masker with_hand_detector with_ui with_filtered_frame
       with__state fst snd].

Ltac world_open := unfold after_ui; world_simpl.

Ltac ready_tac :=
  unfold after_ui; world_simpl; repeat apply ready_exec; assumption.

Ltac ui_step :=
  rewrite bind_ui_ready; [| solve [ready_tac] | solve [overlay] ].

Lemma ui_call_ready_eq c w :
  ready (ui (core w)) ->
  (forall n, n ∈ UI.addresses c -> n ∈ overlay_names) ->
  ui_call c w = (after_ui c w, Ok tt).
Proof. intros Hr Ha. by destruct (ui_call_ready c w Hr Ha). Qed.

Ltac ui_last :=
  rewrite ui_call_ready_eq; [| solve [ready_tac] | solve [overlay] ].

Lemma lookup_snoc_new (l : list State) (o : State) : (l ++ [o]) !! length l = Some o.
Proof. by rewrite list_lookup_middle. Qed.

Lemma insert_snoc_new (l : list State) (o o' : State) :
  <[length l := o']> (l ++ [o]) = l ++ [o'].
Proof.
  rewrite insert_app_r_alt by lia. by rewrite Nat.sub_diag.
Qed.

Lemma transition_Idle w :
  ready (ui (core w)) ->
  bind (new (IdleObj Idle.__init__)) CanvasCore_set_state w = (entered_Idle w, Ok tt).
Proof.
  intros Hr.
  unfold bind at 1, new, CanvasCore_set_state, bind at 1, modify_core,
    bind at 1, get_core, State_enter, bind at 1, deref.
  world_simpl.
  rewrite lookup_snoc_new. unfold Idle_enter. ui_step. ui_last. reflexivity.
Qed.

Lemma transition_Filter w :
  ready (ui (core w)) ->
  bind (new (FilterObj Filter.__init__)) CanvasCore_set_state w = (entered_Filter w, Ok tt).
Proof.
  intros Hr.
  unfold bind at 1, new, CanvasCore_set_state, bind at 1, modify_core,
    bind at 1, get_core, State_enter, bind at 1, deref.
  world_simpl.
  rewrite lookup_snoc_new. unfold Filter_enter, get_filter, bind at 1, bind at 1, deref.
  world_simpl.
  rewrite lookup_snoc_new. unfold ret, bind at 1, assign.
  world_simpl.
  rewrite insert_snoc_new.
  ui_step. ui_step. ui_last. reflexivity.
Qed.

Lemma transition_ShowPic w :
  ready (ui (core w)) ->
  bind (new (ShowPicObj ShowPic.__init__)) CanvasCore_set_state w = (entered_ShowPic w, Ok tt).
Proof.
  intros Hr.
  unfold bind at 1, new, CanvasCore_set_state, bind at 1, modify_core,
    bind at 1, get_core, State_enter, bind at 1, deref.
  world_simpl.
  rewrite lookup_snoc_new. unfold ShowPic_enter. ui_step.
  unfold get_showpic, bind at 1, bind at 1, deref.
  world_open.
  rewrite lookup_snoc_new. unfold ret, assign.
  world_simpl.
  rewrite insert_snoc_new. reflexivity.
Qed.

Ltac run :=
  unfold get_idle, get_filter, get_showpic,
    hand_detector_count_fingers, fg_masker_apply, cv2_bitwise_and,
    filters_current_filter, filters_next_filter, filter_label,
    bind, ret, raise, get_core, modify_core, call, new, assign, deref;
  world_simpl.

Lemma lookup_insert_self (l : list State) (i : nat) (o o' : State) :
  l !! i = Some o -> <[i := o']> l !! i = Some o'.
Proof. intros H. apply list_lookup_insert_eq. by eapply lookup_lt_Some. Qed.

Lemma trigger_assign w self s fc :
  objects w !! self = Some (IdleObj s) ->
  Idle_update_filter_trigger self fc w =
    (let w1 := with_objects
       (<[self := IdleObj (Idle.with_take_pic_cnt (sampled_cnt fc (Idle.take_pic_cnt s)) s)]>
          (objects w)) w in
     if (1 <=? sampled_cnt fc (Idle.take_pic_cnt s))%float
     then bind (new (FilterObj Filter.__init__)) CanvasCore_set_state w1
     else (w1, Ok tt)).
Proof.
  intros H. unfold Idle_update_filter_trigger, sampled_cnt.
  unfold bind at 1. unfold bind at 1. rewrite (get_idle_eq _ _ _ H).
  destruct (fc =? 5).
  - unfold assign at 1. unfold bind at 1.
    erewrite get_idle_eq by (world_simpl; by eapply lookup_insert_self).
    world_simpl. by destruct (1 <=? _)%float.
  - destruct (0 <? Idle.take_pic_cnt s)%float.
    + unfold assign at 1. unfold bind at 1.
      erewrite get_idle_eq by (world_simpl; by eapply lookup_insert_self).
      world_simpl. by destruct (1 <=? _)%float.
    + unfold ret at 1. unfold bind at 1. rewrite (get_idle_eq _ _ _ H).
      replace (Idle.with_take_pic_cnt (Idle.take_pic_cnt s) s) with s by (by destruct s).
      rewrite list_insert_id by exact H. rewrite with_objects_id.
      by destruct (1 <=? _)%float.
Qed.

Lemma carousel_eq w self s fc t :
  objects w !! self = Some (IdleObj s) ->
  Idle_update_filter_carousel self fc t w =
    if (fc =? 2) && (Idle.change_filter_time s - t <=? 0)%float
       && (Idle.take_pic_cnt s <=? 0)%float
    then
      ui_call (UI.SetText "filter_name"
                 ("Current filter is " +:+ current_name (next_filter (filters (core w)))))
        {| core := with_filters (next_filter (filters (core w))) (core w);
           objects := <[self := IdleObj (Idle.with_change_filter_time (t + 1.5) s)]> (objects w);
           calls := calls w ++ [CallNextFilter] |}
    else (w, Ok tt).
Proof.
  intros H. unfold Idle_update_filter_carousel.
  destruct (fc =? 2); [|reflexivity]. cbn [andb].
  unfold bind at 1. rewrite (get_idle_eq _ _ _ H).
  destruct (_ && _); reflexivity.
Qed.

Lemma Idle_update_unsampled w self s t frame :
  objects w !! self = Some (IdleObj s) ->
  (Idle.finger_frame_interval s - t <? 0)%float = false ->
  Idle_update self t frame w = (with_core (with_out_frame (Some frame) (core w)) w, Ok tt).
Proof.
  intros H Hn. unfold Idle_update. unfold bind at 1, modify_core at 1.
  unfold bind at 1. erewrite get_idle_eq by exact H. by rewrite Hn.
Qed.

Lemma Idle_update_raise w self s t frame h e :
  objects w !! self = Some (IdleObj s) ->
  (Idle.finger_frame_interval s - t <? 0)%float = true ->
  count_fingers (hand_detector (core w)) frame = (h, Raise e) ->
  Idle_update self t frame w =
    ({| core := with_hand_detector h (with_out_frame (Some frame) (core w));
        objects := objects w;
        calls := calls w ++ [CallCountFingers frame] |}, Raise e).
Proof.
  intros H Hs Hc. unfold Idle_update. unfold bind at 1, modify_core at 1.
  unfold bind at 1. erewrite get_idle_eq by exact H. rewrite Hs.
  unfold bind at 1, hand_detector_count_fingers, bind at 1, call. world_simpl.
  by rewrite Hc.
Qed.

Lemma Idle_update_sampled w self s t frame h fc :
  objects w !! self = Some (IdleObj s) ->
  (Idle.finger_frame_interval s - t <? 0)%float = true ->
  count_fingers (hand_detector (core w)) frame = (h, Ok fc) ->
  Idle_update self t frame w =
    (let w1 := counted self t frame h fc s w in
     let s1 := Idle.with_take_pic_cnt (sampled_cnt fc (Idle.take_pic_cnt s))
                 (Idle.with_finger_frame_interval (t + 0.1) s) in
     bind (if (1 <=? Idle.take_pic_cnt s1)%float
           then bind (new (FilterObj Filter.__init__)) CanvasCore_set_state
           else ret tt)
       (fun _ =>
          bind (Idle_update_filter_carousel self fc t)
            (fun _ => bind (get_idle self)
               (fun s => ui_call (UI.SetProg "bar" (Idle.take_pic_cnt s))))) w1).
Proof.
  intros H Hs Hc. unfold Idle_update. unfold bind at 1, modify_core at 1.
  unfold bind at 1. erewrite get_idle_eq by exact H. rewrite Hs.
  unfold bind at 1, hand_detector_count_fingers, bind at 1, call. world_simpl.
  rewrite Hc. world_simpl.
  unfold bind at 1. unfold bind at 1.
  erewrite get_idle_eq by (world_simpl; exact H).
  unfold assign at 1. unfold bind at 1.
  erewrite trigger_assign by (world_simpl; by eapply lookup_insert_self).
  world_simpl. rewrite list_insert_insert_eq.
  cbn zeta. unfold counted.
  cbn [Idle.take_pic_cnt Idle.with_take_pic_cnt Idle.with_finger_frame_interval].
  destruct (1 <=? _)%float; reflexivity.
Qed.

Section IdleSampled.
Variables (w : World) (self : loc) (s : Idle.t) (t : float) (frame : Frame)
  (h : HandDetect) (fc : Z).
Hypothesis Hself : objects w !! self = Some (IdleObj s).
Hypothesis Hfire : (Idle.finger_frame_interval s - t <? 0)%float = true.
Hypothesis Hcount : count_fingers (hand_detector (core w)) frame = (h, Ok fc).
Hypothesis Hready : ready (ui (core w)).

Let cnt' := sampled_cnt fc (Idle.take_pic_cnt s).
Let s1 := Idle.with_take_pic_cnt cnt' (Idle.with_finger_frame_interval (t + 0.1) s).
Let w1 := counted self t frame h fc s w.

Lemma counted_self : objects w1 !! self = Some (IdleObj s1).
Proof. unfold w1, counted. world_simpl. by eapply lookup_insert_self. Qed.

Lemma Idle_sampled_plain :
  (1 <=? cnt')%float = false -> rotates fc t s = false ->
  Idle_update self t frame w = (after_ui (UI.SetProg "bar" cnt') w1, Ok tt).
Proof.
  intros Hlt Hrot. rewrite (Idle_update_sampled _ _ _ _ _ _ _ Hself Hfire Hcount).
  cbn zeta. fold cnt' s1 w1.
  cbn [Idle.take_pic_cnt Idle.with_take_pic_cnt s1]. rewrite Hlt.
  unfold bind at 1, ret at 1. unfold bind at 1.
  rewrite (carousel_eq _ _ _ _ _ counted_self).
  unfold rotates in Hrot. fold cnt' in Hrot.
  cbn [Idle.take_pic_cnt Idle.change_filter_time Idle.with_take_pic_cnt
       Idle.with_finger_frame_interval s1].
  rewrite Hrot. unfold bind at 1. rewrite (get_idle_eq _ _ _ counted_self).
  cbn [Idle.take_pic_cnt Idle.with_take_pic_cnt s1].
  rewrite ui_call_ready_eq; [reflexivity| |overlay].
  unfold w1, counted. world_simpl. exact Hready.
Qed.

Lemma Idle_sampled_rotate :
  rotates fc t s = true ->
  Idle_update self t frame w =
    (after_ui (UI.SetProg "bar" cnt') (rotated self t w1 s1), Ok tt).
Proof.
  intros Hrot. rewrite (Idle_update_sampled _ _ _ _ _ _ _ Hself Hfire Hcount).
  cbn zeta. fold cnt' s1 w1.
  cbn [Idle.take_pic_cnt Idle.with_take_pic_cnt s1].
  assert (Hlt : (1 <=? cnt')%float = false).
  { apply le0_not_ge1. unfold rotates in Hrot. fold cnt' in Hrot.
    by apply andb_prop in Hrot as [_ ?]. }
  rewrite Hlt.
  unfold bind at 1, ret at 1. unfold bind at 1.
  rewrite (carousel_eq _ _ _ _ _ counted_self).
  unfold rotates in Hrot. fold cnt' in Hrot.
  cbn [Idle.take_pic_cnt Idle.change_filter_time Idle.with_take_pic_cnt
       Idle.with_finger_frame_interval s1].
  rewrite Hrot.
  assert (Hr1 : ready (ui (core w1))) by (unfold w1, counted; world_simpl; exact Hready).
  rewrite ui_call_ready_eq; [|world_simpl; exact Hr1|overlay].
  fold s1. fold (rotated self t w1 s1).
  unfold bind at 1. erewrite get_idle_eq
    by (unfold rotated, after_ui; world_simpl; eapply lookup_insert_self, counted_self).
  cbn [Idle.take_pic_cnt Idle.with_take_pic_cnt Idle.with_change_filter_time s1].
  rewrite ui_call_ready_eq; [reflexivity| |overlay].
  unfold rotated. apply ready_after_ui. world_simpl. exact Hr1.
Qed.

Lemma Idle_sampled_transition :
  (1 <=? cnt')%float = true ->
  Idle_update self t frame w =
    (after_ui (UI.SetProg "bar" cnt') (entered_Filter w1), Ok tt).
Proof.
  intros Hge. rewrite (Idle_update_sampled _ _ _ _ _ _ _ Hself Hfire Hcount).
  cbn zeta. fold cnt' s1 w1.
  cbn [Idle.take_pic_cnt Idle.with_take_pic_cnt s1]. rewrite Hge.
  assert (Hr1 : ready (ui (core w1))) by (unfold w1, counted; world_simpl; exact Hready).
  unfold bind at 1. rewrite (transition_Filter _ Hr1).
  assert (Hs1 : objects (entered_Filter w1) !! self = Some (IdleObj s1)).
  { unfold entered_Filter, after_ui, installed. world_simpl.
    rewrite lookup_app_l by (eapply lookup_lt_Some, counted_self).
    apply counted_self. }
  unfold bind at 1. rewrite (carousel_eq _ _ _ _ _ Hs1).
  cbn [Idle.take_pic_cnt Idle.change_filter_time Idle.with_take_pic_cnt
       Idle.with_finger_frame_interval s1].
  rewrite (ge1_not_le0 _ Hge), andb_false_r.
  unfold bind at 1. rewrite (get_idle_eq _ _ _ Hs1).
  cbn [Idle.take_pic_cnt Idle.with_take_pic_cnt s1].
  rewrite ui_call_ready_eq; [reflexivity| |overlay].
  unfold entered_Filter. do 3 apply ready_after_ui. unfold installed. world_simpl.
  exact Hr1.
Qed.

End IdleSampled.

(** *** Filter *)

Lemma apply_filter_ok self frame w m mask masked result :
  apply (fg_masker (core w)) frame = (m, Ok mask) ->
  bitwise_and frame frame mask = Ok masked ->
  current_filter (filters (core w)) masked = Ok result ->
  Filter_apply_filter self frame w = (filtered frame m mask masked result w, Ok tt).
Proof.
  intros Ha Hb Hc. unfold Filter_apply_filter. run.
  rewrite Ha. world_simpl. rewrite Hb, Hc. unfold filtered.
  by rewrite <- !app_assoc.
Qed.

(** Whatever the pipeline does, it leaves the state objects, the active
    state, the registry and the published frame alone; when it fails, the
    filtered frame too. *)
Lemma apply_filter_frame self frame w :
  let r := Filter_apply_filter self frame w in
  objects (fst r) = objects w
  /\ _state (core (fst r)) = _state (core w)
  /\ ui (core (fst r)) = ui (core w)
  /\ out_frame (core (fst r)) = out_frame (core w)
  /\ (forall e, snd r = Raise e ->
        filtered_frame (core (fst r)) = filtered_frame (core w))
  /\ (snd r = Ok tt ->
        exists m mask masked result,
          apply (fg_masker (core w)) frame = (m, Ok mask)
          /\ bitwise_and frame frame mask = Ok masked
          /\ current_filter (filters (core w)) masked = Ok result).
Proof.
  unfold Filter_apply_filter. run.
  destruct (apply (fg_masker (core w)) frame) as [m [mask|e1]] eqn:Ha; world_simpl.
  2:{ repeat split; try done. }
  destruct (bitwise_and frame frame mask) as [masked|e2] eqn:Hb; world_simpl.
  2:{ repeat split; try done. }
  destruct (current_filter (filters (core w)) masked) as [result|e3] eqn:Hc; world_simpl.
  2:{ repeat split; try done. }
  repeat split; try done. intros _. by exists m, mask, masked, result.
Qed.

Section FilterUpdate.
Variables (w : World) (self : loc) (s : Filter.t) (t : float) (frame : Frame).
Hypothesis Hself : objects w !! self = Some (FilterObj s).

Lemma Filter_update_running n :
  ready (ui (core w)) ->
  (0 <? Filter.countdown_time s - t)%float = true ->
  Py.int (Filter.countdown_time s - t) = Ok n ->
  Filter_update self t frame w =
    (let w1 := after_ui (UI.SetText "countdown" (Py.str n)) w in
     with_core (with_out_frame (Some frame) (core w1)) w1, Ok tt).
Proof.
  intros Hr Hrun Hint. unfold Filter_update. unfold bind at 1.
  unfold get_filter, bind at 1. rewrite (deref_eq _ _ _ Hself). unfold ret at 1.
  rewrite Hrun. unfold bind at 1. rewrite Hint. ui_step. reflexivity.
Qed.

Lemma Filter_update_running_raise e :
  (0 <? Filter.countdown_time s - t)%float = true ->
  Py.int (Filter.countdown_time s - t) = Raise e ->
  Filter_update self t frame w = (w, Raise e).
Proof.
  intros Hrun Hint. unfold Filter_update. unfold bind at 1.
  unfold get_filter, bind at 1. rewrite (deref_eq _ _ _ Hself). unfold ret at 1.
  rewrite Hrun. unfold bind at 1. by rewrite Hint.
Qed.

Lemma Filter_update_expired_eq :
  ready (ui (core w)) ->
  (0 <? Filter.countdown_time s - t)%float = false ->
  Filter_update self t frame w =
    bind (Filter_apply_filter self frame)
      (fun _ => bind (new (ShowPicObj ShowPic.__init__)) CanvasCore_set_state)
      (after_ui (UI.Hide ["countdown"]) w).
Proof.
  intros Hr Hexp. unfold Filter_update. unfold bind at 1.
  unfold get_filter, bind at 1. rewrite (deref_eq _ _ _ Hself). unfold ret at 1.
  rewrite Hexp. ui_step. reflexivity.
Qed.

Lemma Filter_update_expired m mask masked result :
  ready (ui (core w)) ->
  (0 <? Filter.countdown_time s - t)%float = false ->
  apply (fg_masker (core w)) frame = (m, Ok mask) ->
  bitwise_and frame frame mask = Ok masked ->
  current_filter (filters (core w)) masked = Ok result ->
  Filter_update self t frame w =
    (entered_ShowPic
       (filtered frame m mask masked result (after_ui (UI.Hide ["countdown"]) w)),
     Ok tt).
Proof.
  intros Hr Hexp Ha Hb Hc. rewrite (Filter_update_expired_eq Hr Hexp).
  unfold bind at 1. erewrite apply_filter_ok; eauto.
  apply transition_ShowPic. unfold filtered. world_simpl.
  by apply ready_after_ui.
Qed.

End FilterUpdate.

(** *** ShowPic *)

Lemma ShowPic_update_eq w self s t frame :
  objects w !! self = Some (ShowPicObj s) ->
  ready (ui (core w)) ->
  ShowPic_update self t frame w =
    (let w1 := with_core (with_out_frame (filtered_frame (core w)) (core w)) w in
     if (ShowPic.show_image_time s - t <? 0)%float then entered_Idle w1 else w1, Ok tt).
Proof.
  intros H Hr. unfold ShowPic_update. unfold bind at 1, modify_core at 1.
  unfold bind at 1. unfold get_showpic, bind at 1.
  erewrite deref_eq by (world_simpl; exact H). unfold ret at 1. cbn zeta.
  destruct (_ <? 0)%float; [|reflexivity].
  apply transition_Idle. world_simpl. exact Hr.
Qed.

Lemma Startup_update_eq w self t frame :
  ready (ui (core w)) -> Startup_update self t frame w = (entered_Idle w, Ok tt).
Proof. intros Hr. exact (transition_Idle w Hr). Qed.

(** *** The loop *)

Lemma iteration_eq w self o now frame :
  _state (core w) = Some self ->
  objects w !! self = Some o ->
  CanvasCore_iteration now frame w =
    (match o with
     | StartupObj => Startup_update
     | IdleObj _ => Idle_update
     | FilterObj _ => Filter_update
     | ShowPicObj _ => ShowPic_update
     end) self now frame (with_core (with_tick now (core w)) w).
Proof.
  intros Hs Ho. unfold CanvasCore_iteration. unfold bind at 1, modify_core at 1.
  unfold bind at 1, get_core at 1. world_simpl. rewrite Hs.
  unfold State_update, bind at 1. erewrite deref_eq by (world_simpl; exact Ho).
  by destruct o.
Qed.

Lemma process_cons now frame q w :
  CanvasCore_process ((now, frame) :: q) w =
    if stopped (core w) then (w, Ok tt)
    else bind (CanvasCore_iteration now frame) (fun _ => CanvasCore_process q) w.
Proof.
  cbn [CanvasCore_process]. unfold bind at 1, get_core at 1.
  by destruct (stopped (core w)).
Qed.

Lemma process_raise now frame q w w' e :
  stopped (core w) = false ->
  CanvasCore_iteration now frame w = (w', Raise e) ->
  CanvasCore_process ((now, frame) :: q) w = (w', Raise e).
Proof. intros Hs Hi. rewrite process_cons, Hs. unfold bind. by rewrite Hi. Qed.

Lemma process_ok now frame q w w' :
  stopped (core w) = false ->
  CanvasCore_iteration now frame w = (w', Ok tt) ->
  CanvasCore_process ((now, frame) :: q) w = CanvasCore_process q w'.
Proof. intros Hs Hi. rewrite process_cons, Hs. unfold bind. by rewrite Hi. Qed.

(** *** Properties of the registry that every command keeps are kept by
    every statement of the controller *)

Section RegistryInvariant.
Variable I : UI.t -> Prop.
Hypothesis I_exec : forall c u, I u -> I (fst (UI.exec c u)).
Abbreviation keeps := (kept_by I).

Lemma keeps_bind {A B} (m : M A) (k : A -> M B) :
  keeps m -> (forall a, keeps (k a)) -> keeps (bind m k).
Proof.
  intros Hm Hk w Hw. unfold bind. specialize (Hm w Hw).
  destruct (m w) as [w' [a|e]]; [by apply Hk|done].
Qed.

Lemma keeps_pure {A} (m : M A) :
  (forall w, ui (core (fst (m w))) = ui (core w)) -> keeps m.
Proof. intros H w Hw. by rewrite H. Qed.

Lemma keeps_ui_call c : keeps (ui_call c).
Proof. intros w Hw. rewrite ui_call_eq. cbn. by apply I_exec. Qed.

Lemma keeps_ret {A} (a : A) : keeps (ret a).
Proof. by apply keeps_pure. Qed.

Lemma keeps_raise {A} e : keeps (@raise _ A e).
Proof. by apply keeps_pure. Qed.

Lemma keeps_get_core : keeps get_core.
Proof. by apply keeps_pure. Qed.

Lemma keeps_modify_core (f : CanvasCore -> CanvasCore) :
  (forall k, ui (f k) = ui k) -> keeps (modify_core f).
Proof. intros H. apply keeps_pure. intros w. cbn. apply H. Qed.

Lemma keeps_call (x : Call) : keeps (call x).
Proof. by apply keeps_pure. Qed.

Lemma keeps_new o : keeps (new o).
Proof. by apply keeps_pure. Qed.

Lemma keeps_assign self o : keeps (assign self o).
Proof. by apply keeps_pure. Qed.

Lemma keeps_deref self : keeps (deref self).
Proof. apply keeps_pure. intros w. unfold deref. by destruct (objects w !! self). Qed.

Lemma keeps_lift {A} (r : outcome A) : keeps (fun w => (w, r)).
Proof. by apply keeps_pure. Qed.

Lemma keeps_count frame : keeps (hand_detector_count_fingers frame).
Proof.
  apply keeps_pure. intros w. unfold hand_detector_count_fingers. run.
  by destruct (count_fingers _ _).
Qed.

Lemma keeps_apply frame : keeps (fg_masker_apply frame).
Proof.
  apply keeps_pure. intros w. unfold fg_masker_apply. run. by destruct (apply _ _).
Qed.

Ltac keeps_tac :=
  repeat match goal with
    | |- keeps (bind _ _) => apply keeps_bind; [|intros ?]
    | |- keeps (ui_call _) => apply keeps_ui_call
    | |- keeps (hand_detector_count_fingers _) => apply keeps_count
    | |- keeps (fg_masker_apply _) => apply keeps_apply
    | |- keeps (ret _) => apply keeps_ret
    | |- keeps (raise _) => apply keeps_raise
    | |- keeps get_core => apply keeps_get_core
    | |- keeps (modify_core _) => apply keeps_modify_core; intros ?; reflexivity
    | |- keeps (call _) => apply keeps_call
    | |- keeps (new _) => apply keeps_new
    | |- keeps (assign _ _) => apply keeps_assign
    | |- keeps (deref _) => apply keeps_deref
    | |- keeps (fun w => (w, _)) => apply keeps_lift
    | |- keeps (fun w => _) => solve [by apply keeps_pure]
    | |- keeps (if ?b then _ else _) => destruct b
    | |- keeps (match ?o with _ => _ end) => destruct o
    end.

Lemma keeps_get_idle self : keeps (get_idle self).
Proof. unfold get_idle. keeps_tac. Qed.

Lemma keeps_get_filter self : keeps (get_filter self).
Proof. unfold get_filter. keeps_tac. Qed.

Lemma keeps_get_showpic self : keeps (get_showpic self).
Proof. unfold get_showpic. keeps_tac. Qed.

Lemma keeps_filter_label : keeps filter_label.
Proof. unfold filter_label. keeps_tac. Qed.

Lemma keeps_State_enter self t : keeps (State_enter self t).
Proof.
  unfold State_enter, Startup_enter, Idle_enter, Filter_enter, ShowPic_enter.
  keeps_tac;
    first [apply keeps_filter_label | apply keeps_get_filter | apply keeps_get_showpic].
Qed.

Lemma keeps_set_state state : keeps (CanvasCore_set_state state).
Proof. unfold CanvasCore_set_state. keeps_tac. apply keeps_State_enter. Qed.

Lemma keeps_apply_filter self frame : keeps (Filter_apply_filter self frame).
Proof.
  unfold Filter_apply_filter, cv2_bitwise_and, filters_current_filter. keeps_tac.
Qed.

Lemma keeps_trigger self fc : keeps (Idle_update_filter_trigger self fc).
Proof.
  unfold Idle_update_filter_trigger. keeps_tac;
    first [apply keeps_get_idle | apply keeps_set_state].
Qed.

Lemma keeps_carousel self fc t : keeps (Idle_update_filter_carousel self fc t).
Proof.
  unfold Idle_update_filter_carousel, filters_next_filter. keeps_tac;
    first [apply keeps_get_idle | apply keeps_filter_label].
Qed.

Lemma keeps_State_update self t frame : keeps (State_update self t frame).
Proof.
  unfold State_update, Startup_update, Idle_update, Filter_update, ShowPic_update.
  keeps_tac;
    first [apply keeps_get_idle | apply keeps_get_filter | apply keeps_get_showpic
          | apply keeps_set_state | apply keeps_trigger | apply keeps_carousel
          | apply keeps_apply_filter].
Qed.

Lemma keeps_iteration now frame : keeps (CanvasCore_iteration now frame).
Proof. unfold CanvasCore_iteration. keeps_tac. apply keeps_State_update. Qed.

Lemma keeps_process q : keeps (CanvasCore_process q).
Proof.
  induction q as [|[now frame] q IH]; cbn [CanvasCore_process]; keeps_tac;
    first [apply keeps_iteration | apply IH].
Qed.


End RegistryInvariant.

(** *** Worlds of a run *)

Lemma ready_process q w :
  ready (ui (core w)) -> ready (ui (core (fst (CanvasCore_process q w)))).
Proof. apply (keeps_process ready ready_exec). Qed.

Lemma ready_iteration now frame w :
  ready (ui (core w)) -> ready (ui (core (fst (CanvasCore_iteration now frame w)))).
Proof. apply (keeps_iteration ready ready_exec). Qed.

Lemma iteration_store w now frame :
  sane w ->
  let r := CanvasCore_iteration now frame w in
  (_state (core (fst r)) = _state (core w)
   /\ length (objects (fst r)) = length (objects w))
  \/ (snd r = Ok tt /\ transition now w (fst r)).
Proof.
  intros [Hr [o Ho]]. unfold active in Ho.
  destruct (_state (core w)) as [self|] eqn:Hst; [|discriminate].
  set (w0 := with_core (with_tick now (core w)) w).
  assert (Hr0 : ready (ui (core w0))) by exact Hr.
  assert (Ho0 : objects w0 !! self = Some o) by exact Ho.
  cbn zeta. destruct (CanvasCore_iteration now frame w) as [w' res] eqn:Hit.
  rewrite (iteration_eq _ _ _ _ _ Hst Ho) in Hit. fold w0 in Hit. cbn [fst snd].
  destruct o as [|s|s|s].
  - right. rewrite (Startup_update_eq _ _ _ _ Hr0) in Hit. injection Hit as <- <-.
    split; [done|]. by apply (to_Idle _ _ _ w0).
  - destruct (Idle.finger_frame_interval s - now <? 0)%float eqn:Hfire.
    2:{ left. rewrite (Idle_update_unsampled _ _ _ _ _ Ho0 Hfire) in Hit.
        injection Hit as <- <-. by split. }
    destruct (count_fingers (hand_detector (core w0)) frame) as [h [fc|e]] eqn:Hc.
    2:{ left. rewrite (Idle_update_raise _ _ _ _ _ _ _ Ho0 Hfire Hc) in Hit.
        injection Hit as <- <-. by split. }
    destruct (1 <=? sampled_cnt fc (Idle.take_pic_cnt s))%float eqn:Hge.
    { right. rewrite (Idle_sampled_transition _ _ _ _ _ _ _ Ho0 Hfire Hc Hr0 Hge) in Hit.
      injection Hit as <- <-. split; [done|].
      apply (to_Filter _ _ _ (counted self now frame h fc s w0)
               (sampled_cnt fc (Idle.take_pic_cnt s))); try done.
      unfold counted. world_simpl. apply length_insert. }
    left. destruct (rotates fc now s) eqn:Hrot.
    + rewrite (Idle_sampled_rotate _ _ _ _ _ _ _ Ho0 Hfire Hc Hr0 Hrot) in Hit.
      injection Hit as <- <-.
      unfold rotated, after_ui, counted. world_simpl. split; [done|].
      by rewrite !length_insert.
    + rewrite (Idle_sampled_plain _ _ _ _ _ _ _ Ho0 Hfire Hc Hr0 Hge Hrot) in Hit.
      injection Hit as <- <-.
      unfold after_ui, counted. world_simpl. split; [done|].
      by rewrite !length_insert.
  - destruct (0 <? Filter.countdown_time s - now)%float eqn:Hrun.
    + left. destruct (Py.int (Filter.countdown_time s - now)) as [n|e] eqn:Hint.
      * rewrite (Filter_update_running _ _ _ _ _ Ho0 _ Hr0 Hrun Hint) in Hit.
        injection Hit as <- <-. by split.
      * rewrite (Filter_update_running_raise _ _ _ _ _ Ho0 _ Hrun Hint) in Hit.
        injection Hit as <- <-. by split.
    + rewrite (Filter_update_expired_eq _ _ _ _ _ Ho0 Hr0 Hrun) in Hit.
      set (w1 := after_ui (UI.Hide ["countdown"]) w0) in *.
      destruct (apply_filter_frame self frame w1) as (Hobj & Hs & Hui & _ & _ & Hok).
      unfold bind at 1 in Hit.
      destruct (Filter_apply_filter self frame w1) as [w2 [[]|e]] eqn:Hf; cbn [fst snd] in *.
      * right. destruct (Hok eq_refl) as (m & mask & masked & result & Ha & Hb & Hcf).
        rewrite (apply_filter_ok self _ _ _ _ _ _ Ha Hb Hcf) in Hf.
        injection Hf as <-.
        assert (Hrf : ready (ui (core (filtered frame m mask masked result w1)))).
        { unfold filtered. world_simpl. by apply ready_after_ui. }
        pose proof (transition_ShowPic _ Hrf) as Ht.
        pose proof (eq_trans (eq_sym Ht) Hit) as Heq. injection Heq as <- <-.
        split; [done|].
        by apply (to_ShowPic _ _ _ (filtered frame m mask masked result w1)).
      * left. injection Hit as <- <-. by rewrite Hobj, Hs.
  - rewrite (ShowPic_update_eq _ _ _ _ _ Ho0 Hr0) in Hit. cbn zeta in Hit.
    destruct (_ <? 0)%float; injection Hit as <- <-.
    + right. split; [done|].
      by apply (to_Idle _ _ _
                  (with_core (with_out_frame (filtered_frame (core w0)) (core w0)) w0)).
    + left. by split.
Qed.


Lemma active_after_ui c w : active (after_ui c w) = active w.
Proof. reflexivity. Qed.

Lemma active_entered_Idle w : active (entered_Idle w) = Some (IdleObj Idle.__init__).
Proof.
  unfold entered_Idle. rewrite !active_after_ui. unfold active, installed. world_simpl.
  apply lookup_snoc_new.
Qed.

Lemma active_entered_Filter w :
  active (entered_Filter w)
  = Some (FilterObj {| Filter.countdown_time := tick (core w) + 4 |}).
Proof.
  unfold entered_Filter. rewrite !active_after_ui. unfold active, installed. world_simpl.
  apply lookup_snoc_new.
Qed.

Lemma active_entered_ShowPic w :
  active (entered_ShowPic w)
  = Some (ShowPicObj {| ShowPic.show_image_time := tick (core w) + 10 |}).
Proof.
  unfold entered_ShowPic, active, after_ui, installed. world_simpl.
  apply lookup_snoc_new.
Qed.

Lemma transition_active now w w' :
  transition now w w' ->
  _state (core w') = Some (length (objects w))
  /\ (active w' = Some (IdleObj Idle.__init__)
      \/ active w' = Some (FilterObj {| Filter.countdown_time := now + 4 |})
      \/ active w' = Some (ShowPicObj {| ShowPic.show_image_time := now + 10 |})).
Proof.
  intros [w0 Hlen Ht _ ->|w0 cnt Hlen Ht _ ->|w0 Hlen Ht _ ->]; rewrite <- Hlen, <- Ht.
  - split; [reflexivity|]. left. apply active_entered_Idle.
  - split; [reflexivity|]. right; left. rewrite active_after_ui.
    apply active_entered_Filter.
  - split; [reflexivity|]. right; right. apply active_entered_ShowPic.
Qed.

Lemma sane_iteration now frame w :
  sane w -> sane (fst (CanvasCore_iteration now frame w)).
Proof.
  intros Hs. split; [apply ready_iteration, Hs|].
  destruct (iteration_store w now frame Hs) as [[Hst Hlen]|[_ Ht]].
  - destruct Hs as [_ [o Ho]]. unfold active in *. rewrite Hst.
    destruct (_state (core w)) as [l|]; [|discriminate].
    apply lookup_lt_is_Some. rewrite Hlen. by eapply lookup_lt_Some.
  - destruct (transition_active _ _ _ Ht) as [_ [H|[H|H]]]; by rewrite H.
Qed.

Lemma sane_process q w : sane w -> sane (fst (CanvasCore_process q w)).
Proof.
  revert w. induction q as [|[now frame] q IH]; intros w Hs; [done|].
  rewrite process_cons. destruct (stopped (core w)); [done|].
  unfold bind. pose proof (sane_iteration now frame w Hs) as Hs'.
  destruct (CanvasCore_iteration now frame w) as [w' [[]|e]]; [by apply IH|done].
Qed.

Lemma ready_init now screensize :
  ready (ui (core (fst (CanvasCore__init__ now screensize)))).
Proof.
  intros n Hn. unfold overlay_names in Hn.
  repeat (apply elem_of_cons in Hn as [->|Hn]; [vm_compute; eauto|]).
  by apply elem_of_nil in Hn.
Qed.

Lemma sane_init now screensize : sane (fst (CanvasCore__init__ now screensize)).
Proof. split; [apply ready_init|]. vm_compute. eauto. Qed.


(** *** Transitions *)

(** C9. Along every run of the controller from its construction, a state
    object is active before and after every iteration of the loop.  An
    iteration either keeps the active state, or installs an object that no
    earlier reference designates, built by the constructor of its class
    (every counter [0.0]) and then entered with the tick of that iteration:
    an [Idle] with all counters zero, a [Filter] whose countdown ends at
    [now + 4], or a [ShowPic] whose display ends at [now + 10], whatever
    the states before held.  [set_state] itself makes the object the active
    state and then runs its entry hook with the controller's tick. *)
Theorem transition_installs_fresh_state (t0 : float) (screensize : Z * Z)
    (q : list (float * Frame)) (now : float) (frame : Frame) :
  let w := fst (CanvasCore_process q (fst (CanvasCore__init__ t0 screensize))) in
  let w' := fst (CanvasCore_iteration now frame w) in
  is_Some (active w) /\ is_Some (active w')
  /\ (_state (core w') = _state (core w)
      \/ (_state (core w') = Some (length (objects w))
          /\ objects w !! length (objects w) = None
          /\ (active w' = Some (IdleObj Idle.__init__)
              \/ active w' = Some (FilterObj {| Filter.countdown_time := now + 4 |})
              \/ active w' = Some (ShowPicObj {| ShowPic.show_image_time := now + 10 |}))
          /\ transition now w w'))
  /\ (forall state w0,
        CanvasCore_set_state state w0
        = State_enter state (tick (core w0))
            (with_core (with__state (Some state) (core w0)) w0)).
Proof.
  intros w w'.
  assert (Hs : sane w) by apply sane_process, sane_init.
  split; [apply Hs|]. split; [apply (sane_iteration now frame w Hs)|].
  split; [|reflexivity].
  destruct (iteration_store w now frame Hs) as [[Hst _]|[_ Ht]]; [by left|right].
  destruct (transition_active _ _ _ Ht) as [Hst Hact].
  split; [exact Hst|]. split; [by apply lookup_ge_None_2|]. by split.
Qed.

(** C10. When a sampled update in Idle brings the accumulator to [1.0] or
    more, the transition to Filter is not its last effect.  There is a world
    [w1], reached inside the update, in which the Filter object is already
    the active state, the entry hook of Filter has issued its three commands
    and the element ["bar"] is hidden; the rotation test has failed; and the
    update ends by running [set_prog("bar", cnt)] on [w1], with the final
    accumulator [cnt >= 1.0]: the command is the last call of the update,
    it leaves Filter the active state and the bar hidden, and a progress bar
    stores [cnt]. *)
Theorem progress_command_after_transition (w : World) (self : loc) (s : Idle.t)
    (now : float) (frame : Frame) (h : HandDetect) (fc : Z) :
  _state (core w) = Some self ->
  objects w !! self = Some (IdleObj s) ->
  ready (ui (core w)) ->
  (Idle.finger_frame_interval s - now <? 0)%float = true ->
  count_fingers (hand_detector (core w)) frame = (h, Ok fc) ->
  (1 <=? sampled_cnt fc (Idle.take_pic_cnt s))%float = true ->
  let cnt := sampled_cnt fc (Idle.take_pic_cnt s) in
  exists w1,
    CanvasCore_iteration now frame w = (after_ui (UI.SetProg "bar" cnt) w1, Ok tt)
    /\ active w1 = Some (FilterObj {| Filter.countdown_time := now + 4 |})
    /\ calls w1 = calls w ++
         [CallCountFingers frame;
          CallUI (UI.Hide ["help_1"; "help_2"; "filter_name"; "bar"]);
          CallUI (UI.SetText "countdown" "3");
          CallUI (UI.Show ["countdown"])]
    /\ (exists e, UI.elements (ui (core w1)) !! "bar" = Some e /\ get_visible e = false)
    /\ rotates fc now s = false
    /\ active (after_ui (UI.SetProg "bar" cnt) w1)
       = Some (FilterObj {| Filter.countdown_time := now + 4 |})
    /\ calls (after_ui (UI.SetProg "bar" cnt) w1) = calls w1 ++ [CallUI (UI.SetProg "bar" cnt)]
    /\ (exists e, UI.elements (ui (core (after_ui (UI.SetProg "bar" cnt) w1))) !! "bar" = Some e
          /\ get_visible e = false
          /\ forall p, e = Bar p -> Progressbar._scale p = cnt).
Proof.
  intros Hst Ho Hr Hfire Hc Hge cnt.
  set (w0 := with_core (with_tick now (core w)) w).
  exists (entered_Filter (counted self now frame h fc s w0)).
  assert (Hbar : exists e,
    UI.elements (ui (core (entered_Filter (counted self now frame h fc s w0)))) !! "bar"
      = Some e /\ get_visible e = false).
  { destruct (Filter_enter_registry (ui (core w)) Hr) as (Hhid & _ & _).
    specialize (Hhid "bar"). cbn zeta in Hhid.
    unfold entered_Filter, after_ui, installed, counted. world_simpl.
    destruct (UI.elements _ !! "bar") as [e|] eqn:E.
    - exists e. split; [done|]. cbn in Hhid.
      assert (Hin : "bar" ∈ ["help_1"; "help_2"; "filter_name"; "bar"]) by set_solver.
      specialize (Hhid Hin). by injection Hhid.
    - exfalso. assert (Hin : "bar" ∈ ["help_1"; "help_2"; "filter_name"; "bar"]) by set_solver.
      specialize (Hhid Hin). discriminate. }
  split.
  { rewrite (iteration_eq _ _ _ _ _ Hst Ho).
    apply (Idle_sampled_transition w0 self s now frame h fc); done. }
  split; [apply active_entered_Filter|].
  split.
  { unfold entered_Filter, after_ui, installed, counted. world_simpl.
    by rewrite <- !app_assoc. }
  split; [exact Hbar|].
  split.
  { unfold rotates. by rewrite (ge1_not_le0 _ Hge), andb_false_r. }
  split; [rewrite active_after_ui; apply active_entered_Filter|].
  split; [reflexivity|].
  destruct Hbar as (e & He & Hv).
  destruct (set_prog_hidden _ "bar" cnt e He Hv) as (e' & He' & Hv' & Hp).
  exists e'. split; [exact He'|]. split; [exact Hv'|].
  intros p Hep. rewrite (Hp p Hep). subst cnt. by rewrite (ge1_not_lt0 _ Hge).
Qed.


(** *** Sampled updates of Idle *)

Section SampledUpdate.
Variables (w : World) (self : loc) (s : Idle.t) (t : float) (frame : Frame)
  (h : HandDetect) (fc : Z).
Hypothesis Hself : objects w !! self = Some (IdleObj s).
Hypothesis Hready : ready (ui (core w)).
Hypothesis Hfire : (Idle.finger_frame_interval s - t <? 0)%float = true.
Hypothesis Hcount : count_fingers (hand_detector (core w)) frame = (h, Ok fc).

Let cnt' := sampled_cnt fc (Idle.take_pic_cnt s).
Let s1 := Idle.with_take_pic_cnt cnt' (Idle.with_finger_frame_interval (t + 0.1) s).
Let w' := fst (Idle_update self t frame w).

(** The calls of the update after the classifier's. *)
Let tail : list Call :=
  (if (1 <=? cnt')%float then
     [CallUI (UI.Hide ["help_1"; "help_2"; "filter_name"; "bar"]);
      CallUI (UI.SetText "countdown" "3");
      CallUI (UI.Show ["countdown"])]
   else if rotates fc t s then
     [CallNextFilter;
      CallUI (UI.SetText "filter_name"
                ("Current filter is " +:+ current_name (next_filter (filters (core w)))))]
   else [])
  ++ [CallUI (UI.SetProg "bar" cnt')].

Lemma rotates_below_one : rotates fc t s = true -> (1 <=? cnt')%float = false.
Proof.
  intros Hrot. apply le0_not_ge1. unfold rotates in Hrot.
  by apply andb_prop in Hrot as [_ ?].
Qed.

Lemma sampled_summary :
  snd (Idle_update self t frame w) = Ok tt
  /\ calls w' = calls w ++ CallCountFingers frame :: tail
  /\ objects w' !! self
     = Some (IdleObj (if rotates fc t s
                      then Idle.with_change_filter_time (t + 1.5) s1 else s1))
  /\ filters (core w')
     = (if rotates fc t s then next_filter (filters (core w)) else filters (core w))
  /\ (exists W, w' = after_ui (UI.SetProg "bar" cnt') W /\ ready (ui (core W)))
  /\ (rotates fc t s = true ->
      UI.texts (ui (core w')) !! "filter_name"
      = Some ("Current filter is " +:+ current_name (filters (core w')))).
Proof.
  pose proof (counted_self w self s t frame h fc Hself) as Hs1. fold cnt' s1 in Hs1.
  assert (Hr1 : ready (ui (core (counted self t frame h fc s w)))) by exact Hready.
  unfold w', tail.
  destruct (1 <=? cnt')%float eqn:Hge.
  - rewrite (Idle_sampled_transition _ _ _ _ _ _ _ Hself Hfire Hcount Hready Hge).
    assert (Hrot : rotates fc t s = false).
    { destruct (rotates fc t s) eqn:E; [|done].
      apply rotates_below_one in E. fold cnt' in Hge. congruence. }
    rewrite Hrot. cbn [fst snd]. split; [done|]. split.
    { unfold entered_Filter, after_ui, installed, counted. world_simpl.
      by rewrite <- !app_assoc. }
    split.
    { unfold entered_Filter, after_ui, installed. world_simpl.
      rewrite lookup_app_l by (by eapply lookup_lt_Some). exact Hs1. }
    split; [reflexivity|]. split; [|discriminate].
    eexists. split; [reflexivity|].
    unfold entered_Filter. do 3 apply ready_after_ui. exact Hr1.
  - destruct (rotates fc t s) eqn:Hrot.
    + rewrite (Idle_sampled_rotate _ _ _ _ _ _ _ Hself Hfire Hcount Hready Hrot).
      cbn [fst snd]. split; [done|]. split.
      { unfold rotated, after_ui, counted. world_simpl. by rewrite <- !app_assoc. }
      split.
      { unfold rotated, after_ui. world_simpl. by eapply lookup_insert_self. }
      split; [reflexivity|]. split.
      { eexists. split; [reflexivity|]. unfold rotated. apply ready_after_ui. exact Hr1. }
      intros _. unfold rotated, after_ui, counted. world_simpl.
      destruct (Hready "bar") as [eb Hb]; [in_overlay|].
      destruct (set_text_effect "filter_name"
                  ("Current filter is " +:+ current_name (next_filter (filters (core w))))
                  (ui (core w))) as [He Ht]; [apply Hready; in_overlay|].
      rewrite <- He in Hb.
      destruct (set_prog_effect "bar" (sampled_cnt fc (Idle.take_pic_cnt s)) _ eb Hb)
        as [_ ->].
      rewrite Ht. apply lookup_insert_eq.
    + rewrite (Idle_sampled_plain _ _ _ _ _ _ _ Hself Hfire Hcount Hready Hge Hrot).
      cbn [fst snd]. split; [done|]. split.
      { unfold after_ui, counted. world_simpl. by rewrite <- !app_assoc. }
      split; [exact Hs1|]. split; [reflexivity|]. split; [|discriminate].
      eexists. split; [reflexivity|]. exact Hr1.
Qed.

End SampledUpdate.



(** C3 (amended). In a sampled update of Idle the carousel is advanced
    exactly when the classifier counted two fingers, the rotation cooldown
    has run out ([change_filter_time - tick <= 0], which on numbers is
    [change_filter_time <= tick]) and the accumulator is [<= 0] as
    [update_filter_trigger] has just left it: for a sample of two fingers
    that is the accumulator the sample met less [0.1] when that one is
    positive, and the accumulator the sample met otherwise.  The carousel,
    the cooldown and the label change together: after a rotation the
    carousel is the next one, the cooldown is [tick + 1.5] and the label
    names the new current filter; without one the carousel and the cooldown
    are as before and [set_text] is not called on the label.  There is no
    rotation when the accumulator is positive after the decrement of the
    sample; there is one with a positive accumulator before it when the
    decrement brings it to [0] or below, which one or two samples of five
    fingers allow ([0.05 - 0.1 <= 0], [0.05 + 0.05 - 0.1 <= 0]) and three do
    not. *)
Theorem rotation_exactly_when (w : World) (self : loc) (s : Idle.t)
    (t : float) (frame : Frame) (h : HandDetect) (fc : Z) :
  objects w !! self = Some (IdleObj s) ->
  ready (ui (core w)) ->
  (Idle.finger_frame_interval s - t <? 0)%float = true ->
  count_fingers (hand_detector (core w)) frame = (h, Ok fc) ->
  let w' := fst (Idle_update self t frame w) in
  let cnt := sampled_cnt fc (Idle.take_pic_cnt s) in
  let made := drop (length (calls w)) (calls w') in
  let turn := fc = 2 /\ (Idle.change_filter_time s - t <=? 0)%float = true
              /\ (cnt <=? 0)%float = true in
  (Py.isfinite (Idle.change_filter_time s) = true -> Py.isfinite t = true ->
     (Idle.change_filter_time s - t <=? 0)%float = (Idle.change_filter_time s <=? t)%float)
  /\ (CallNextFilter ∈ made <-> turn)
  /\ (turn ->
        filters (core w') = next_filter (filters (core w))
        /\ (exists s', objects w' !! self = Some (IdleObj s')
              /\ Idle.change_filter_time s' = (t + 1.5)%float)
        /\ UI.texts (ui (core w')) !! "filter_name"
           = Some ("Current filter is " +:+ current_name (filters (core w'))))
  /\ (~ turn ->
        filters (core w') = filters (core w)
        /\ (exists s', objects w' !! self = Some (IdleObj s')
              /\ Idle.change_filter_time s' = Idle.change_filter_time s)
        /\ forall text, CallUI (UI.SetText "filter_name" text) ∉ made)
  /\ ((0 <? cnt)%float = true -> CallNextFilter ∉ made)
  /\ (fc = 2 ->
        cnt = if (0 <? Idle.take_pic_cnt s)%float
              then (Idle.take_pic_cnt s - 0.1)%float else Idle.take_pic_cnt s)
  /\ ((0 <? accumulate 1 0)%float = true
      /\ (accumulate 1 0 - 0.1 <=? 0)%float = true
      /\ (0 <? accumulate 2 0)%float = true
      /\ (accumulate 2 0 - 0.1 <=? 0)%float = true
      /\ (accumulate 3 0 - 0.1 <=? 0)%float = false).
Proof.
  intros Hself Hready Hfire Hcount w' cnt made turn.
  split; [intros Fd Ft; exact (proj1 (proj2 (sub_sign _ _ Fd Ft)))|].
  destruct (sampled_summary w self s t frame h fc Hself Hready Hfire Hcount)
    as (_ & Hcalls & Hobj & Hfil & _ & Htext).
  fold w' in Hcalls, Hobj, Hfil, Htext.
  assert (Hturn : rotates fc t s = true <-> turn).
  { unfold rotates, turn. fold cnt. rewrite !andb_true_iff, Z.eqb_eq. tauto. }
  assert (Hmade : CallNextFilter ∈ made <-> rotates fc t s = true).
  { unfold made. rewrite Hcalls, drop_app_length.
    destruct (rotates fc t s) eqn:Hrot.
    - rewrite (rotates_below_one s t fc Hrot). split; [done|]. intros _. set_solver.
    - split; [|done]. intros Hin.
      destruct (1 <=? sampled_cnt fc (Idle.take_pic_cnt s))%float; set_solver. }
  split; [by rewrite Hmade|]. split; [|split; [|split; [|split]]].
  - intros Ht. apply Hturn in Ht. rewrite Ht in Hobj, Hfil.
    split; [exact Hfil|]. split; [by eexists|]. by apply Htext.
  - intros Hn. assert (Hrot : rotates fc t s = false).
    { destruct (rotates fc t s); [|done]. exfalso. by apply Hn, Hturn. }
    rewrite Hrot in Hobj, Hfil. split; [exact Hfil|]. split; [by eexists|].
    intros text. unfold made. rewrite Hcalls, drop_app_length, Hrot.
    destruct (1 <=? sampled_cnt fc (Idle.take_pic_cnt s))%float; set_solver.
  - intros Hpos Hin. apply Hmade, Hturn in Hin. destruct Hin as (_ & _ & Hle).
    apply pos_not_le0 in Hpos. congruence.
  - intros ->. reflexivity.
  - vm_compute. repeat split.
Qed.


(** C6 (amended). An update of Idle calls the classifier exactly when
    [finger_frame_interval - tick < 0], that is, for a deadline and a tick
    that are numbers, when [finger_frame_interval < tick]: the tick is
    strictly later than the sampling deadline, and at a tick equal to the
    deadline there is no call.  When the gate is closed the update publishes the frame and
    does nothing else: no call, no change to any state object.  When it is
    open the classifier is called once, on the frame of the update, and
    when the classifier answers, the deadline becomes [tick + 0.1]. *)
Theorem sampling_gate (w : World) (self : loc) (s : Idle.t) (t : float) (frame : Frame) :
  objects w !! self = Some (IdleObj s) ->
  ready (ui (core w)) ->
  let w' := fst (Idle_update self t frame w) in
  let made := drop (length (calls w)) (calls w') in
  let fired := (Idle.finger_frame_interval s - t <? 0)%float in
  (Py.isfinite (Idle.finger_frame_interval s) = true -> Py.isfinite t = true ->
     fired = (Idle.finger_frame_interval s <? t)%float)
  /\ ((exists f, CallCountFingers f ∈ made) <-> fired = true)
  /\ (fired = false ->
        Idle_update self t frame w
        = (with_core (with_out_frame (Some frame) (core w)) w, Ok tt))
  /\ (fired = true ->
        (exists rest, made = CallCountFingers frame :: rest
                      /\ forall f, CallCountFingers f ∉ rest)
        /\ forall h fc, count_fingers (hand_detector (core w)) frame = (h, Ok fc) ->
             exists s', objects w' !! self = Some (IdleObj s')
                        /\ Idle.finger_frame_interval s' = (t + 0.1)%float).
Proof.
  intros Hself Hready w' made fired.
  split; [intros Fd Ft; exact (proj1 (sub_sign _ _ Fd Ft))|].
  assert (Hclosed : fired = false ->
            Idle_update self t frame w
            = (with_core (with_out_frame (Some frame) (core w)) w, Ok tt)).
  { intros Hf. by apply Idle_update_unsampled with s. }
  assert (Hopen : fired = true ->
            (exists rest, made = CallCountFingers frame :: rest
                          /\ forall f, CallCountFingers f ∉ rest)
            /\ forall h fc, count_fingers (hand_detector (core w)) frame = (h, Ok fc) ->
                 exists s', objects w' !! self = Some (IdleObj s')
                            /\ Idle.finger_frame_interval s' = (t + 0.1)%float).
  { intros Hf.
    destruct (count_fingers (hand_detector (core w)) frame) as [h [fc|e]] eqn:Hc.
    - destruct (sampled_summary w self s t frame h fc Hself Hready Hf Hc)
        as (_ & Hcalls & Hobj & _).
      fold w' in Hcalls, Hobj. split.
      + unfold made. rewrite Hcalls, drop_app_length. eexists. split; [reflexivity|].
        intros f. destruct (1 <=? _)%float; [|destruct (rotates fc t s)]; set_solver.
      + intros h0 fc0 [= <- <-]. eexists. split; [exact Hobj|].
        by destruct (rotates fc t s).
    - split; [|discriminate]. unfold made, w'.
      rewrite (Idle_update_raise _ _ _ _ _ _ _ Hself Hf Hc). cbn [fst calls].
      rewrite drop_app_length. exists []. split; [done|]. intros f. set_solver. }
  split; [|by split].
  split.
  - intros [f Hin]. destruct fired eqn:Hf; [done|]. exfalso.
    unfold made, w' in Hin. rewrite (Hclosed eq_refl) in Hin. cbn [fst] in Hin.
    change (calls (with_core _ w)) with (calls w) in Hin.
    rewrite drop_all in Hin. set_solver.
  - intros Hf. destruct (Hopen Hf) as [(rest & -> & _) _]. exists frame. set_solver.
Qed.

(** *** Filter and ShowPic *)

(** C4. A Filter state entered at tick [T] holds the deadline [T + 4], and
    its entry hook shows the countdown with the label "3" and hides the help
    texts and the bar.  At an update at tick [now] before the deadline
    ([0 < T + 4 - now], which on numbers is [now < T + 4]) the frame is
    published, the label becomes the decimal numeral of the integer part of
    [T + 4 - now], which is its floor (the numeral reads back as that
    integer, and it is "3", "2", "1", "0" for 3, 2, 1, 0), and nothing else
    happens: no transition, no call on the masker or the filter.  At an
    update at or after the deadline the countdown is hidden, the masker is
    applied to the frame of that update, then the current filter to the
    masked frame, each once, the result is stored as the filtered frame, and
    ShowPic becomes the active state. *)
Theorem countdown_then_filter (w : World) (self : loc) (T now : float) (frame : Frame) :
  _state (core w) = Some self ->
  objects w !! self = Some (FilterObj {| Filter.countdown_time := T + 4 |}) ->
  ready (ui (core w)) ->
  let r := CanvasCore_iteration now frame w in
  let w' := fst r in
  (Py.isfinite (T + 4) = true -> Py.isfinite now = true ->
     (0 <? T + 4 - now)%float = (now <? T + 4)%float)
  /\ (forall w0, ready (ui (core w0)) -> tick (core w0) = T ->
     let wF := fst (bind (new (FilterObj Filter.__init__)) CanvasCore_set_state w0) in
     active wF = Some (FilterObj {| Filter.countdown_time := T + 4 |})
     /\ UI.texts (ui (core wF)) !! "countdown" = Some "3"
     /\ get_visible <$> UI.elements (ui (core wF)) !! "countdown" = Some true
     /\ forall n, n ∈ ["help_1"; "help_2"; "filter_name"; "bar"] ->
          get_visible <$> UI.elements (ui (core wF)) !! n = Some false)
  /\ ((0 <? T + 4 - now)%float = true ->
      forall n, Py.int (T + 4 - now) = Ok n ->
        snd r = Ok tt
        /\ out_frame (core w') = Some frame
        /\ UI.texts (ui (core w')) !! "countdown" = Some (Py.str n)
        /\ Py.floor (T + 4 - now) = Ok n
        /\ calls w' = calls w ++ [CallUI (UI.SetText "countdown" (Py.str n))]
        /\ _state (core w') = _state (core w)
        /\ objects w' = objects w
        /\ filtered_frame (core w') = filtered_frame (core w)
        /\ Z.of_int <$> NilZero.int_of_string (Py.str n) = Some n
        /\ (n = 3 -> UI.texts (ui (core w')) !! "countdown" = Some "3"))
  /\ ((0 <? T + 4 - now)%float = false ->
      forall m mask masked result,
        apply (fg_masker (core w)) frame = (m, Ok mask) ->
        bitwise_and frame frame mask = Ok masked ->
        current_filter (filters (core w)) masked = Ok result ->
        snd r = Ok tt
        /\ calls w' = calls w ++
             [CallUI (UI.Hide ["countdown"]); CallApply frame;
              CallBitwiseAnd frame mask; CallCurrentFilter masked;
              CallUI (UI.Hide ["countdown"])]
        /\ filtered_frame (core w') = Some result
        /\ active w' = Some (ShowPicObj {| ShowPic.show_image_time := now + 10 |})
        /\ get_visible <$> UI.elements (ui (core w')) !! "countdown" = Some false
        /\ out_frame (core w') = out_frame (core w))
  /\ (Py.str 3 = "3" /\ Py.str 2 = "2" /\ Py.str 1 = "1" /\ Py.str 0 = "0").
Proof.
  intros Hst Ho Hr r w'.
  split; [intros Fd Ft; exact (proj2 (proj2 (sub_sign _ _ Fd Ft)))|].
  set (w0 := with_core (with_tick now (core w)) w).
  assert (Hr0 : ready (ui (core w0))) by exact Hr.
  assert (Ho0 : objects w0 !! self = Some (FilterObj {| Filter.countdown_time := T + 4 |}))
    by exact Ho.
  split; [|split; [|split; [|by repeat split]]].
  - intros w1 Hr1 <-. cbn zeta. rewrite (transition_Filter _ Hr1). cbn [fst].
    split; [apply active_entered_Filter|].
    destruct (Filter_enter_registry (ui (core w1)) Hr1) as (Hhid & Hvis & Htxt).
    split; [exact Htxt|]. split; [exact Hvis|exact Hhid].
  - intros Hrun n Hint. unfold w', r.
    rewrite (iteration_eq _ _ _ _ _ Hst Ho). fold w0.
    rewrite (Filter_update_running _ _ _ _ _ Ho0 _ Hr0 Hrun Hint). cbn zeta.
    cbn [fst snd]. unfold after_ui. subst w0. world_simpl.
    assert (Hlabel : UI.texts (UI.exec (UI.SetText "countdown" (Py.str n)) (ui (core w))).1
                     !! "countdown" = Some (Py.str n)).
    { destruct (set_text_effect "countdown" (Py.str n) (ui (core w))) as [_ ->];
        [apply Hr; in_overlay|]. apply lookup_insert_eq. }
    split; [done|]. split; [done|]. split; [exact Hlabel|].
    split; [by rewrite <- (int_floor_pos _ Hrun)|].
    do 4 (split; [done|]). split; [apply str_reads_back|].
    intros ->. exact Hlabel.
  - intros Hexp m mask masked result Ha Hb Hc. unfold w', r.
    rewrite (iteration_eq _ _ _ _ _ Hst Ho). fold w0.
    rewrite (Filter_update_expired _ _ _ _ _ Ho0 _ _ _ _ Hr0 Hexp Ha Hb Hc).
    cbn [fst snd]. split; [done|]. split.
    { unfold entered_ShowPic, filtered, after_ui, installed. world_simpl.
      by rewrite <- !app_assoc. }
    split; [reflexivity|]. split; [apply active_entered_ShowPic|].
    split; [|reflexivity].
    unfold entered_ShowPic, filtered, after_ui, installed. subst w0. world_simpl.
    apply hide_countdown. by apply ready_exec.
Qed.

(** C5 (amended). Entering ShowPic at tick [T] hides the countdown and sets
    the deadline [T + 10].  Every update publishes the filtered frame, not
    the frame it receives.  The update installs a new Idle state exactly
    when [show_image_time - tick < 0], that is, for a deadline and a tick
    that are numbers, when [show_image_time < tick]: the tick is strictly
    later than the deadline, and at a tick equal to the deadline ShowPic
    stays.
    With the deadline [35] there is no transition at [34.99] and there is
    one at [35.01]. *)
Theorem showpic_then_idle (w : World) (self : loc) (s : ShowPic.t)
    (now : float) (frame : Frame) :
  _state (core w) = Some self ->
  objects w !! self = Some (ShowPicObj s) ->
  ready (ui (core w)) ->
  let r := CanvasCore_iteration now frame w in
  let w' := fst r in
  let over := (ShowPic.show_image_time s - now <? 0)%float in
  (Py.isfinite (ShowPic.show_image_time s) = true -> Py.isfinite now = true ->
     over = (ShowPic.show_image_time s <? now)%float)
  /\ (forall w0, ready (ui (core w0)) ->
     let wS := fst (bind (new (ShowPicObj ShowPic.__init__)) CanvasCore_set_state w0) in
     active wS = Some (ShowPicObj {| ShowPic.show_image_time := tick (core w0) + 10 |})
     /\ calls wS = calls w0 ++ [CallUI (UI.Hide ["countdown"])]
     /\ get_visible <$> UI.elements (ui (core wS)) !! "countdown" = Some false)
  /\ snd r = Ok tt
  /\ out_frame (core w') = filtered_frame (core w)
  /\ filtered_frame (core w') = filtered_frame (core w)
  /\ (over = true ->
        active w' = Some (IdleObj Idle.__init__)
        /\ _state (core w') = Some (length (objects w)))
  /\ (over = false -> _state (core w') = _state (core w) /\ objects w' = objects w)
  /\ (_state (core w') <> _state (core w) <-> over = true)
  /\ ((25 + 10 - 34.99 <? 0)%float = false /\ (25 + 10 - 35.01 <? 0)%float = true).
Proof.
  intros Hst Ho Hr r w' over.
  split; [intros Fd Ft; exact (proj1 (sub_sign _ _ Fd Ft))|].
  set (w0 := with_core (with_tick now (core w)) w).
  assert (Hr0 : ready (ui (core w0))) by exact Hr.
  assert (Ho0 : objects w0 !! self = Some (ShowPicObj s)) by exact Ho.
  assert (Heq : r = (let w1 := with_core (with_out_frame (filtered_frame (core w0)) (core w0)) w0 in
                     if over then entered_Idle w1 else w1, Ok tt)).
  { unfold r. rewrite (iteration_eq _ _ _ _ _ Hst Ho). fold w0.
    apply (ShowPic_update_eq _ _ _ _ _ Ho0 Hr0). }
  cbn zeta in Heq.
  assert (Hover : over = true ->
            active w' = Some (IdleObj Idle.__init__)
            /\ _state (core w') = Some (length (objects w))).
  { intros E. unfold w'. rewrite Heq, E. cbn [fst].
    split; [apply active_entered_Idle|reflexivity]. }
  assert (Hstay : over = false -> _state (core w') = _state (core w) /\ objects w' = objects w).
  { intros E. unfold w'. rewrite Heq, E. by split. }
  split.
  { intros w1 Hr1. cbn zeta. rewrite (transition_ShowPic _ Hr1). cbn [fst].
    split; [apply active_entered_ShowPic|]. split; [reflexivity|].
    unfold entered_ShowPic, after_ui, installed. world_simpl.
    by apply hide_countdown. }
  split; [by rewrite Heq|].
  split; [unfold w'; rewrite Heq; by destruct over|].
  split; [unfold w'; rewrite Heq; by destruct over|].
  split; [exact Hover|]. split; [exact Hstay|].
  split; [|by vm_compute].
  split.
  - intros Hne. destruct over; [done|]. exfalso. apply Hne. by apply Hstay.
  - intros E. destruct (Hover E) as [_ Hnew]. rewrite Hnew, Hst.
    intros [= Heq']. apply lookup_lt_Some in Ho. lia.
Qed.


(** *** Failures *)

Lemma apply_filter_rest self frame w :
  filters (core (fst (Filter_apply_filter self frame w))) = filters (core w)
  /\ tick (core (fst (Filter_apply_filter self frame w))) = tick (core w).
Proof.
  unfold Filter_apply_filter. run.
  destruct (apply (fg_masker (core w)) frame) as [m [mask|e1]]; world_simpl; [|done].
  destruct (bitwise_and frame frame mask) as [masked|e2]; world_simpl; [|done].
  by destruct (current_filter (filters (core w)) masked) as [result|e3].
Qed.

Lemma iteration_raise w now frame w' e :
  sane w ->
  CanvasCore_iteration now frame w = (w', Raise e) ->
  _state (core w') = _state (core w)
  /\ objects w' = objects w
  /\ filtered_frame (core w') = filtered_frame (core w)
  /\ filters (core w') = filters (core w)
  /\ tick (core w') = now
  /\ (forall self s, _state (core w) = Some self -> objects w !! self = Some (IdleObj s) ->
        calls w' = calls w ++ [CallCountFingers frame]
        /\ ui (core w') = ui (core w)
        /\ exists h, count_fingers (hand_detector (core w)) frame = (h, Raise e)).
Proof.
  intros [Hr [o Ho]] Hit. unfold active in Ho.
  destruct (_state (core w)) as [self|] eqn:Hst; [|discriminate].
  set (w0 := with_core (with_tick now (core w)) w).
  assert (Hr0 : ready (ui (core w0))) by exact Hr.
  assert (Ho0 : objects w0 !! self = Some o) by exact Ho.
  rewrite (iteration_eq _ _ _ _ _ Hst Ho) in Hit. fold w0 in Hit.
  destruct o as [|s|s|s].
  - by rewrite (Startup_update_eq _ _ _ _ Hr0) in Hit.
  - destruct (Idle.finger_frame_interval s - now <? 0)%float eqn:Hfire.
    2:{ by rewrite (Idle_update_unsampled _ _ _ _ _ Ho0 Hfire) in Hit. }
    destruct (count_fingers (hand_detector (core w0)) frame) as [h [fc|e']] eqn:Hc.
    { destruct (sampled_summary w0 self s now frame h fc Ho0 Hr0 Hfire Hc) as [Hok _].
      rewrite Hit in Hok. discriminate. }
    rewrite (Idle_update_raise _ _ _ _ _ _ _ Ho0 Hfire Hc) in Hit.
    injection Hit as <- <-. do 5 (split; [done|]).
    intros self' s' [= <-] Hs'. do 2 (split; [done|]). by exists h.
  - assert (Hnot : forall self' s', Some self = Some self' ->
                     objects w !! self' = Some (IdleObj s') -> False).
    { intros self' s' [= <-] Hs'. congruence. }
    destruct (0 <? Filter.countdown_time s - now)%float eqn:Hrun.
    + destruct (Py.int (Filter.countdown_time s - now)) as [n|e'] eqn:Hint.
      * by rewrite (Filter_update_running _ _ _ _ _ Ho0 _ Hr0 Hrun Hint) in Hit.
      * rewrite (Filter_update_running_raise _ _ _ _ _ Ho0 _ Hrun Hint) in Hit.
        injection Hit as <- <-. do 5 (split; [done|]).
        intros self' s' E Hs'. destruct (Hnot _ _ E Hs').
    + rewrite (Filter_update_expired_eq _ _ _ _ _ Ho0 Hr0 Hrun) in Hit.
      set (w1 := after_ui (UI.Hide ["countdown"]) w0) in *.
      destruct (apply_filter_frame self frame w1) as (Hobj & Hs & _ & _ & Hff & Hok).
      destruct (apply_filter_rest self frame w1) as [Hfil Htick].
      unfold bind at 1 in Hit.
      destruct (Filter_apply_filter self frame w1) as [w2 [[]|e']] eqn:Hf; cbn [fst snd] in *.
      * destruct (Hok eq_refl) as (m & mask & masked & result & Ha & Hb & Hcf).
        rewrite (apply_filter_ok self _ _ _ _ _ _ Ha Hb Hcf) in Hf.
        injection Hf as <-.
        assert (Hrf : ready (ui (core (filtered frame m mask masked result w1)))).
        { unfold filtered. world_simpl. by apply ready_after_ui. }
        pose proof (transition_ShowPic _ Hrf) as Ht.
        pose proof (eq_trans (eq_sym Ht) Hit) as Heq. discriminate.
      * injection Hit as <- <-. rewrite Hobj, Hs, (Hff e' eq_refl), Hfil, Htick.
        do 5 (split; [done|]).
        intros self' s' E Hs'. destruct (Hnot _ _ E Hs').
  - rewrite (ShowPic_update_eq _ _ _ _ _ Ho0 Hr0) in Hit. discriminate.
Qed.

(** C7 (amended). A failure during an update is not caught: it leaves
    [update] and then [process], whose loop ends there, so that no later
    frame of the queue is consumed.  What the failed update would have done
    after the failing call is not done: the active state is the same object
    with the same counters, no state object has changed, no filtered frame
    is stored and the carousel is as before.  When the classifier fails in
    Idle, the update has only published the frame and called the
    classifier. *)
Theorem failure_ends_the_loop (w : World) (now : float) (frame : Frame)
    (q : list (float * Frame)) (e : exn) :
  sane w ->
  stopped (core w) = false ->
  snd (CanvasCore_iteration now frame w) = Raise e ->
  let w' := fst (CanvasCore_iteration now frame w) in
  CanvasCore_process ((now, frame) :: q) w = (w', Raise e)
  /\ _state (core w') = _state (core w)
  /\ objects w' = objects w
  /\ active w' = active w
  /\ filtered_frame (core w') = filtered_frame (core w)
  /\ filters (core w') = filters (core w)
  /\ tick (core w') = now
  /\ (forall self s, _state (core w) = Some self -> objects w !! self = Some (IdleObj s) ->
        calls w' = calls w ++ [CallCountFingers frame]
        /\ ui (core w') = ui (core w)
        /\ out_frame (core w') = Some frame
        /\ exists h, count_fingers (hand_detector (core w)) frame = (h, Raise e)).
Proof.
  intros Hs Hrun He w'.
  destruct (CanvasCore_iteration now frame w) as [w1 r] eqn:Hit.
  cbn [fst snd] in *. subst r w'.
  destruct (iteration_raise _ _ _ _ _ Hs Hit) as (Hst & Hobj & Hff & Hfil & Htick & Hidle).
  split; [by apply process_raise|].
  split; [exact Hst|]. split; [exact Hobj|].
  split; [unfold active; by rewrite Hst, Hobj|].
  split; [exact Hff|]. split; [exact Hfil|]. split; [exact Htick|].
  intros self s Hself Ho. destruct (Hidle self s Hself Ho) as (Hc & Hui & h & Hh).
  split; [exact Hc|]. split; [exact Hui|]. split; [|by exists h].
  rewrite (iteration_eq _ _ _ _ _ Hself Ho) in Hit.
  destruct (Idle.finger_frame_interval s - now <? 0)%float eqn:Hfire.
  - erewrite Idle_update_raise in Hit; [|exact Ho|exact Hfire|exact Hh].
    by injection Hit as <-.
  - erewrite Idle_update_unsampled in Hit; [|exact Ho|exact Hfire]. discriminate.
Qed.


(** *** Holding five fingers *)

Lemma process_stopped q w :
  stopped (core w) = true -> CanvasCore_process q w = (w, Ok tt).
Proof. intros H. destruct q as [|[now frame] q]; [done|]. by rewrite process_cons, H. Qed.

Lemma process_app q1 q2 w :
  CanvasCore_process (q1 ++ q2) w
  = bind (CanvasCore_process q1) (fun _ => CanvasCore_process q2) w.
Proof.
  revert w. induction q1 as [|[now frame] q1 IH]; intros w; [done|].
  rewrite <- app_comm_cons. unfold bind at 1. rewrite !process_cons.
  destruct (stopped (core w)) eqn:Hs; [by rewrite process_stopped|].
  unfold bind at 1 2.
  destruct (CanvasCore_iteration now frame w) as [w' [[]|e]]; [|done].
  rewrite IH. reflexivity.
Qed.

Lemma hold_five q1 : forall q2 w self s,
  holding w self s ->
  sustained_five (Idle.finger_frame_interval s) (hand_detector (core w)) (q1 ++ q2) ->
  (forall k, (0 < k <= length q1)%nat ->
     (1 <=? accumulate k (Idle.take_pic_cnt s))%float = false) ->
  exists w' s',
    CanvasCore_process q1 w = (w', Ok tt)
    /\ holding w' self s'
    /\ Idle.take_pic_cnt s' = accumulate (length q1) (Idle.take_pic_cnt s)
    /\ sustained_five (Idle.finger_frame_interval s') (hand_detector (core w')) q2.
Proof.
  induction q1 as [|[now frame] q1 IH]; intros q2 w self s Hh Hsus Hlow.
  - exists w, s. split; [done|]. split; [exact Hh|]. by split.
  - destruct Hh as (Hst & Ho & Hr & Hrun).
    destruct Hsus as (Hfire & h' & Hc & Hsus).
    set (w0 := with_core (with_tick now (core w)) w).
    assert (Hlt : (1 <=? sampled_cnt 5 (Idle.take_pic_cnt s))%float = false).
    { apply (Hlow 1%nat). cbn [length]. lia. }
    assert (Hit : CanvasCore_iteration now frame w
                  = (after_ui (UI.SetProg "bar" (sampled_cnt 5 (Idle.take_pic_cnt s)))
                       (counted self now frame h' 5 s w0), Ok tt)).
    { rewrite (iteration_eq _ _ _ _ _ Hst Ho).
      by apply (Idle_sampled_plain w0 self s now frame h' 5). }
    rewrite (process_ok _ _ _ _ _ Hrun Hit).
    destruct (IH q2 (after_ui (UI.SetProg "bar" (sampled_cnt 5 (Idle.take_pic_cnt s)))
                       (counted self now frame h' 5 s w0)) self
                (Idle.with_take_pic_cnt (sampled_cnt 5 (Idle.take_pic_cnt s))
                   (Idle.with_finger_frame_interval (now + 0.1) s)))
      as (w' & s' & Hp & Hh' & Hcnt & Hsus').
    + split; [exact Hst|]. split; [apply (counted_self w0), Ho|].
      split; [by apply ready_after_ui|exact Hrun].
    + exact Hsus.
    + intros k Hk. apply (Hlow (S k)). cbn [length]. lia.
    + exists w', s'. split; [exact Hp|]. split; [exact Hh'|]. by split.
Qed.

Lemma sampled_state w self s now frame h fc :
  _state (core w) = Some self ->
  objects w !! self = Some (IdleObj s) ->
  ready (ui (core w)) ->
  (Idle.finger_frame_interval s - now <? 0)%float = true ->
  count_fingers (hand_detector (core w)) frame = (h, Ok fc) ->
  let r := CanvasCore_iteration now frame w in
  snd r = Ok tt
  /\ if (1 <=? sampled_cnt fc (Idle.take_pic_cnt s))%float
     then active (fst r) = Some (FilterObj {| Filter.countdown_time := now + 4 |})
          /\ _state (core (fst r)) = Some (length (objects w))
     else _state (core (fst r)) = Some self
          /\ exists s', active (fst r) = Some (IdleObj s')
               /\ Idle.take_pic_cnt s' = sampled_cnt fc (Idle.take_pic_cnt s).
Proof.
  intros Hst Ho Hr Hfire Hc r. unfold r.
  set (w0 := with_core (with_tick now (core w)) w).
  rewrite (iteration_eq _ _ _ _ _ Hst Ho). fold w0.
  assert (Ho0 : objects w0 !! self = Some (IdleObj s)) by exact Ho.
  assert (Hr0 : ready (ui (core w0))) by exact Hr.
  destruct (1 <=? sampled_cnt fc (Idle.take_pic_cnt s))%float eqn:Hge.
  - rewrite (Idle_sampled_transition _ _ _ _ _ _ _ Ho0 Hfire Hc Hr0 Hge). cbn [fst snd].
    split; [done|]. split; [rewrite active_after_ui; apply active_entered_Filter|].
    unfold entered_Filter, after_ui, installed, counted. world_simpl.
    by rewrite length_insert.
  - destruct (sampled_summary w0 self s now frame h fc Ho0 Hr0 Hfire Hc)
      as (Hok & _ & Hobj & _).
    split; [exact Hok|].
    assert (Hs' : _state (core (fst (Idle_update self now frame w0))) = Some self).
    { destruct (rotates fc now s) eqn:Hrot.
      - by rewrite (Idle_sampled_rotate _ _ _ _ _ _ _ Ho0 Hfire Hc Hr0 Hrot).
      - by rewrite (Idle_sampled_plain _ _ _ _ _ _ _ Ho0 Hfire Hc Hr0 Hge Hrot). }
    split; [exact Hs'|]. unfold active. rewrite Hs', Hobj.
    eexists. split; [reflexivity|]. by destruct (rotates fc now s).
Qed.


Lemma nineteen_below_one k :
  (0 < k <= 19)%nat -> (1 <=? accumulate k 0)%float = false.
Proof.
  intros Hk.
  do 20 (destruct k as [|k]; [first [lia | by vm_compute]|]). lia.
Qed.



(** C2 (amended). In a sampled update of Idle the transition to Filter
    happens exactly when the accumulator, as the sample left it, is [>= 1.0],
    and it happens inside that update.  From a fresh Idle state under
    sustained samples of five fingers the state is still Idle, with an
    accumulator below [1.0], after each of the first 19 samples; the update
    that takes the 20th sample is the one that installs Filter, so that when
    it returns Filter is the active state, entered at the tick of that
    update, with the countdown deadline [now + 4].  The update dispatched
    next is therefore Filter's: at a tick before that deadline
    ([0 < now + 4 - tick]) it does not call the classifier, changes no state
    object and makes no transition. *)
Theorem capture_after_twenty_samples (w : World) (self : loc)
    (q : list (float * Frame)) (now : float) (frame : Frame) :
  holding w self Idle.__init__ ->
  sustained_five 0 (hand_detector (core w)) (q ++ [(now, frame)]) ->
  length q = 19%nat ->
  let w19 := fst (CanvasCore_process q w) in
  let r := CanvasCore_iteration now frame w19 in
  (forall k, (k <= 19)%nat ->
     let wk := fst (CanvasCore_process (take k q) w) in
     exists s, active wk = Some (IdleObj s)
               /\ _state (core wk) = Some self
               /\ Idle.take_pic_cnt s = accumulate k 0
               /\ (1 <=? Idle.take_pic_cnt s)%float = false)
  /\ CanvasCore_process (q ++ [(now, frame)]) w = r
  /\ snd r = Ok tt
  /\ active (fst r) = Some (FilterObj {| Filter.countdown_time := now + 4 |})
  /\ (1 <=? accumulate 20 0)%float = true
  /\ (forall now2 frame2,
        (0 <? now + 4 - now2)%float = true ->
        let r2 := CanvasCore_iteration now2 frame2 (fst r) in
        _state (core (fst r2)) = _state (core (fst r))
        /\ objects (fst r2) = objects (fst r)
        /\ active (fst r2) = Some (FilterObj {| Filter.countdown_time := now + 4 |})
        /\ forall f, CallCountFingers f ∉ drop (length (calls (fst r))) (calls (fst r2)))
  /\ (forall w1 self1 s1 t1 frame1 h1 fc1,
        holding w1 self1 s1 ->
        (Idle.finger_frame_interval s1 - t1 <? 0)%float = true ->
        count_fingers (hand_detector (core w1)) frame1 = (h1, Ok fc1) ->
        let w1' := fst (CanvasCore_iteration t1 frame1 w1) in
        let reached := (1 <=? sampled_cnt fc1 (Idle.take_pic_cnt s1))%float in
        (_state (core w1') <> _state (core w1) <-> reached = true)
        /\ (reached = true ->
              active w1' = Some (FilterObj {| Filter.countdown_time := t1 + 4 |}))
        /\ (reached = false -> exists s', active w1' = Some (IdleObj s'))).
Proof.
  intros Hh Hsus Hlen w19 r.
  assert (Hpre : forall k, (k <= 19)%nat ->
            exists wk s,
              CanvasCore_process (take k q) w = (wk, Ok tt)
              /\ holding wk self s
              /\ Idle.take_pic_cnt s = accumulate k 0
              /\ sustained_five (Idle.finger_frame_interval s) (hand_detector (core wk))
                   (drop k q ++ [(now, frame)])).
  { intros k Hk.
    destruct (hold_five (take k q) (drop k q ++ [(now, frame)]) w self Idle.__init__ Hh)
      as (wk & s & Hp & Hhk & Hcnt & Hsk).
    - by rewrite app_assoc, take_drop.
    - intros j Hj. apply nineteen_below_one. rewrite length_take in Hj. lia.
    - exists wk, s. rewrite length_take, Hlen, Nat.min_l in Hcnt by lia. done. }
  split.
  { intros k Hk. destruct (Hpre k Hk) as (wk & s & Hp & (Hst & Ho & _) & Hcnt & _).
    cbn zeta. rewrite Hp. cbn [fst]. exists s.
    split; [unfold active; by rewrite Hst|]. split; [exact Hst|]. split; [exact Hcnt|].
    rewrite Hcnt. destruct k as [|k]; [by vm_compute|]. apply nineteen_below_one. lia. }
  destruct (Hpre 19%nat (le_n _)) as (w' & s & Hp & (Hst & Ho & Hr & Hrun) & Hcnt & Hs19).
  rewrite <- Hlen, firstn_all in Hp. rewrite <- Hlen, drop_all in Hs19.
  destruct Hs19 as (Hfire & h' & Hc & _).
  assert (Hw : w19 = w') by (unfold w19; by rewrite Hp). unfold r. rewrite Hw.
  destruct (sampled_state w' self s now frame h' 5 Hst Ho Hr Hfire Hc) as [Hok Hif].
  assert (Hge : (1 <=? sampled_cnt 5 (Idle.take_pic_cnt s))%float = true).
  { rewrite Hcnt. by vm_compute. }
  rewrite Hge in Hif. destruct Hif as [Hact _].
  split.
  { rewrite process_app. unfold bind. rewrite Hp, process_cons, Hrun. unfold bind.
    destruct (CanvasCore_iteration now frame w') as [w20 [[]|e]]; [done|discriminate]. }
  split; [exact Hok|]. split; [exact Hact|]. split; [by vm_compute|].
  split.
  { intros now2 frame2 Hrun2. cbv zeta.
    assert (Hr20 : ready (ui (core (fst (CanvasCore_iteration now frame w')))))
      by apply ready_iteration, Hr.
    set (w20 := fst (CanvasCore_iteration now frame w')) in *.
    pose proof Hact as Hact2. unfold active in Hact2.
    destruct (_state (core w20)) as [self2|] eqn:Hst2; [|discriminate].
    rewrite (iteration_eq _ _ _ _ _ Hst2 Hact2).
    set (w0 := with_core (with_tick now2 (core w20)) w20).
    assert (Ho0 : objects w0 !! self2
                  = Some (FilterObj {| Filter.countdown_time := now + 4 |})) by exact Hact2.
    assert (Hr0 : ready (ui (core w0))) by exact Hr20.
    destruct (Py.int (now + 4 - now2)) as [n|e] eqn:Hint.
    - rewrite (Filter_update_running w0 self2 _ now2 frame2 Ho0 n Hr0 Hrun2 Hint).
      cbv zeta. cbn [fst]. unfold active, after_ui. subst w0. world_simpl.
      rewrite Hst2. split; [done|]. split; [done|]. split; [exact Hact2|].
      intros f. rewrite drop_app_length. intros Hin.
      apply list_elem_of_singleton in Hin. discriminate.
    - rewrite (Filter_update_running_raise w0 self2 _ now2 frame2 Ho0 e Hrun2 Hint).
      cbn [fst]. unfold active. subst w0. world_simpl.
      rewrite Hst2. split; [done|]. split; [done|]. split; [exact Hact2|].
      intros f. rewrite drop_all. apply not_elem_of_nil. }
  intros w1 self1 s1 t1 frame1 h1 fc1 (Hst1 & Ho1 & Hr1 & _) Hf1 Hc1. cbn zeta.
  destruct (sampled_state w1 self1 s1 t1 frame1 h1 fc1 Hst1 Ho1 Hr1 Hf1 Hc1) as [_ Hif1].
  destruct (1 <=? sampled_cnt fc1 (Idle.take_pic_cnt s1))%float.
  - destruct Hif1 as [Ha Hn]. split; [|by split].
    split; [done|]. intros _. rewrite Hn, Hst1. intros [= E].
    apply lookup_lt_Some in Ho1. lia.
  - destruct Hif1 as [Hn (s' & Ha & _)]. split; [|split; [done|by exists s']].
    split; [|done]. intros Hne. exfalso. apply Hne. by rewrite Hn, Hst1.
Qed.

(** *** What an update may touch *)

Lemma confined_refl o w : confined o w w.
Proof.
  unfold confined. do 3 (split; [reflexivity|]).
  split; [exists []; by rewrite app_nil_r|]. by split.
Qed.

Lemma confined_trans o w1 w2 w3 : confined o w1 w2 -> confined o w2 w3 -> confined o w1 w3.
Proof.
  intros (H1 & H2 & H3 & (l & Hl & Hal) & H5 & H6)
         (K1 & K2 & K3 & (l' & Hl' & Hal') & K5 & K6).
  unfold confined. rewrite K1, K2, K3. do 3 (split; [assumption|]).
  split; [|split].
  - exists (l ++ l'). rewrite Hl', Hl, app_assoc. split; [done|]. by apply Forall_app.
  - intros E. destruct (H5 E) as [Ha Hb]. destruct (K5 E) as [Ka Kb]. split; congruence.
  - intros E. destruct (H6 E) as [Ha Hb]. destruct (K6 E) as [Ka Kb]. split; congruence.
Qed.

Lemma respects_bind o {A B} (m : M A) (k : A -> M B) :
  respects (confined o) m -> (forall a, respects (confined o) (k a)) ->
  respects (confined o) (bind m k).
Proof.
  intros Hm Hk w. unfold bind. specialize (Hm w).
  destruct (m w) as [w' [a|e]]; cbn [fst] in *; [|exact Hm].
  eapply confined_trans; [exact Hm|apply Hk].
Qed.

Lemma respects_same o {A} (m : M A) :
  (forall w, fst (m w) = w) -> respects (confined o) m.
Proof. intros H w. rewrite H. apply confined_refl. Qed.

Lemma respects_objects o {A} (m : M A) :
  (forall w, core (fst (m w)) = core w /\ calls (fst (m w)) = calls w) ->
  respects (confined o) m.
Proof.
  intros H w. destruct (H w) as [Hc Hl]. unfold confined. rewrite Hc, Hl.
  apply (confined_refl o w).
Qed.

Lemma respects_call o x : calls_of o x = true -> respects (confined o) (call x).
Proof.
  intros Hx w. unfold call, confined. world_simpl. do 3 (split; [reflexivity|]).
  split; [|by split]. exists [x]. split; [done|]. by apply Forall_singleton.
Qed.

Lemma respects_core o (f : CanvasCore -> CanvasCore) :
  (forall k, confined o {| core := k; objects := []; calls := [] |}
                        {| core := f k; objects := []; calls := [] |}) ->
  respects (confined o) (modify_core f).
Proof.
  intros H w. destruct (H (core w)) as (H1 & H2 & H3 & _ & H5 & H6).
  unfold modify_core, confined. cbn [core objects calls fst] in *.
  do 3 (split; [assumption|]).
  split; [exists []; by rewrite app_nil_r|]. by split.
Qed.

Lemma respects_ui_call o c : respects (confined o) (ui_call c).
Proof.
  intros w. rewrite ui_call_eq. unfold confined, after_ui. world_simpl.
  do 3 (split; [reflexivity|]). split; [|by split].
  exists [CallUI c]. split; [done|]. by apply Forall_singleton.
Qed.

Lemma respects_count o frame :
  samples o = true -> respects (confined o) (hand_detector_count_fingers frame).
Proof.
  intros Hs w. unfold hand_detector_count_fingers. run.
  destruct (count_fingers (hand_detector (core w)) frame) as [h r].
  unfold confined. world_simpl. do 3 (split; [reflexivity|]).
  split; [|split; [congruence|done]].
  exists [CallCountFingers frame]. split; [done|]. by apply Forall_singleton.
Qed.

Lemma respects_next o : samples o = true -> respects (confined o) filters_next_filter.
Proof.
  intros Hs w. unfold filters_next_filter. run.
  unfold confined. world_simpl. do 3 (split; [reflexivity|]).
  split; [|split; [congruence|done]].
  exists [CallNextFilter]. split; [done|]. by apply Forall_singleton.
Qed.

Lemma respects_apply_filter o self frame :
  captures o = true -> respects (confined o) (Filter_apply_filter self frame).
Proof.
  intros Hc w. unfold Filter_apply_filter. run. unfold confined.
  destruct (apply (fg_masker (core w)) frame) as [m [mask|e1]]; world_simpl.
  2:{ do 3 (split; [reflexivity|]). split; [|split; [done|congruence]].
      exists [CallApply frame]. split; [done|]. by apply Forall_singleton. }
  destruct (bitwise_and frame frame mask) as [masked|e2]; world_simpl.
  2:{ do 3 (split; [reflexivity|]). split; [|split; [done|congruence]].
      exists [CallApply frame; CallBitwiseAnd frame mask].
      rewrite <- app_assoc. split; [done|]. repeat constructor; exact Hc. }
  destruct (current_filter (filters (core w)) masked) as [result|e3]; world_simpl.
  all: do 3 (split; [reflexivity|]); (split; [|split; [done|congruence]]);
    exists [CallApply frame; CallBitwiseAnd frame mask; CallCurrentFilter masked];
    rewrite <- !app_assoc; (split; [done|]); repeat constructor; exact Hc.
Qed.

Ltac confined_tac :=
  repeat match goal with
    | |- respects _ (bind _ _) => apply respects_bind; [|intros ?]
    | |- respects _ (ui_call _) => apply respects_ui_call
    | |- respects _ (ret _) => apply respects_same; intros ?; reflexivity
    | |- respects _ (raise _) => apply respects_same; intros ?; reflexivity
    | |- respects _ get_core => apply respects_same; intros ?; reflexivity
    | |- respects _ (new _) => apply respects_objects; intros ?; split; reflexivity
    | |- respects _ (assign _ _) => apply respects_objects; intros ?; split; reflexivity
    | |- respects _ (deref ?l) =>
        apply respects_same; let w := fresh "w" in
        intros w; unfold deref; destruct (objects w !! l); reflexivity
    | |- respects _ (modify_core _) =>
        apply respects_core; intros ?; unfold confined; world_simpl;
        do 3 (split; [reflexivity|]);
        (split; [exists []; split; [reflexivity|constructor]|]);
        split; intros ?; first [split; reflexivity | congruence]
    | |- respects _ (fun w => (w, _)) => apply respects_same; intros ?; reflexivity
    | |- respects _ (if ?b then _ else _) => destruct b
    | |- respects _ (match ?x with _ => _ end) => destruct x
    end.

Lemma respects_get_idle o self : respects (confined o) (get_idle self).
Proof. unfold get_idle. confined_tac. Qed.

Lemma respects_get_filter o self : respects (confined o) (get_filter self).
Proof. unfold get_filter. confined_tac. Qed.

Lemma respects_get_showpic o self : respects (confined o) (get_showpic self).
Proof. unfold get_showpic. confined_tac. Qed.

Lemma respects_filter_label o : respects (confined o) filter_label.
Proof. unfold filter_label. confined_tac. Qed.

Lemma respects_State_enter o self t : respects (confined o) (State_enter self t).
Proof.
  unfold State_enter, Startup_enter, Idle_enter, Filter_enter, ShowPic_enter.
  confined_tac;
    first [apply respects_filter_label | apply respects_get_filter
          | apply respects_get_showpic].
Qed.

Lemma respects_set_state o state : respects (confined o) (CanvasCore_set_state state).
Proof. unfold CanvasCore_set_state. confined_tac. apply respects_State_enter. Qed.

Lemma respects_Startup_update o self t frame :
  respects (confined o) (Startup_update self t frame).
Proof. unfold Startup_update. confined_tac. apply respects_set_state. Qed.

Lemma respects_trigger o self fc :
  respects (confined o) (Idle_update_filter_trigger self fc).
Proof.
  unfold Idle_update_filter_trigger. confined_tac;
    first [apply respects_get_idle | apply respects_set_state].
Qed.

Lemma respects_carousel o self fc t :
  samples o = true -> respects (confined o) (Idle_update_filter_carousel self fc t).
Proof.
  intros Hs. unfold Idle_update_filter_carousel. confined_tac;
    first [apply respects_get_idle | apply respects_filter_label
          | by apply respects_next].
Qed.

Lemma respects_Idle_update o self t frame :
  samples o = true -> respects (confined o) (Idle_update self t frame).
Proof.
  intros Hs. unfold Idle_update. confined_tac;
    first [apply respects_get_idle | apply respects_trigger
          | by apply respects_carousel | by apply respects_count].
Qed.

Lemma respects_Filter_update o self t frame :
  captures o = true -> respects (confined o) (Filter_update self t frame).
Proof.
  intros Hc. unfold Filter_update. confined_tac;
    first [apply respects_get_filter | apply respects_set_state
          | by apply respects_apply_filter].
Qed.

Lemma respects_ShowPic_update o self t frame :
  respects (confined o) (ShowPic_update self t frame).
Proof.
  unfold ShowPic_update. confined_tac;
    first [apply respects_get_showpic | apply respects_set_state].
Qed.

(** An iteration sets the tick and then does what the update of the active
    state may do. *)
Lemma iteration_confined w self o now frame :
  _state (core w) = Some self ->
  objects w !! self = Some o ->
  confined o (with_core (with_tick now (core w)) w)
    (fst (CanvasCore_iteration now frame w)).
Proof.
  intros Hst Ho. rewrite (iteration_eq _ _ _ _ _ Hst Ho).
  destruct o as [|s|s|s].
  - apply respects_Startup_update.
  - by apply respects_Idle_update.
  - by apply respects_Filter_update.
  - apply respects_ShowPic_update.
Qed.

Lemma iteration_flags w now frame :
  let w' := fst (CanvasCore_iteration now frame w) in
  stopped (core w') = stopped (core w)
  /\ win_size (core w') = win_size (core w)
  /\ tick (core w') = now.
Proof.
  cbn zeta. destruct (_state (core w)) as [self|] eqn:Hst.
  - destruct (objects w !! self) as [o|] eqn:Ho.
    + destruct (iteration_confined w self o now frame Hst Ho) as (H1 & H2 & H3 & _).
      by rewrite H1, H2, H3.
    + unfold CanvasCore_iteration, State_update. run. rewrite Hst. world_simpl.
      by rewrite Ho.
  - unfold CanvasCore_iteration. run. by rewrite Hst.
Qed.

(** *** Worlds of a run that met no failure *)

Lemma bar_after_ui c w n :
  UI.creates c = [] -> is_Some (bar_scale (ui (core w)) n) ->
  is_Some (bar_scale (ui (core (after_ui c w))) n).
Proof. intros Hc Hb. cbn. by apply bar_kept. Qed.

Lemma consistent_entered_Idle w :
  ready (ui (core w)) -> is_Some (bar_scale (ui (core w)) "bar") ->
  shown (ui (core w)) "countdown" = Some false ->
  consistent (entered_Idle w).
Proof.
  intros Hr Hb Hc. split; [unfold entered_Idle; by do 2 apply ready_after_ui|].
  split; [unfold entered_Idle; by do 2 (apply bar_after_ui; [reflexivity|])|].
  exists (IdleObj Idle.__init__). split; [apply active_entered_Idle|].
  split; [by apply overlay_Idle_enter|]. split; [|reflexivity].
  unfold entered_Idle, after_ui, installed. world_simpl.
  rewrite bar_scale_set_prog; [reflexivity|]. by apply bar_kept.
Qed.

Lemma consistent_entered_Filter w cnt help countdown :
  ready (ui (core w)) -> is_Some (bar_scale (ui (core w)) "bar") ->
  overlay_shows (ui (core w)) help countdown ->
  consistent (after_ui (UI.SetProg "bar" cnt) (entered_Filter w)).
Proof.
  intros Hr Hb Hov.
  split; [unfold entered_Filter; by do 4 apply ready_after_ui|].
  split; [unfold entered_Filter; by do 4 (apply bar_after_ui; [reflexivity|])|].
  eexists. split; [rewrite active_after_ui; apply active_entered_Filter|].
  unfold entered_Filter, after_ui, installed. world_simpl. cbn [fits]. world_simpl.
  apply overlay_set_prog.
  apply (overlay_show_countdown _ false countdown); [by do 2 apply ready_exec|].
  apply overlay_set_text. by apply (overlay_hide_help _ help).
Qed.

Lemma consistent_entered_ShowPic w countdown :
  ready (ui (core w)) -> is_Some (bar_scale (ui (core w)) "bar") ->
  overlay_shows (ui (core w)) false countdown ->
  is_Some (filtered_frame (core w)) ->
  consistent (entered_ShowPic w).
Proof.
  intros Hr Hb Hov Hff.
  assert (Hui : ui (core (entered_ShowPic w))
                = fst (UI.exec (UI.Hide ["countdown"]) (ui (core w)))) by reflexivity.
  split; [rewrite Hui; by apply ready_exec|].
  split; [rewrite Hui; by apply bar_kept|].
  eexists. split; [apply active_entered_ShowPic|]. cbn [fits]. rewrite Hui.
  split; [by apply (overlay_hide_countdown _ false countdown)|exact Hff].
Qed.

Lemma consistent_Idle w self s :
  ready (ui (core w)) ->
  _state (core w) = Some self -> objects w !! self = Some (IdleObj s) ->
  overlay_shows (ui (core w)) true false ->
  bar_scale (ui (core w)) "bar" = Some (clamped (Idle.take_pic_cnt s)) ->
  (1 <=? Idle.take_pic_cnt s)%float = false ->
  consistent w.
Proof.
  intros Hr Hst Ho Hov Hb Hlt. split; [exact Hr|]. split; [by rewrite Hb|].
  exists (IdleObj s). split; [unfold active; by rewrite Hst|]. by split.
Qed.

Lemma consistent_iteration now frame w w' :
  consistent w -> CanvasCore_iteration now frame w = (w', Ok tt) -> consistent w'.
Proof.
  intros (Hr & Hb & o & Ha & Hf) Hit. unfold active in Ha.
  destruct (_state (core w)) as [self|] eqn:Hst; [|discriminate].
  rewrite (iteration_eq _ _ _ _ _ Hst Ha) in Hit.
  set (w0 := with_core (with_tick now (core w)) w) in Hit.
  assert (Hr0 : ready (ui (core w0))) by exact Hr.
  assert (Hb0 : is_Some (bar_scale (ui (core w0)) "bar")) by exact Hb.
  assert (Ho0 : objects w0 !! self = Some o) by exact Ha.
  assert (Hst0 : _state (core w0) = Some self) by exact Hst.
  assert (Hf0 : fits o w0) by (destruct o; exact Hf).
  clearbody w0. clear w Hr Hb Ha Hst Hf.
  destruct o as [|s|s|s]; cbn [fits] in Hf0.
  - rewrite (Startup_update_eq _ _ _ _ Hr0) in Hit. injection Hit as <-.
    destruct Hf0 as [Hh _]. apply consistent_entered_Idle; try done.
    apply Hh. set_solver.
  - destruct Hf0 as (Hov & Hbar & Hlt).
    destruct (Idle.finger_frame_interval s - now <? 0)%float eqn:Hfire.
    2:{ rewrite (Idle_update_unsampled _ _ _ _ _ Ho0 Hfire) in Hit. injection Hit as <-.
        by apply (consistent_Idle _ self s). }
    destruct (count_fingers (hand_detector (core w0)) frame) as [h [fc|e]] eqn:Hc.
    2:{ by rewrite (Idle_update_raise _ _ _ _ _ _ _ Ho0 Hfire Hc) in Hit. }
    pose proof (counted_self w0 self s now frame h fc Ho0) as Hself1.
    assert (Hui1 : ui (core (counted self now frame h fc s w0)) = ui (core w0))
      by reflexivity.
    assert (Hst1 : _state (core (counted self now frame h fc s w0)) = Some self)
      by exact Hst0.
    destruct (1 <=? sampled_cnt fc (Idle.take_pic_cnt s))%float eqn:Hge.
    { rewrite (Idle_sampled_transition _ _ _ _ _ _ _ Ho0 Hfire Hc Hr0 Hge) in Hit.
      injection Hit as <-. apply (consistent_entered_Filter _ _ true false); by rewrite Hui1. }
    destruct (rotates fc now s) eqn:Hrot.
    + rewrite (Idle_sampled_rotate _ _ _ _ _ _ _ Ho0 Hfire Hc Hr0 Hrot) in Hit.
      injection Hit as <-.
      eapply (consistent_Idle _ self).
      * unfold rotated. do 2 apply ready_after_ui. world_simpl. by rewrite Hui1.
      * exact Hst1.
      * unfold rotated, after_ui. world_simpl. eapply lookup_insert_self, Hself1.
      * unfold rotated, after_ui. world_simpl. rewrite Hui1.
        by apply overlay_set_prog, overlay_set_text.
      * unfold rotated, after_ui. world_simpl. rewrite Hui1.
        rewrite bar_scale_set_prog; [reflexivity|].
        rewrite bar_scale_set_text. by rewrite Hbar.
      * exact Hge.
    + rewrite (Idle_sampled_plain _ _ _ _ _ _ _ Ho0 Hfire Hc Hr0 Hge Hrot) in Hit.
      injection Hit as <-.
      eapply (consistent_Idle _ self).
      * apply ready_after_ui. by rewrite Hui1.
      * exact Hst1.
      * unfold after_ui. world_simpl. exact Hself1.
      * unfold after_ui. world_simpl. rewrite Hui1. by apply overlay_set_prog.
      * unfold after_ui. world_simpl. rewrite Hui1.
        rewrite bar_scale_set_prog; [reflexivity|]. by rewrite Hbar.
      * exact Hge.
  - destruct (0 <? Filter.countdown_time s - now)%float eqn:Hrun.
    + destruct (Py.int (Filter.countdown_time s - now)) as [n|e] eqn:Hint.
      2:{ by rewrite (Filter_update_running_raise _ _ _ _ _ Ho0 _ Hrun Hint) in Hit. }
      rewrite (Filter_update_running _ _ _ _ _ Ho0 _ Hr0 Hrun Hint) in Hit.
      injection Hit as <-. cbv zeta. unfold consistent, active, after_ui. world_simpl.
      change (UI.set_text "countdown" (Py.str n) (ui (core w0)))
        with (UI.exec (UI.SetText "countdown" (Py.str n)) (ui (core w0))).
      split; [by apply ready_exec|]. split; [by apply bar_kept|].
      exists (FilterObj s). split; [by rewrite Hst0|].
      cbn [fits]. world_simpl. by apply overlay_set_text.
    + rewrite (Filter_update_expired_eq _ _ _ _ _ Ho0 Hr0 Hrun) in Hit.
      set (w1 := after_ui (UI.Hide ["countdown"]) w0) in *.
      destruct (apply_filter_frame self frame w1) as (_ & _ & _ & _ & _ & Hok).
      unfold bind at 1 in Hit.
      destruct (Filter_apply_filter self frame w1) as [w2 [[]|e]] eqn:Hfa;
        cbn [fst snd] in *; [|discriminate].
      destruct (Hok eq_refl) as (m & mask & masked & result & Hm & Hand & Hcf).
      rewrite (apply_filter_ok self _ _ _ _ _ _ Hm Hand Hcf) in Hfa.
      injection Hfa as <-.
      assert (Hrf : ready (ui (core (filtered frame m mask masked result w1)))).
      { unfold filtered. world_simpl. by apply ready_after_ui. }
      pose proof (transition_ShowPic _ Hrf) as Ht.
      pose proof (eq_trans (eq_sym Ht) Hit) as Heq. injection Heq as <-.
      apply (consistent_entered_ShowPic _ false); [exact Hrf| | |].
      * unfold filtered. world_simpl. by apply bar_after_ui.
      * unfold filtered, w1, after_ui. world_simpl.
        by apply (overlay_hide_countdown _ false true).
      * unfold filtered. world_simpl. by eexists.
  - destruct Hf0 as [Hov Hff].
    rewrite (ShowPic_update_eq _ _ _ _ _ Ho0 Hr0) in Hit. cbn zeta in Hit.
    destruct (ShowPic.show_image_time s - now <? 0)%float; injection Hit as <-.
    + apply consistent_entered_Idle; try done. apply Hov.
    + split; [exact Hr0|]. split; [exact Hb0|].
      exists (ShowPicObj s). split; [unfold active; world_simpl; by rewrite Hst0|].
      by split.
Qed.

Lemma consistent_process q : forall w,
  consistent w -> snd (CanvasCore_process q w) = Ok tt ->
  consistent (fst (CanvasCore_process q w)).
Proof.
  induction q as [|[now frame] q IH]; intros w Hw Hok; [done|].
  rewrite process_cons in *. destruct (stopped (core w)); [done|].
  unfold bind in *.
  destruct (CanvasCore_iteration now frame w) as [w' [[]|e]] eqn:Hit; [|discriminate].
  apply IH; [|exact Hok]. by apply (consistent_iteration now frame w).
Qed.

Lemma consistent_init now screensize :
  consistent (fst (CanvasCore__init__ now screensize)).
Proof.
  split; [apply ready_init|]. split; [vm_compute; eauto|].
  exists StartupObj. split; [reflexivity|]. split; [|reflexivity].
  intros n Hn.
  repeat (apply elem_of_cons in Hn as [->|Hn]; [reflexivity|]).
  by apply elem_of_nil in Hn.
Qed.

(** *** Construction and the first frame *)

(** X1. Constructing the controller returns normally with Startup as the
    active state, the clock reading as its tick, no frame published and no
    picture stored.  On the way [Startup.enter] has built the registry: it
    holds exactly the four texts, each at its position and size and hidden,
    as [TextWriterTest] creates them, and the progress bar, drawn and empty;
    the texts to write are the countdown ["0"], the two help lines and the
    name of the carousel's first filter.  Only the registry has been
    called: nine commands, and no collaborator. *)
Theorem construction_builds_the_overlay (t0 : float) (screensize : Z * Z) :
  let r := CanvasCore__init__ t0 screensize in
  let w := fst r in
  snd r = Ok tt
  /\ active w = Some StartupObj
  /\ tick (core w) = t0
  /\ stopped (core w) = false
  /\ win_size (core w) = screensize
  /\ out_frame (core w) = None
  /\ filtered_frame (core w) = None
  /\ filters (core w) = new_FilterCarousel
  /\ UI.elements (ui (core w))
     = list_to_map
         [("bar", Bar Progressbar.__init__);
          ("filter_name", Text (TextWriterTest.__init__ (800, 670) 35));
          ("countdown", Text (TextWriterTest.__init__ (620, 360) 70));
          ("help_2", Text (TextWriterTest.__init__ (20, 650) 35));
          ("help_1", Text (TextWriterTest.__init__ (20, 690) 35))]
  /\ UI.texts (ui (core w))
     = list_to_map
         [("filter_name", "Current filter is " +:+ current_name new_FilterCarousel);
          ("help_2", "Show 2 fingers to change filter");
          ("help_1", "Show 5 fingers to take a picture!");
          ("countdown", "0")]
  /\ length (calls w) = 9%nat
  /\ Forall (fun x => calls_of StartupObj x = true) (calls w).
Proof.
  cbv zeta. do 8 (split; [reflexivity|]).
  split; [vm_compute; reflexivity|]. split; [vm_compute; reflexivity|].
  split; [reflexivity|].
  set (l := calls _). vm_compute in l. subst l. repeat constructor.
Qed.

Lemma Startup_iteration w self now frame :
  _state (core w) = Some self ->
  objects w !! self = Some StartupObj ->
  consistent w ->
  let r := CanvasCore_iteration now frame w in
  snd r = Ok tt
  /\ active (fst r) = Some (IdleObj Idle.__init__)
  /\ tick (core (fst r)) = now
  /\ out_frame (core (fst r)) = out_frame (core w)
  /\ hand_detector (core (fst r)) = hand_detector (core w)
  /\ calls (fst r)
     = calls w ++ [CallUI (UI.Show ["help_1"; "help_2"; "filter_name"; "bar"]);
                   CallUI (UI.SetProg "bar" 0)]
  /\ overlay_shows (ui (core (fst r))) true false
  /\ bar_scale (ui (core (fst r))) "bar" = Some 0%float.
Proof.
  intros Hst Ho (Hr & Hb & o & Ha & Hf) r.
  unfold active in Ha. rewrite Hst in Ha. change (objects w !! self = Some o) in Ha.
  rewrite Ho in Ha. injection Ha as <-. destruct Hf as [Hh _].
  set (w0 := with_core (with_tick now (core w)) w).
  assert (Hr0 : ready (ui (core w0))) by exact Hr.
  assert (Hb0 : is_Some (bar_scale (ui (core w0)) "bar")) by exact Hb.
  assert (Hc0 : shown (ui (core w0)) "countdown" = Some false) by (apply Hh; set_solver).
  assert (Hit : r = (entered_Idle w0, Ok tt)).
  { unfold r. rewrite (iteration_eq w self StartupObj now frame Hst Ho).
    apply (Startup_update_eq _ _ _ _ Hr0). }
  rewrite Hit. cbn [fst snd]. split; [reflexivity|].
  split; [apply active_entered_Idle|]. do 3 (split; [reflexivity|]).
  split; [unfold entered_Idle, after_ui, installed; world_simpl; by rewrite <- app_assoc|].
  destruct (consistent_entered_Idle w0 Hr0 Hb0 Hc0) as (_ & _ & o & Ha & Hf).
  rewrite active_entered_Idle in Ha. injection Ha as <-.
  destruct Hf as (Hov & Hbar & _). split; [exact Hov|exact Hbar].
Qed.

(** X2. The first frame is consumed by Startup: the iteration returns
    normally and leaves a new Idle state with every counter zero; the frame
    is not published (nothing is, yet) and no collaborator is called, the
    classifier included; the only calls are the two of [Idle.enter], after
    which the help lines, the filter name and the bar are drawn, the
    countdown is hidden and the bar is empty. *)
Theorem first_frame_starts_idle (t0 : float) (screensize : Z * Z)
    (now : float) (frame : Frame) :
  let w := fst (CanvasCore__init__ t0 screensize) in
  let r := CanvasCore_iteration now frame w in
  snd r = Ok tt
  /\ active (fst r) = Some (IdleObj Idle.__init__)
  /\ tick (core (fst r)) = now
  /\ out_frame (core (fst r)) = None
  /\ hand_detector (core (fst r)) = new_HandDetect
  /\ calls (fst r)
     = calls w ++ [CallUI (UI.Show ["help_1"; "help_2"; "filter_name"; "bar"]);
                   CallUI (UI.SetProg "bar" 0)]
  /\ overlay_shows (ui (core (fst r))) true false
  /\ bar_scale (ui (core (fst r))) "bar" = Some 0%float.
Proof.
  exact (Startup_iteration (fst (CanvasCore__init__ t0 screensize)) 0%nat now frame
           eq_refl eq_refl (consistent_init t0 screensize)).
Qed.

(** *** Invariants of a run *)

(** X3. After any frames processed from construction without a failure,
    the overlay is the one of the active state: in Idle the help lines, the
    filter name and the bar are drawn and the countdown is hidden; in Filter
    the countdown is drawn and the four others are hidden; in ShowPic all
    five are hidden; before the first frame the texts are hidden and the bar
    is drawn. *)
Theorem overlay_follows_the_active_state (t0 : float) (screensize : Z * Z)
    (q : list (float * Frame)) :
  let r := CanvasCore_process q (fst (CanvasCore__init__ t0 screensize)) in
  snd r = Ok tt ->
  match active (fst r) with
  | Some StartupObj =>
      (forall n, n ∈ ["help_1"; "help_2"; "filter_name"; "countdown"] ->
         shown (ui (core (fst r))) n = Some false)
      /\ shown (ui (core (fst r))) "bar" = Some true
  | Some (IdleObj _) => overlay_shows (ui (core (fst r))) true false
  | Some (FilterObj _) => overlay_shows (ui (core (fst r))) false true
  | Some (ShowPicObj _) => overlay_shows (ui (core (fst r))) false false
  | None => False
  end.
Proof.
  intros r Hok.
  destruct (consistent_process q _ (consistent_init t0 screensize) Hok)
    as (_ & _ & o & Ha & Hf).
  fold r in Ha, Hf. rewrite Ha. destruct o; cbn [fits] in Hf; tauto.
Qed.

(** X4. After any frames processed from construction without a failure,
    while Idle is the active state the bar is drawn with the accumulator of
    that state, a negative accumulator as [0.0], and the accumulator is
    below [1.0]: an update that brings it to [1.0] leaves Idle. *)
Theorem bar_shows_the_accumulator (t0 : float) (screensize : Z * Z)
    (q : list (float * Frame)) (s : Idle.t) :
  let r := CanvasCore_process q (fst (CanvasCore__init__ t0 screensize)) in
  snd r = Ok tt ->
  active (fst r) = Some (IdleObj s) ->
  bar_scale (ui (core (fst r))) "bar" = Some (clamped (Idle.take_pic_cnt s))
  /\ shown (ui (core (fst r))) "bar" = Some true
  /\ (1 <=? Idle.take_pic_cnt s)%float = false.
Proof.
  intros r Hok Hact.
  destruct (consistent_process q _ (consistent_init t0 screensize) Hok)
    as (_ & _ & o & Ha & Hf).
  fold r in Ha, Hf. rewrite Hact in Ha. injection Ha as <-.
  destruct Hf as ([Hh _] & Hbar & Hlt).
  split; [exact Hbar|]. split; [|exact Hlt]. apply Hh. unfold help_names. set_solver.
Qed.

(** X5. After any frames processed from construction without a failure,
    while ShowPic is the active state a filtered picture is stored, and the
    next update, which never fails, publishes that picture: ShowPic never
    publishes an empty frame. *)
Theorem showpic_has_a_picture (t0 : float) (screensize : Z * Z)
    (q : list (float * Frame)) (s : ShowPic.t) (now : float) (frame : Frame) :
  let r := CanvasCore_process q (fst (CanvasCore__init__ t0 screensize)) in
  snd r = Ok tt ->
  active (fst r) = Some (ShowPicObj s) ->
  let r' := CanvasCore_iteration now frame (fst r) in
  is_Some (filtered_frame (core (fst r)))
  /\ snd r' = Ok tt
  /\ out_frame (core (fst r')) = filtered_frame (core (fst r))
  /\ is_Some (out_frame (core (fst r'))).
Proof.
  intros r Hok Hact r'.
  destruct (consistent_process q _ (consistent_init t0 screensize) Hok)
    as (Hr & _ & o & Ha & Hf).
  fold r in Hr, Ha, Hf. rewrite Hact in Ha. injection Ha as <-.
  destruct Hf as [_ Hff]. unfold active in Hact.
  destruct (_state (core (fst r))) as [self|] eqn:Hst; [|discriminate].
  assert (Heq : r' = (let w0 := with_core (with_tick now (core (fst r))) (fst r) in
                      let w1 := with_core (with_out_frame (filtered_frame (core w0)) (core w0)) w0 in
                      if (ShowPic.show_image_time s - now <? 0)%float
                      then entered_Idle w1 else w1, Ok tt)).
  { unfold r'. rewrite (iteration_eq _ _ _ _ _ Hst Hact).
    by apply ShowPic_update_eq. }
  cbv zeta in Heq.
  assert (Hout : out_frame (core (fst r')) = filtered_frame (core (fst r))).
  { rewrite Heq. cbn [fst].
    by destruct (ShowPic.show_image_time s - now <? 0)%float. }
  split; [exact Hff|]. split; [by rewrite Heq|]. split; [exact Hout|].
  by rewrite Hout.
Qed.

(** X13. The states follow one another in one order.  After an iteration
    from a world where the overlay elements exist, whether it failed or not,
    a state object is active: either the same object as before, of the same
    class, or a new one of the class that follows: Idle after Startup,
    Filter after Idle, ShowPic after Filter, Idle after ShowPic.  Startup
    does not outlast one frame. *)
Theorem states_follow_one_order (w : World) (self : loc) (o : State)
    (now : float) (frame : Frame) :
  ready (ui (core w)) ->
  _state (core w) = Some self ->
  objects w !! self = Some o ->
  let w' := fst (CanvasCore_iteration now frame w) in
  exists o',
    active w' = Some o'
    /\ ((_state (core w') = Some self /\ kind o' = kind o)
        \/ (_state (core w') = Some (length (objects w))
            /\ kind o' = successor (kind o)))
    /\ (o = StartupObj -> kind o' = KIdle).
Proof.
  intros Hr Hst Ho w'. unfold w'. clear w'.
  assert (Hlt : (self < length (objects w))%nat) by (by eapply lookup_lt_Some).
  rewrite (iteration_eq _ _ _ _ _ Hst Ho).
  set (w0 := with_core (with_tick now (core w)) w).
  assert (Hr0 : ready (ui (core w0))) by exact Hr.
  assert (Ho0 : objects w0 !! self = Some o) by exact Ho.
  assert (Hst0 : _state (core w0) = Some self) by exact Hst.
  assert (Hlen : length (objects w0) = length (objects w)) by reflexivity.
  clearbody w0. rewrite <- Hlen. clear w Hr Hst Ho Hlt Hlen.
  destruct o as [|s|s|s].
  - rewrite (Startup_update_eq _ _ _ _ Hr0). cbn [fst].
    eexists. split; [apply active_entered_Idle|]. split; [|done]. by right.
  - destruct (Idle.finger_frame_interval s - now <? 0)%float eqn:Hfire.
    2:{ rewrite (Idle_update_unsampled _ _ _ _ _ Ho0 Hfire). cbn [fst].
        exists (IdleObj s). split; [unfold active; world_simpl; by rewrite Hst0|].
        split; [by left|done]. }
    destruct (count_fingers (hand_detector (core w0)) frame) as [h [fc|e]] eqn:Hc.
    2:{ rewrite (Idle_update_raise _ _ _ _ _ _ _ Ho0 Hfire Hc). cbn [fst].
        exists (IdleObj s). split; [unfold active; world_simpl; by rewrite Hst0|].
        split; [by left|done]. }
    pose proof (counted_self w0 self s now frame h fc Ho0) as Hself1.
    destruct (1 <=? sampled_cnt fc (Idle.take_pic_cnt s))%float eqn:Hge.
    { rewrite (Idle_sampled_transition _ _ _ _ _ _ _ Ho0 Hfire Hc Hr0 Hge). cbn [fst].
      eexists. split; [rewrite active_after_ui; apply active_entered_Filter|].
      split; [|done]. right. split; [|done].
      unfold entered_Filter, after_ui, installed, counted. world_simpl.
      by rewrite length_insert. }
    destruct (rotates fc now s) eqn:Hrot.
    + rewrite (Idle_sampled_rotate _ _ _ _ _ _ _ Ho0 Hfire Hc Hr0 Hrot). cbn [fst].
      eexists. split; [|split; [left; split; [exact Hst0|]|done]].
      * unfold active, rotated, after_ui. world_simpl.
        change (_state (core (counted self now frame h fc s w0))) with (_state (core w0)).
        rewrite Hst0. eapply lookup_insert_self, Hself1.
      * reflexivity.
    + rewrite (Idle_sampled_plain _ _ _ _ _ _ _ Ho0 Hfire Hc Hr0 Hge Hrot). cbn [fst].
      eexists. split; [|split; [left; split; [exact Hst0|]|done]].
      * unfold active, after_ui. world_simpl.
        change (_state (core (counted self now frame h fc s w0))) with (_state (core w0)).
        rewrite Hst0. exact Hself1.
      * reflexivity.
  - destruct (0 <? Filter.countdown_time s - now)%float eqn:Hrun.
    + exists (FilterObj s).
      destruct (Py.int (Filter.countdown_time s - now)) as [n|e] eqn:Hint.
      * rewrite (Filter_update_running _ _ _ _ _ Ho0 _ Hr0 Hrun Hint). cbv zeta. cbn [fst].
        split; [unfold active, after_ui; world_simpl; by rewrite Hst0|].
        split; [by left|done].
      * rewrite (Filter_update_running_raise _ _ _ _ _ Ho0 _ Hrun Hint). cbn [fst].
        split; [unfold active; by rewrite Hst0|]. split; [by left|done].
    + pose proof (Filter_update_expired_eq _ _ _ _ frame Ho0 Hr0 Hrun) as Hit.
      destruct (Filter_update self now frame w0) as [w' res]. cbn [fst].
      set (w1 := after_ui (UI.Hide ["countdown"]) w0) in *.
      destruct (apply_filter_frame self frame w1) as (Hobj & Hs & _ & _ & _ & Hok).
      unfold bind at 1 in Hit.
      destruct (Filter_apply_filter self frame w1) as [w2 [[]|e]] eqn:Hfa;
        cbn [fst snd] in *.
      * destruct (Hok eq_refl) as (m & mask & masked & result & Hm & Hand & Hcf).
        rewrite (apply_filter_ok self _ _ _ _ _ _ Hm Hand Hcf) in Hfa.
        injection Hfa as <-.
        assert (Hrf : ready (ui (core (filtered frame m mask masked result w1)))).
        { unfold filtered. world_simpl. by apply ready_after_ui. }
        rewrite (transition_ShowPic _ Hrf) in Hit. injection Hit as -> ->.
        eexists. split; [apply active_entered_ShowPic|]. split; [|done].
        right. split; [|done]. reflexivity.
      * injection Hit as -> ->.
        assert (Hs2 : _state (core w2) = Some self) by (rewrite Hs; exact Hst0).
        assert (Ho2 : objects w2 !! self = Some (FilterObj s)) by (rewrite Hobj; exact Ho0).
        exists (FilterObj s). split; [unfold active; by rewrite Hs2|].
        split; [by left|done].
  - rewrite (ShowPic_update_eq _ _ _ _ _ Ho0 Hr0). cbv zeta. cbn [fst].
    destruct (ShowPic.show_image_time s - now <? 0)%float.
    + eexists. split; [apply active_entered_Idle|]. split; [|done]. by right.
    + exists (ShowPicObj s). split; [unfold active; world_simpl; by rewrite Hst0|].
      split; [by left|done].
Qed.

(** *** The loop *)

Lemma process_flags q : forall w,
  stopped (core (fst (CanvasCore_process q w))) = stopped (core w)
  /\ win_size (core (fst (CanvasCore_process q w))) = win_size (core w).
Proof.
  induction q as [|[now frame] q IH]; intros w; [done|].
  rewrite process_cons. destruct (iteration_flags w now frame) as (H1 & H2 & _).
  destruct (stopped (core w)) eqn:Hs; [cbn [fst]; by split|].
  unfold bind.
  destruct (CanvasCore_iteration now frame w) as [w' [[]|e]]; cbn [fst] in *.
  - destruct (IH w') as [K1 K2]. by rewrite K1, K2, H1, H2.
  - by rewrite H1, H2.
Qed.

(** X6. [stop] sets the flag and nothing else, and a stopped controller
    takes no frame: [process] returns at once, whatever the queue holds, and
    changes nothing.  The loop itself never sets or clears the flag, nor
    the window size: they are after an iteration, and after [process], what
    they were before. *)
Theorem stop_ends_the_loop (w : World) (q : list (float * Frame))
    (now : float) (frame : Frame) :
  let ws := fst (CanvasCore_stop w) in
  CanvasCore_stop w = (with_core (with_stopped true (core w)) w, Ok tt)
  /\ CanvasCore_process q ws = (ws, Ok tt)
  /\ stopped (core (fst (CanvasCore_iteration now frame w))) = stopped (core w)
  /\ win_size (core (fst (CanvasCore_iteration now frame w))) = win_size (core w)
  /\ stopped (core (fst (CanvasCore_process q w))) = stopped (core w)
  /\ win_size (core (fst (CanvasCore_process q w))) = win_size (core w).
Proof.
  intros ws. split; [reflexivity|]. split; [by apply process_stopped|].
  destruct (iteration_flags w now frame) as (H1 & H2 & _).
  destruct (process_flags q w) as [K1 K2]. by repeat split.
Qed.

(** X7. A loop that is not stopped and meets no failure runs one update per
    frame, in the order of the queue: its world is the one obtained by
    folding the iterations over the queue, and the controller's tick is the
    clock reading of the last frame. *)
Theorem unstopped_loop_updates_once_per_frame (w : World) (q : list (float * Frame)) :
  stopped (core w) = false ->
  snd (CanvasCore_process q w) = Ok tt ->
  fst (CanvasCore_process q w) = fold_left step q w
  /\ (forall q' now frame, q = q' ++ [(now, frame)] ->
        tick (core (fst (CanvasCore_process q w))) = now).
Proof.
  intros Hs Hok.
  assert (Hfold : fst (CanvasCore_process q w) = fold_left step q w).
  { revert w Hs Hok. induction q as [|[now frame] q IH]; intros w Hs Hok; [done|].
    rewrite process_cons, Hs in *. unfold bind in *. cbn [fold_left]. unfold step at 2.
    cbn [fst snd]. destruct (iteration_flags w now frame) as (H1 & _).
    destruct (CanvasCore_iteration now frame w) as [w' [[]|e]]; [|discriminate].
    cbn [fst] in *. apply IH; [by rewrite H1|exact Hok]. }
  split; [exact Hfold|]. intros q' now frame ->. rewrite Hfold, fold_left_app.
  cbn [fold_left]. unfold step at 1. cbn [fst snd]. apply iteration_flags.
Qed.

(** X8. An update makes no call outside its state.  Whatever the active
    state holds, the calls of an iteration are calls on the registry and, in
    Idle only, on the classifier and the carousel's [next_filter], in Filter
    only, on the masker, [bitwise_and] and the filter transform: ShowPic and
    Startup call no collaborator, Idle never runs the filter pipeline, and
    Filter never classifies a frame nor rotates the carousel. *)
Theorem updates_call_only_their_collaborators (w : World) (self : loc) (o : State)
    (now : float) (frame : Frame) :
  _state (core w) = Some self ->
  objects w !! self = Some o ->
  let w' := fst (CanvasCore_iteration now frame w) in
  exists l,
    calls w' = calls w ++ l
    /\ Forall (fun x => calls_of o x = true) l
    /\ ((exists f, CallCountFingers f ∈ l) \/ CallNextFilter ∈ l ->
          exists s, o = IdleObj s)
    /\ ((exists f, CallApply f ∈ l) \/ (exists f m, CallBitwiseAnd f m ∈ l)
          \/ (exists f, CallCurrentFilter f ∈ l) ->
          exists s, o = FilterObj s).
Proof.
  intros Hst Ho w'.
  destruct (iteration_confined w self o now frame Hst Ho)
    as (_ & _ & _ & (l & Hl & Hall) & _).
  exists l. split; [exact Hl|]. split; [exact Hall|].
  rewrite Forall_forall in Hall. split.
  - intros [[f Hin]|Hin]; apply Hall in Hin; cbn in Hin; destruct o; try discriminate;
      by eexists.
  - intros [[f Hin]|[(f & m & Hin)|[f Hin]]]; apply Hall in Hin; cbn in Hin;
      destruct o; try discriminate; by eexists.
Qed.

(** X9. What a state does not use, its updates leave alone.  An iteration
    in Idle keeps the masker and the stored picture; one in Filter keeps the
    classifier and the carousel, so that the filter applied when the
    countdown ends is the one that was current when it began; one in ShowPic
    or Startup keeps all four. *)
Theorem collaborators_untouched_outside_their_state (w : World) (self : loc)
    (o : State) (now : float) (frame : Frame) :
  _state (core w) = Some self ->
  objects w !! self = Some o ->
  let w' := fst (CanvasCore_iteration now frame w) in
  let classifier_kept :=
    hand_detector (core w') = hand_detector (core w)
    /\ filters (core w') = filters (core w) in
  let picture_kept :=
    fg_masker (core w') = fg_masker (core w)
    /\ filtered_frame (core w') = filtered_frame (core w) in
  match o with
  | IdleObj _ => picture_kept
  | FilterObj _ => classifier_kept
  | StartupObj | ShowPicObj _ => classifier_kept /\ picture_kept
  end.
Proof.
  intros Hst Ho w' classifier_kept picture_kept.
  destruct (iteration_confined w self o now frame Hst Ho)
    as (_ & _ & _ & _ & Hc & Hp).
  destruct o; cbn [samples captures] in Hc, Hp.
  - split; [by apply Hc|by apply Hp].
  - by apply Hp.
  - by apply Hc.
  - split; [by apply Hc|by apply Hp].
Qed.

End CoreFacts.

(** * Runs of the controller with the concrete collaborators *)

Section Runs.
Import Demo.
Local Open Scope float_scope.

Ltac ready_run :=
  let n := fresh "n" in let Hn := fresh "Hn" in
  intros n Hn; unfold overlay_names in Hn;
  repeat (apply elem_of_cons in Hn as [->|Hn]; [vm_compute; eauto|]);
  exfalso; exact (proj1 (elem_of_nil n) Hn).

Lemma ready_started : ready (ui (core started)).
Proof. ready_run. Qed.

Lemma ready_one_five : ready (ui (core one_five)).
Proof. ready_run. Qed.

Lemma ready_nineteen : ready (ui (core nineteen)).
Proof. ready_run. Qed.

Lemma ready_twenty : ready (ui (core twenty)).
Proof. ready_run. Qed.

Lemma ready_showing : ready (ui (core showing)).
Proof. ready_run. Qed.




(** C2, counterexample.  After 19 samples the state is Idle.  When the
    update that takes the 20th sample, at tick 21, returns, Filter is
    already the active state; the update dispatched next, here at tick 22,
    before the countdown deadline 25, goes to Filter and makes no
    transition.  The transition is made by the update of the 20th sample,
    not by the one after it. *)
Lemma filter_entered_by_the_twentieth_update :
  (exists s, active nineteen = Some (IdleObj s))
  /\ active twenty = Some (FilterObj {| Filter.countdown_time := 25 |})
  /\ _state (core (after ((1, 0%Z) :: hold 20 2 5 ++ [(22, 5%Z)]))) = _state (core twenty).
Proof. vm_compute. split; [eexists; reflexivity|]. split; reflexivity. Qed.

(** C2, at a concrete run: 19 samples of five fingers, one per second, then
    the 20th at tick 21. *)
Lemma capture_after_twenty_witness :
  holding started 1%nat Idle.__init__
  /\ sustained_five 0 (hand_detector (core started)) (hold 19 2 5 ++ [(21, 5%Z)])
  /\ active (fst (CanvasCore_iteration 21 5%Z (fst (CanvasCore_process (hold 19 2 5) started))))
     = Some (FilterObj {| Filter.countdown_time := 21 + 4 |}).
Proof.
  assert (Hh : holding started 1%nat Idle.__init__).
  { split; [vm_compute; reflexivity|]. split; [vm_compute; reflexivity|].
    split; [exact ready_started|vm_compute; reflexivity]. }
  assert (Hs : sustained_five 0 (hand_detector (core started))
                 (hold 19 2 5 ++ [(21, 5%Z)])).
  { vm_compute. repeat (split; [reflexivity|]; exists tt; split; [reflexivity|]). exact I. }
  split; [exact Hh|]. split; [exact Hs|].
  destruct (capture_after_twenty_samples started 1%nat (hold 19 2 5) 21 5%Z Hh Hs eq_refl)
    as (_ & _ & _ & Ha & _).
  exact Ha.
Defined.

(** C3, counterexample.  One sample of five fingers leaves the accumulator
    at [0.05], a positive number; the next sample, of two fingers, rotates
    the carousel all the same: the carousel moves from its first filter to
    the second and [next_filter] is called.  So does a sample of two
    fingers after two samples of five; after three it does not. *)
Lemma rotation_with_a_positive_accumulator :
  (exists s, active one_five = Some (IdleObj s)
             /\ Idle.take_pic_cnt s = 0 + 0.05
             /\ ((0 <? Idle.take_pic_cnt s) = true))
  /\ filters (core one_five) = 0%nat
  /\ (CallNextFilter ∉ calls one_five)
  /\ filters (core (after [(1, 0%Z); (2, 5%Z); (3, 2%Z)])) = 1%nat
  /\ CallNextFilter ∈ calls (after [(1, 0%Z); (2, 5%Z); (3, 2%Z)])
  /\ filters (core (after [(1, 0%Z); (2, 5%Z); (3, 5%Z); (4, 2%Z)])) = 1%nat
  /\ filters (core (after [(1, 0%Z); (2, 5%Z); (3, 5%Z); (4, 5%Z); (5, 2%Z)])) = 0%nat.
Proof.
  split; [eexists; vm_compute; repeat split|].
  split; [vm_compute; reflexivity|].
  split.
  { intros Hin. vm_compute in Hin.
    repeat (apply elem_of_cons in Hin as [Hin|Hin]; [discriminate|]).
    exact (proj1 (elem_of_nil _) Hin). }
  split; [vm_compute; reflexivity|].
  split.
  { apply (list_elem_of_lookup_2 _ 14%nat). vm_compute. reflexivity. }
  split; vm_compute; reflexivity.
Qed.

(** C3, at a concrete update: two fingers shown to a fresh Idle state rotate
    the carousel. *)
Lemma rotation_witness :
  objects started !! 1%nat = Some (IdleObj Idle.__init__)
  /\ ready (ui (core started))
  /\ filters (core (fst (Idle_update 1%nat 2 2%Z started)))
     = next_filter (filters (core started)).
Proof.
  assert (Ho : objects started !! 1%nat = Some (IdleObj Idle.__init__)) by (vm_compute; reflexivity).
  split; [exact Ho|]. split; [exact ready_started|].
  destruct (rotation_exactly_when started 1%nat Idle.__init__ 2 2%Z tt 2%Z Ho ready_started
              ltac:(vm_compute; reflexivity) ltac:(vm_compute; reflexivity)) as (_ & _ & Ht & _).
  destruct Ht as [Hf _]; [vm_compute; repeat split|exact Hf].
Defined.

(** C4, at a concrete run: Filter entered at tick 21; the labels at ticks
    21.5 and 24.5 and the transition at tick 25. *)
Lemma countdown_witness :
  _state (core twenty) = Some 2%nat
  /\ objects twenty !! 2%nat = Some (FilterObj {| Filter.countdown_time := 21 + 4 |})
  /\ ready (ui (core twenty))
  /\ UI.texts (ui (core (fst (CanvasCore_iteration 21.5 7%Z twenty)))) !! "countdown"%string
     = Some "3"%string
  /\ UI.texts (ui (core (fst (CanvasCore_iteration 24.5 7%Z twenty)))) !! "countdown"%string
     = Some "0"%string
  /\ active (fst (CanvasCore_iteration 25 7%Z twenty))
     = Some (ShowPicObj {| ShowPic.show_image_time := 25 + 10 |}).
Proof.
  assert (Hst : _state (core twenty) = Some 2%nat) by (vm_compute; reflexivity).
  assert (Ho : objects twenty !! 2%nat
               = Some (FilterObj {| Filter.countdown_time := 21 + 4 |})) by (vm_compute; reflexivity).
  split; [exact Hst|]. split; [exact Ho|]. split; [exact ready_twenty|]. split; [|split].
  - destruct (countdown_then_filter twenty 2%nat 21 21.5 7%Z Hst Ho ready_twenty)
      as (_ & _ & Hrun & _).
    destruct (Hrun ltac:(vm_compute; reflexivity) 3%Z ltac:(vm_compute; reflexivity))
      as (_ & _ & _ & _ & _ & _ & _ & _ & _ & Ht).
    exact (Ht eq_refl).
  - destruct (countdown_then_filter twenty 2%nat 21 24.5 7%Z Hst Ho ready_twenty)
      as (_ & _ & Hrun & _).
    destruct (Hrun ltac:(vm_compute; reflexivity) 0%Z ltac:(vm_compute; reflexivity))
      as (_ & _ & Ht & _).
    exact Ht.
  - destruct (countdown_then_filter twenty 2%nat 21 25 7%Z Hst Ho ready_twenty)
      as (_ & _ & _ & Hexp & _).
    destruct (Hexp ltac:(vm_compute; reflexivity) tt 1%Z 7%Z 10007%Z
                ltac:(vm_compute; reflexivity) ltac:(vm_compute; reflexivity) ltac:(vm_compute; reflexivity))
      as (_ & _ & _ & Ha & _).
    exact Ha.
Defined.

(** C5, counterexample.  The picture is shown from tick 25, so the deadline
    is 35.  At tick 35 the deadline is reached ([35 <= 35]) and ShowPic is
    still the active state. *)
Lemma showpic_stays_at_its_deadline :
  active showing = Some (ShowPicObj {| ShowPic.show_image_time := 35 |})
  /\ (35 <=? 35) = true
  /\ active (after ((1, 0%Z) :: hold 20 2 5 ++ [(25, 7%Z); (35, 8%Z)]))
     = Some (ShowPicObj {| ShowPic.show_image_time := 35 |}).
Proof. vm_compute. repeat split. Qed.

(** C5, at a concrete run: the picture shown from tick 25 gives way to Idle
    at tick 35.5. *)
Lemma showpic_witness :
  _state (core showing) = Some 3%nat
  /\ objects showing !! 3%nat = Some (ShowPicObj {| ShowPic.show_image_time := 25 + 10 |})
  /\ ready (ui (core showing))
  /\ active (fst (CanvasCore_iteration 35.5 8%Z showing)) = Some (IdleObj Idle.__init__).
Proof.
  assert (Hst : _state (core showing) = Some 3%nat) by (vm_compute; reflexivity).
  assert (Ho : objects showing !! 3%nat
               = Some (ShowPicObj {| ShowPic.show_image_time := 25 + 10 |}))
    by (vm_compute; reflexivity).
  split; [exact Hst|]. split; [exact Ho|]. split; [exact ready_showing|].
  destruct (showpic_then_idle showing 3%nat _ 35.5 8%Z Hst Ho ready_showing)
    as (_ & _ & _ & _ & _ & Hover & _).
  destruct (Hover ltac:(vm_compute; reflexivity)) as [Ha _]. exact Ha.
Defined.

(** C6, counterexample.  After a sample at tick 2 the sampling deadline is
    [2 + 0.1].  An update at the tick [2 + 0.1], which has reached the
    deadline, makes no call at all: the classifier is not called. *)
Lemma no_sample_at_the_deadline :
  (exists s, active one_five = Some (IdleObj s)
             /\ Idle.finger_frame_interval s = 2 + 0.1)
  /\ (2 + 0.1 <=? 2 + 0.1) = true
  /\ calls (after [(1, 0%Z); (2, 5%Z); (2 + 0.1, 5%Z)]) = calls one_five.
Proof. vm_compute. split; [eexists; split; reflexivity|]. split; reflexivity. Qed.

(** C6, at a concrete update: at tick 2.05, before the deadline [2 + 0.1],
    the update only publishes the frame. *)
Lemma sampling_gate_witness :
  objects one_five !! 1%nat
    = Some (IdleObj {| Idle.take_pic_cnt := 0 + 0.05; Idle.change_filter_time := 0;
                       Idle.finger_frame_interval := 2 + 0.1 |})
  /\ ready (ui (core one_five))
  /\ Idle_update 1%nat 2.05 5%Z one_five
     = (with_core (with_out_frame (Some 5%Z) (core one_five)) one_five, Ok tt).
Proof.
  assert (Ho : objects one_five !! 1%nat
    = Some (IdleObj {| Idle.take_pic_cnt := 0 + 0.05; Idle.change_filter_time := 0;
                       Idle.finger_frame_interval := 2 + 0.1 |})) by (vm_compute; reflexivity).
  split; [exact Ho|]. split; [exact ready_one_five|].
  destruct (sampling_gate one_five 1%nat _ 2.05 5%Z Ho ready_one_five) as (_ & _ & Hclosed & _).
  exact (Hclosed ltac:(vm_compute; reflexivity)).
Defined.

(** C7, counterexample.  The classifier fails on the third frame: [process]
    ends with that failure, and the fourth frame is never consumed. *)
Lemma failure_stops_the_controller :
  result [(1, 0%Z); (2, 5%Z); (3, (-1)%Z); (4, 5%Z)] = Raise (CollaboratorError Classifier)
  /\ after [(1, 0%Z); (2, 5%Z); (3, (-1)%Z); (4, 5%Z)]
     = after [(1, 0%Z); (2, 5%Z); (3, (-1)%Z)]
  /\ tick (core (after [(1, 0%Z); (2, 5%Z); (3, (-1)%Z); (4, 5%Z)])) = 3
  /\ out_frame (core (after [(1, 0%Z); (2, 5%Z); (3, (-1)%Z); (4, 5%Z)])) = Some (-1)%Z.
Proof. vm_compute. repeat split. Qed.

(** C7, at a concrete run: the classifier fails at tick 3 and the frame of
    tick 4 stays in the queue. *)
Lemma failure_witness :
  sane one_five
  /\ stopped (core one_five) = false
  /\ snd (CanvasCore_iteration 3 (-1)%Z one_five) = Raise (CollaboratorError Classifier)
  /\ CanvasCore_process [(3, (-1)%Z); (4, 5%Z)] one_five
     = (fst (CanvasCore_iteration 3 (-1)%Z one_five), Raise (CollaboratorError Classifier)).
Proof.
  assert (Hs : sane one_five).
  { split; [exact ready_one_five|]. vm_compute. eexists. reflexivity. }
  assert (He : snd (CanvasCore_iteration 3 (-1)%Z one_five)
               = Raise (CollaboratorError Classifier)) by (vm_compute; reflexivity).
  split; [exact Hs|]. split; [vm_compute; reflexivity|]. split; [exact He|].
  destruct (failure_ends_the_loop one_five 3 (-1)%Z [(4, 5%Z)] _ Hs
              ltac:(vm_compute; reflexivity) He) as [Hp _].
  exact Hp.
Defined.

(** C10, at a concrete run: the 20th sample of five fingers, at tick 21. *)
Lemma progress_command_witness :
  _state (core nineteen) = Some 1%nat
  /\ objects nineteen !! 1%nat
     = Some (IdleObj {| Idle.take_pic_cnt := accumulate 19 0; Idle.change_filter_time := 0;
                        Idle.finger_frame_interval := 20 + 0.1 |})
  /\ ready (ui (core nineteen))
  /\ exists w1,
       CanvasCore_iteration 21 5%Z nineteen
       = (after_ui (UI.SetProg "bar" (sampled_cnt 5 (accumulate 19 0))) w1, Ok tt)
       /\ active w1 = Some (FilterObj {| Filter.countdown_time := 21 + 4 |}).
Proof.
  assert (Hst : _state (core nineteen) = Some 1%nat) by (vm_compute; reflexivity).
  assert (Ho : objects nineteen !! 1%nat
     = Some (IdleObj {| Idle.take_pic_cnt := accumulate 19 0; Idle.change_filter_time := 0;
                        Idle.finger_frame_interval := 20 + 0.1 |})) by (vm_compute; reflexivity).
  split; [exact Hst|]. split; [exact Ho|]. split; [exact ready_nineteen|].
  destruct (progress_command_after_transition nineteen 1%nat _ 21 5%Z tt 5%Z
              Hst Ho ready_nineteen ltac:(vm_compute; reflexivity) ltac:(vm_compute; reflexivity)
              ltac:(vm_compute; reflexivity)) as (w1 & Hit & Ha & _).
  exists w1. split; [exact Hit|exact Ha].
Defined.

(** *** Runs for the properties of the loop and of the registry *)

(** X3, at a concrete run: after the 20th sample of five fingers Filter is
    active, the countdown is drawn and the four other elements are hidden. *)
Lemma overlay_witness :
  snd (CanvasCore_process ((1, 0%Z) :: hold 20 2 5)
         (fst (CanvasCore__init__ 0.5 (1280, 720)%Z))) = Ok tt
  /\ overlay_shows
       (ui (core (fst (CanvasCore_process ((1, 0%Z) :: hold 20 2 5)
                         (fst (CanvasCore__init__ 0.5 (1280, 720)%Z))))))
       false true.
Proof.
  assert (Hok : snd (CanvasCore_process ((1, 0%Z) :: hold 20 2 5)
                       (fst (CanvasCore__init__ 0.5 (1280, 720)%Z))) = Ok tt)
    by (vm_compute; reflexivity).
  split; [exact Hok|].
  pose proof (overlay_follows_the_active_state (C := collaborators) 0.5 (1280, 720)%Z
                ((1, 0%Z) :: hold 20 2 5) Hok) as H.
  assert (Ha : active (fst (CanvasCore_process ((1, 0%Z) :: hold 20 2 5)
                              (fst (CanvasCore__init__ 0.5 (1280, 720)%Z))))
               = Some (FilterObj {| Filter.countdown_time := 21 + 4 |}))
    by (vm_compute; reflexivity).
  rewrite Ha in H. exact H.
Defined.

(** X4, at a concrete run: after one sample of five fingers the bar is
    drawn with [0 + 0.05]. *)
Lemma bar_witness :
  snd (CanvasCore_process [(1, 0%Z); (2, 5%Z)]
         (fst (CanvasCore__init__ 0.5 (1280, 720)%Z))) = Ok tt
  /\ active (fst (CanvasCore_process [(1, 0%Z); (2, 5%Z)]
                    (fst (CanvasCore__init__ 0.5 (1280, 720)%Z))))
     = Some (IdleObj {| Idle.take_pic_cnt := 0 + 0.05; Idle.change_filter_time := 0;
                        Idle.finger_frame_interval := 2 + 0.1 |})
  /\ bar_scale
       (ui (core (fst (CanvasCore_process [(1, 0%Z); (2, 5%Z)]
                         (fst (CanvasCore__init__ 0.5 (1280, 720)%Z))))))
       "bar"
     = Some (clamped (0 + 0.05)).
Proof.
  assert (Hok : snd (CanvasCore_process [(1, 0%Z); (2, 5%Z)]
                       (fst (CanvasCore__init__ 0.5 (1280, 720)%Z))) = Ok tt)
    by (vm_compute; reflexivity).
  assert (Ha : active (fst (CanvasCore_process [(1, 0%Z); (2, 5%Z)]
                              (fst (CanvasCore__init__ 0.5 (1280, 720)%Z))))
     = Some (IdleObj {| Idle.take_pic_cnt := 0 + 0.05; Idle.change_filter_time := 0;
                        Idle.finger_frame_interval := 2 + 0.1 |}))
    by (vm_compute; reflexivity).
  split; [exact Hok|]. split; [exact Ha|].
  destruct (bar_shows_the_accumulator (C := collaborators) 0.5 (1280, 720)%Z [(1, 0%Z); (2, 5%Z)] _ Hok Ha)
    as [Hbar _].
  exact Hbar.
Defined.

(** X5, at a concrete run: while the picture taken at tick 25 is shown, a
    picture is stored. *)
Lemma picture_witness :
  snd (CanvasCore_process ((1, 0%Z) :: hold 20 2 5 ++ [(25, 7%Z)])
         (fst (CanvasCore__init__ 0.5 (1280, 720)%Z))) = Ok tt
  /\ active (fst (CanvasCore_process ((1, 0%Z) :: hold 20 2 5 ++ [(25, 7%Z)])
                    (fst (CanvasCore__init__ 0.5 (1280, 720)%Z))))
     = Some (ShowPicObj {| ShowPic.show_image_time := 25 + 10 |})
  /\ is_Some (filtered_frame
                (core (fst (CanvasCore_process ((1, 0%Z) :: hold 20 2 5 ++ [(25, 7%Z)])
                              (fst (CanvasCore__init__ 0.5 (1280, 720)%Z)))))).
Proof.
  assert (Hok : snd (CanvasCore_process ((1, 0%Z) :: hold 20 2 5 ++ [(25, 7%Z)])
                       (fst (CanvasCore__init__ 0.5 (1280, 720)%Z))) = Ok tt)
    by (vm_compute; reflexivity).
  assert (Ha : active (fst (CanvasCore_process ((1, 0%Z) :: hold 20 2 5 ++ [(25, 7%Z)])
                              (fst (CanvasCore__init__ 0.5 (1280, 720)%Z))))
               = Some (ShowPicObj {| ShowPic.show_image_time := 25 + 10 |}))
    by (vm_compute; reflexivity).
  split; [exact Hok|]. split; [exact Ha|].
  destruct (showpic_has_a_picture (C := collaborators) 0.5 (1280, 720)%Z
              ((1, 0%Z) :: hold 20 2 5 ++ [(25, 7%Z)]) _ 26 8%Z Hok Ha) as [Hff _].
  exact Hff.
Defined.

(** X7, at a concrete run: two frames from construction. *)
Lemma loop_witness :
  stopped (core boot) = false
  /\ snd (CanvasCore_process [(1, 0%Z); (2, 5%Z)] boot) = Ok tt
  /\ fst (CanvasCore_process [(1, 0%Z); (2, 5%Z)] boot)
     = fold_left step [(1, 0%Z); (2, 5%Z)] boot.
Proof.
  assert (Hs : stopped (core boot) = false) by (vm_compute; reflexivity).
  assert (Hok : snd (CanvasCore_process [(1, 0%Z); (2, 5%Z)] boot) = Ok tt)
    by (vm_compute; reflexivity).
  split; [exact Hs|]. split; [exact Hok|].
  destruct (unstopped_loop_updates_once_per_frame (C := collaborators) boot [(1, 0%Z); (2, 5%Z)] Hs Hok)
    as [Hfold _].
  exact Hfold.
Defined.

(** X8, at a concrete update: the end of the countdown at tick 25. *)
Lemma calls_witness :
  _state (core twenty) = Some 2%nat
  /\ objects twenty !! 2%nat = Some (FilterObj {| Filter.countdown_time := 21 + 4 |})
  /\ exists l,
       calls (fst (CanvasCore_iteration 25 7%Z twenty)) = calls twenty ++ l
       /\ Forall (fun x => calls_of (FilterObj {| Filter.countdown_time := 21 + 4 |}) x = true) l.
Proof.
  assert (Hst : _state (core twenty) = Some 2%nat) by (vm_compute; reflexivity).
  assert (Ho : objects twenty !! 2%nat
               = Some (FilterObj {| Filter.countdown_time := 21 + 4 |})) by (vm_compute; reflexivity).
  split; [exact Hst|]. split; [exact Ho|].
  destruct (updates_call_only_their_collaborators (C := collaborators) twenty 2%nat _ 25 7%Z Hst Ho)
    as (l & Hl & Hall & _).
  exists l. split; [exact Hl|exact Hall].
Defined.

(** X9, at a concrete update: during the countdown the carousel stays. *)
Lemma untouched_witness :
  _state (core twenty) = Some 2%nat
  /\ objects twenty !! 2%nat = Some (FilterObj {| Filter.countdown_time := 21 + 4 |})
  /\ filters (core (fst (CanvasCore_iteration 22 2%Z twenty))) = filters (core twenty).
Proof.
  assert (Hst : _state (core twenty) = Some 2%nat) by (vm_compute; reflexivity).
  assert (Ho : objects twenty !! 2%nat
               = Some (FilterObj {| Filter.countdown_time := 21 + 4 |})) by (vm_compute; reflexivity).
  split; [exact Hst|]. split; [exact Ho|].
  destruct (collaborators_untouched_outside_their_state (C := collaborators) twenty 2%nat _ 22 2%Z Hst Ho)
    as [_ Hfil].
  exact Hfil.
Defined.

(** X13, at a concrete update: the 20th sample of five fingers, at tick 21,
    installs the state that follows Idle. *)
Lemma order_witness :
  ready (ui (core nineteen))
  /\ _state (core nineteen) = Some 1%nat
  /\ objects nineteen !! 1%nat
     = Some (IdleObj {| Idle.take_pic_cnt := accumulate 19 0; Idle.change_filter_time := 0;
                        Idle.finger_frame_interval := 20 + 0.1 |})
  /\ exists o',
       active (fst (CanvasCore_iteration 21 5%Z nineteen)) = Some o'
       /\ ((_state (core (fst (CanvasCore_iteration 21 5%Z nineteen))) = Some 1%nat
            /\ kind o' = KIdle)
           \/ (_state (core (fst (CanvasCore_iteration 21 5%Z nineteen)))
                = Some (length (objects nineteen))
               /\ kind o' = KFilter)).
Proof.
  assert (Hst : _state (core nineteen) = Some 1%nat) by (vm_compute; reflexivity).
  assert (Ho : objects nineteen !! 1%nat
     = Some (IdleObj {| Idle.take_pic_cnt := accumulate 19 0; Idle.change_filter_time := 0;
                        Idle.finger_frame_interval := 20 + 0.1 |})) by (vm_compute; reflexivity).
  split; [exact ready_nineteen|]. split; [exact Hst|]. split; [exact Ho|].
  destruct (states_follow_one_order (C := collaborators) nineteen 1%nat _ 21 5%Z
              ready_nineteen Hst Ho) as (o' & Ha & Hk & _).
  exists o'. split; [exact Ha|exact Hk].
Defined.

(** X10, at a concrete history: a text set on a created element. *)
Lemma texts_witness :
  is_Some (UI.texts (UI.run [UI.CreateText "a" (0, 0)%Z 1; UI.SetText "a" "x"] UI.__init__)
             !! "a"%string)
  /\ "a"%string ∈ UI.created [UI.CreateText "a" (0, 0)%Z 1; UI.SetText "a" "x"].
Proof.
  assert (H : is_Some (UI.texts (UI.run [UI.CreateText "a" (0, 0)%Z 1; UI.SetText "a" "x"]
                                   UI.__init__) !! "a"%string))
    by (vm_compute; eexists; reflexivity).
  split; [exact H|].
  exact (proj2 (texts_only_for_created_elements _ _ H)).
Defined.

(** X11, at a concrete call: [show("a", "b")] where only ["a"] exists. *)
Lemma unknown_name_witness :
  UI.elements (UI.run [UI.CreateText "a" (0, 0)%Z 1] UI.__init__) !! "b"%string = None
  /\ snd (UI.show ["a"; "b"]%string (UI.run [UI.CreateText "a" (0, 0)%Z 1] UI.__init__))
     = Raise KeyError
  /\ shown (fst (UI.show ["a"; "b"]%string
                   (UI.run [UI.CreateText "a" (0, 0)%Z 1] UI.__init__))) "a"
     = Some true.
Proof.
  assert (Hb : UI.elements (UI.run [UI.CreateText "a" (0, 0)%Z 1] UI.__init__) !! "b"%string
               = None) by (vm_compute; reflexivity).
  assert (Hp : forall n, n ∈ ["a"%string] ->
                 is_Some (UI.elements (UI.run [UI.CreateText "a" (0, 0)%Z 1] UI.__init__) !! n)).
  { intros n Hn. apply elem_of_cons in Hn as [->|Hn]; [vm_compute; eexists; reflexivity|].
    exfalso. exact (proj1 (elem_of_nil n) Hn). }
  split; [exact Hb|].
  destruct (visibility_loop_stops_at_unknown_name true ["a"%string] [] "b" _ Hp Hb)
    as (Hr & Hs & _).
  split; [exact Hr|]. apply Hs. apply elem_of_cons. left. reflexivity.
Defined.

(** X12, at a concrete registry: [hide("a")] after [show("a")]. *)
Lemma later_call_witness :
  fst (UI.hide ["a"%string]
         (fst (UI.show ["a"%string] (UI.run [UI.CreateText "a" (0, 0)%Z 1] UI.__init__))))
  = fst (UI.hide ["a"%string] (UI.run [UI.CreateText "a" (0, 0)%Z 1] UI.__init__)).
Proof.
  assert (Hp : forall n, n ∈ ["a"%string] ->
                 is_Some (UI.elements (UI.run [UI.CreateText "a" (0, 0)%Z 1] UI.__init__) !! n)).
  { intros n Hn. apply elem_of_cons in Hn as [->|Hn]; [vm_compute; eexists; reflexivity|].
    exfalso. exact (proj1 (elem_of_nil n) Hn). }
  exact (proj2 (proj2 (later_visibility_call_wins false true ["a"%string] _ Hp))).
Defined.

End Runs.
